(** * Stages segment generator and ramp extractor: a shallow embedding

    The development follows [stages/segment_generator.cc] and
    [stages/ramp_extractor.cc].  Single-precision arithmetic is the
    IEEE-754 binary32 instance of the Standard Library's executable
    [SpecFloat] operations, so every kernel below can be run on concrete
    gate streams.  Pointers stored in a segment are tagged references to
    the cells of the generator they point to, and the collaborators the
    two files only call (look-up tables, the random generator, delay
    lines, the division quantizer) are the fields of an environment
    record. *)

From Stdlib Require Import ZArith List Bool Lia.
From Stdlib Require Import Floats.SpecFloat.
Import ListNotations.
Open Scope Z_scope.

(** ** Binary32 arithmetic *)

Module F32.

Definition float : Type := spec_float.
Definition prec : Z := 24.
Definition emax : Z := 128.

Definition add : float -> float -> float := SFadd prec emax.
Definition sub : float -> float -> float := SFsub prec emax.
Definition mul : float -> float -> float := SFmul prec emax.
Definition div : float -> float -> float := SFdiv prec emax.
Definition fabs : float -> float := SFabs.

(** [a < b], [a <= b], [a > b], [a >= b], [a != b] of C++: every
    ordered comparison with a NaN is false. *)
Definition lt (a b : float) : bool := SFltb a b.
Definition le (a b : float) : bool := SFleb a b.
Definition gt (a b : float) : bool := SFltb b a.
Definition ge (a b : float) : bool := SFleb b a.
Definition ne (a b : float) : bool := negb (SFeqb a b).

(** Conversion of an integer, round to nearest even. *)
Definition of_Z (z : Z) : float := binary_normalize prec emax z 0 false.

(** The literal [n/d] written in decimal in the source: the binary32
    nearest to the quotient. *)
Definition lit (n : Z) (d : positive) : float :=
  match n with
  | Z0 => S754_zero false
  | Zpos p => div (S754_finite false p 0) (S754_finite false d 0)
  | Zneg p => div (S754_finite true p 0) (S754_finite false d 0)
  end.

(** Integer part, rounding toward zero; none for NaN and infinities. *)
Definition trunc (x : float) : option Z :=
  match x with
  | S754_zero _ => Some 0
  | S754_finite s m e =>
      let mag := if 0 <=? e then Z.shiftl (Zpos m) e
                 else Z.shiftr (Zpos m) (- e) in
      Some (if s then - mag else mag)
  | S754_infinity _ | S754_nan => None
  end.

(** Largest integer not above the value (used on the specification
    side only). *)
Definition floor (x : float) : option Z :=
  match x with
  | S754_zero _ => Some 0
  | S754_finite s m e =>
      let n := if s then Zneg m else Zpos m in
      Some (if 0 <=? e then Z.shiftl n e else n / 2 ^ (- e))
  | S754_infinity _ | S754_nan => None
  end.

Definition saturate (lo hi : Z) (x : float) : Z :=
  match x with
  | S754_nan => 0
  | S754_infinity s => if s then lo else hi
  | _ => match trunc x with
         | Some z => Z.max lo (Z.min hi z)
         | None => 0
         end
  end.

(** [static_cast<int32_t>], [static_cast<uint32_t>] and [size_t(...)].
    The value is truncated toward zero.  C++ leaves the conversion of a
    value that does not fit undefined; the model takes the result of the
    conversion instruction of the Cortex-M4 the firmware runs on, which
    saturates and sends NaN to 0. *)
Definition to_int32 : float -> Z := saturate (- 2 ^ 31) (2 ^ 31 - 1).
Definition to_uint32 : float -> Z := saturate 0 (2 ^ 32 - 1).
Definition to_size_t : float -> Z := to_uint32.

(** [std::min] and [std::max]: the first argument unless the second is
    strictly better. *)
Definition min (a b : float) : float := if lt b a then b else a.
Definition max (a b : float) : float := if lt a b then b else a.

(** Rounding of a double to single precision. *)
Definition of_double (x : spec_float) : float :=
  match x with
  | S754_finite s m e => binary_round prec emax s m e
  | _ => x
  end.

Definition zero : float := S754_zero false.
Definition half : float := lit 1 2.
Definition one : float := of_Z 1.

(** Sign test used by the bound proofs: zero of either sign, a positive
    finite value or plus infinity. *)
Definition nonneg (x : float) : Prop :=
  match x with
  | S754_zero _ => True
  | S754_finite s _ _ => s = false
  | S754_infinity s => s = false
  | S754_nan => False
  end.

(** A value that is not NaN and carries the sign [s]. *)
Definition signed (s : bool) (x : float) : Prop :=
  match x with
  | S754_zero s' | S754_infinity s' | S754_finite s' _ _ => s' = s
  | S754_nan => False
  end.

End F32.

Abbreviation float := F32.float.

(** Double precision, for the one expression of the source that mixes a
    [double] literal in.  A binary32 value is a binary64 value as it is. *)
Module F64.
Definition prec : Z := 53.
Definition emax : Z := 1024.
Definition sub : spec_float -> spec_float -> spec_float := SFsub prec emax.
Definition mul : spec_float -> spec_float -> spec_float := SFmul prec emax.
Definition half : spec_float := SFdiv prec emax (S754_finite false 1 0)
                                  (S754_finite false 2 0).
End F64.

#[global] Arguments F32.add _ _ : simpl never.
#[global] Arguments F32.sub _ _ : simpl never.
#[global] Arguments F32.mul _ _ : simpl never.
#[global] Arguments F32.div _ _ : simpl never.
#[global] Arguments F32.lt _ _ : simpl never.
#[global] Arguments F32.le _ _ : simpl never.
#[global] Arguments F32.gt _ _ : simpl never.
#[global] Arguments F32.ge _ _ : simpl never.
#[global] Arguments F32.ne _ _ : simpl never.
#[global] Arguments F32.of_Z _ : simpl never.
#[global] Arguments F32.lit _ _ : simpl never.
#[global] Arguments F32.to_int32 _ : simpl never.
#[global] Arguments F32.to_uint32 _ : simpl never.
#[global] Arguments F32.to_size_t _ : simpl never.
#[global] Arguments F32.min _ _ : simpl never.
#[global] Arguments F32.max _ _ : simpl never.
#[global] Arguments F32.of_double _ : simpl never.
#[global] Arguments F32.zero : simpl never.
#[global] Arguments F32.half : simpl never.
#[global] Arguments F32.one : simpl never.

Declare Scope f32_scope.
Delimit Scope f32_scope with f32.
Infix "+" := F32.add : f32_scope.
Infix "-" := F32.sub : f32_scope.
Infix "*" := F32.mul : f32_scope.
Infix "/" := F32.div : f32_scope.
Infix "<?" := F32.lt : f32_scope.
Infix "<=?" := F32.le : f32_scope.
Infix ">?" := F32.gt : f32_scope.
Infix ">=?" := F32.ge : f32_scope.

(** ** Macros and helpers of [stmlib/dsp/dsp.h] *)

(** Modelled from the spec: [ONE_POLE(out, in, coefficient)], the one-pole
    smoother [y <- y + k * (x - y)] of the glossary. *)
Definition ONE_POLE (out in_ coefficient : float) : float :=
  (out + coefficient * (in_ - out))%f32.

(** [SLOPE(out, in, positive, negative)], as quoted in the comment of
    [RampExtractor::PredictNextPeriod]. *)
Definition SLOPE (out in_ positive negative : float) : float :=
  let error := (in_ - out)%f32 in
  (out + (if (error >? F32.zero)%f32 then positive else negative) * error)%f32.

(** Modelled from the spec: [CONSTRAIN(var, min, max)], the numeric clamp. *)
Definition CONSTRAIN (var lo hi : float) : float :=
  if (var <? lo)%f32 then lo else if (var >? hi)%f32 then hi else var.

Definition CONSTRAIN_int (var lo hi : Z) : Z :=
  if var <? lo then lo else if var >? hi then hi else var.

(** Modelled from the spec: [Crossfade(a, b, fade)], the linear blend
    [crossfade(start, end, warp)] of section 4.2. *)
Definition Crossfade (a b fade : float) : float :=
  (a + (b - a) * fade)%f32.

(** ** Gate flags ([stmlib/utils/gate_flags.h]) *)

Definition GateFlags : Type := Z.
Definition GATE_FLAG_LOW : GateFlags := 0.
Definition GATE_FLAG_HIGH : GateFlags := 1.
Definition GATE_FLAG_RISING : GateFlags := 2.
Definition GATE_FLAG_FALLING : GateFlags := 4.

(** The C++ test [flags & MASK]. *)
Definition flag_set (flags mask : GateFlags) : bool :=
  negb (Z.land flags mask =? 0).

(** ** Arrays *)

Definition at_ {A : Type} (d : A) (l : list A) (i : Z) : A :=
  if i <? 0 then d else nth (Z.to_nat i) l d.

Fixpoint put_nat {A : Type} (l : list A) (n : nat) (x : A) : list A :=
  match l, n with
  | [], _ => []
  | _ :: t, O => x :: t
  | h :: t, S n' => h :: put_nat t n' x
  end.

(** In-place store [l[i] = x]; a store outside the array is dropped. *)
Definition put {A : Type} (l : list A) (i : Z) (x : A) : list A :=
  if i <? 0 then l else put_nat l (Z.to_nat i) x.

(** The indices [lo, lo+1, ..., lo+n-1] of a [for] loop. *)
Fixpoint indices (lo : Z) (n : nat) : list Z :=
  match n with
  | O => []
  | S n' => lo :: indices (lo + 1) n'
  end.

Definition upto (lo hi : Z) : list Z := indices lo (Z.to_nat (hi - lo + 1)).

(** A loop [while (size--)] that consumes one input and emits one result
    per turn. *)
Fixpoint for_each_sample {S A B : Type} (step : S -> A -> S * B) (s : S)
    (input : list A) : S * list B :=
  match input with
  | [] => (s, [])
  | a :: rest =>
      let '(s, b) := step s a in
      let '(s, out) := for_each_sample step s rest in
      (s, b :: out)
  end.

(** ** Collaborators

    What the two source files use but do not define: constants of the
    headers, the look-up tables of [stages/resources.h], and the classes
    of [stmlib] the generator owns.  A table is read as memory: the entry
    at any offset from its base, the declared size apart. *)

Record Env : Type := {
  kSampleRate : float;
  LUT_ENV_FREQUENCY_SIZE : Z;
  lut_env_frequency : Z -> float;
  LUT_PORTAMENTO_COEFFICIENT_SIZE : Z;
  lut_portamento_coefficient : Z -> float;
  (** [stmlib::SemitonesToRatio] *)
  SemitonesToRatio : float -> float;
  (** [stmlib::InterpolateWrap(lut_sine, index, size)] *)
  InterpolateWrap_lut_sine : float -> float -> float;
  (** [stmlib::Random]: the generator state, [GetSample], [GetFloat] *)
  Rng : Type;
  Random_GetSample : Rng -> Z * Rng;
  Random_GetFloat : Rng -> float * Rng;
  (** [stmlib::HysteresisQuantizer]: [Init] and the index [Lookup] picks
      in a table of [num_steps] entries *)
  Quantizer : Type;
  Quantizer_Init : Quantizer -> Quantizer;
  Quantizer_Lookup : Quantizer -> float -> Z -> Z * Quantizer;
  (** [DelayLine16Bits<kMaxDelay>] *)
  kMaxDelay : Z;
  DelayLine : Type;
  DelayLine_Init : DelayLine -> DelayLine;
  DelayLine_Write : DelayLine -> float -> DelayLine;
  DelayLine_Read : DelayLine -> float -> float;
  (** the gate delay ring *)
  GateDelay : Type;
  GateDelay_Init : GateDelay -> GateDelay;
  GateDelay_Write : GateDelay -> GateFlags -> GateDelay;
  GateDelay_Read : GateDelay -> Z -> GateFlags
}.

(** ** Data model ([stages/segment_generator.h]) *)

Definition kMaxNumSegments : Z := 6.

Module segment.

Inductive Type_ : Type := TYPE_RAMP | TYPE_STEP | TYPE_HOLD | TYPE_TURING.

Definition Type_index (t : Type_) : Z :=
  match t with
  | TYPE_RAMP => 0 | TYPE_STEP => 1 | TYPE_HOLD => 2 | TYPE_TURING => 3
  end.

Definition Type_eqb (a b : Type_) : bool := Type_index a =? Type_index b.

Inductive Range : Type := RANGE_DEFAULT | RANGE_SLOW | RANGE_FAST.

Record Configuration : Type := {
  type : Type_;
  loop : bool;
  bipolar : bool;
  range : Range
}.

Record Parameters : Type := {
  primary : float;
  secondary : float
}.

End segment.

(** A [float*] held by a segment.  [Init] and [Configure] only ever store
    the addresses of cells of the generator itself. *)
Inductive FloatPtr : Type :=
| NULL
| zero_ptr
| half_ptr
| one_ptr
| primary_ptr (i : Z)
| secondary_ptr (i : Z)
| register_value_ptr (i : Z).

Definition is_null (p : FloatPtr) : bool :=
  match p with NULL => true | _ => false end.

Record Ratio : Type := { ratio : float; q : Z }.

Record Output : Type := {
  out_value : float;
  out_phase : float;
  out_segment : Z
}.

Inductive MultiMode : Type :=
| MULTI_MODE_STAGES
| MULTI_MODE_STAGES_ADVANCED
| MULTI_MODE_STAGES_SLOW_LFO
| MULTI_MODE_OTHER.

(** The sixteen member functions a [process_fn_] can designate. *)
Inductive ProcessFn : Type :=
| ProcessMultiSegment_fn
| ProcessDecayEnvelope_fn
| ProcessTimedPulseGenerator_fn
| ProcessGateGenerator_fn
| ProcessSampleAndHold_fn
| ProcessTrackAndHold_fn
| ProcessClockedSampleAndHold_fn
| ProcessTapLFO_fn
| ProcessFreeRunningLFO_fn
| ProcessDelay_fn
| ProcessPortamento_fn
| ProcessRandom_fn
| ProcessTuring_fn
| ProcessLogistic_fn
| ProcessZero_fn
| ProcessSlave_fn.

(** One entry of [segments_].  [end_] is the field [end]. *)
Module Segment.

Record t : Type := mk {
start : FloatPtr;
time : FloatPtr;
curve : FloatPtr;
portamento : FloatPtr;
end_ : FloatPtr;
phase : FloatPtr;
if_rising : Z;
if_falling : Z;
if_complete : Z;
bipolar : bool;
retrig : bool;
advance_tm : bool;
range : segment.Range;
shift_register : Z;
register_value : float
}.

Definition set_start (v : FloatPtr) (x : t) : t :=
mk v (time x) (curve x) (portamento x) (end_ x) (phase x) (if_rising x) (if_falling x) (if_complete x) (bipolar x) (retrig x) (advance_tm x) (range x) (shift_register x) (register_value x).
Definition set_time (v : FloatPtr) (x : t) : t :=
mk (start x) v (curve x) (portamento x) (end_ x) (phase x) (if_rising x) (if_falling x) (if_complete x) (bipolar x) (retrig x) (advance_tm x) (range x) (shift_register x) (register_value x).
Definition set_curve (v : FloatPtr) (x : t) : t :=
mk (start x) (time x) v (portamento x) (end_ x) (phase x) (if_rising x) (if_falling x) (if_complete x) (bipolar x) (retrig x) (advance_tm x) (range x) (shift_register x) (register_value x).
Definition set_portamento (v : FloatPtr) (x : t) : t :=
mk (start x) (time x) (curve x) v (end_ x) (phase x) (if_rising x) (if_falling x) (if_complete x) (bipolar x) (retrig x) (advance_tm x) (range x) (shift_register x) (register_value x).
Definition set_end_ (v : FloatPtr) (x : t) : t :=
mk (start x) (time x) (curve x) (portamento x) v (phase x) (if_rising x) (if_falling x) (if_complete x) (bipolar x) (retrig x) (advance_tm x) (range x) (shift_register x) (register_value x).
Definition set_phase (v : FloatPtr) (x : t) : t :=
mk (start x) (time x) (curve x) (portamento x) (end_ x) v (if_rising x) (if_falling x) (if_complete x) (bipolar x) (retrig x) (advance_tm x) (range x) (shift_register x) (register_value x).
Definition set_if_rising (v : Z) (x : t) : t :=
mk (start x) (time x) (curve x) (portamento x) (end_ x) (phase x) v (if_falling x) (if_complete x) (bipolar x) (retrig x) (advance_tm x) (range x) (shift_register x) (register_value x).
Definition set_if_falling (v : Z) (x : t) : t :=
mk (start x) (time x) (curve x) (portamento x) (end_ x) (phase x) (if_rising x) v (if_complete x) (bipolar x) (retrig x) (advance_tm x) (range x) (shift_register x) (register_value x).
Definition set_if_complete (v : Z) (x : t) : t :=
mk (start x) (time x) (curve x) (portamento x) (end_ x) (phase x) (if_rising x) (if_falling x) v (bipolar x) (retrig x) (advance_tm x) (range x) (shift_register x) (register_value x).
Definition set_bipolar (v : bool) (x : t) : t :=
mk (start x) (time x) (curve x) (portamento x) (end_ x) (phase x) (if_rising x) (if_falling x) (if_complete x) v (retrig x) (advance_tm x) (range x) (shift_register x) (register_value x).
Definition set_retrig (v : bool) (x : t) : t :=
mk (start x) (time x) (curve x) (portamento x) (end_ x) (phase x) (if_rising x) (if_falling x) (if_complete x) (bipolar x) v (advance_tm x) (range x) (shift_register x) (register_value x).
Definition set_advance_tm (v : bool) (x : t) : t :=
mk (start x) (time x) (curve x) (portamento x) (end_ x) (phase x) (if_rising x) (if_falling x) (if_complete x) (bipolar x) (retrig x) v (range x) (shift_register x) (register_value x).
Definition set_range (v : segment.Range) (x : t) : t :=
mk (start x) (time x) (curve x) (portamento x) (end_ x) (phase x) (if_rising x) (if_falling x) (if_complete x) (bipolar x) (retrig x) (advance_tm x) v (shift_register x) (register_value x).
Definition set_shift_register (v : Z) (x : t) : t :=
mk (start x) (time x) (curve x) (portamento x) (end_ x) (phase x) (if_rising x) (if_falling x) (if_complete x) (bipolar x) (retrig x) (advance_tm x) (range x) v (register_value x).
Definition set_register_value (v : float) (x : t) : t :=
mk (start x) (time x) (curve x) (portamento x) (end_ x) (phase x) (if_rising x) (if_falling x) (if_complete x) (bipolar x) (retrig x) (advance_tm x) (range x) (shift_register x) v.

End Segment.

(** ** Ramp extractor ([stages/ramp_extractor.cc])

    The class declaration is in [stages/ramp_extractor.h].  Durations and
    [reset_interval_] are unsigned 32-bit integers (the source casts to
    [uint32_t] when it stores a float there), counters are integers. *)

Definition kHistorySize : Z := 8.
Definition kMaxPatternPeriod : Z := 8.

Record Pulse : Type := Build_Pulse {
  on_duration : Z;
  total_duration : Z;
  pulse_width : float
}.

Definition set_on_duration (v : Z) (x : Pulse) : Pulse :=
  Build_Pulse v (total_duration x) (pulse_width x).
Definition set_total_duration (v : Z) (x : Pulse) : Pulse :=
  Build_Pulse (on_duration x) v (pulse_width x).
Definition set_pulse_width (v : float) (x : Pulse) : Pulse :=
  Build_Pulse (on_duration x) (total_duration x) v.

(** The fields of [RampExtractor]. *)
Record RampExtractor : Type := Build_RampExtractor {
  audio_rate_ : bool;
  train_phase_ : float;
  max_train_phase_ : float;
  target_frequency_ : float;
  frequency_ : float;
  lp_coefficient_ : float;
  max_ramp_value_ : float;
  f_ratio_ : float;
  reset_counter_ : Z;
  reset_interval_ : Z;
  history_ : list Pulse;
  current_pulse_ : Z;
  average_pulse_width_ : float;
  apw_match_count_ : Z;
  prediction_error_ : list float;
  predicted_period_ : list float;
  max_frequency_ : float;
  audio_rate_period_ : float;
  audio_rate_period_hysteresis_ : float;
  sample_rate_ : float;
  min_period_ : float;
  min_period_hysteresis_ : float
}.

Definition set_audio_rate_ (v : bool) (x : RampExtractor) : RampExtractor :=
  Build_RampExtractor v (train_phase_ x) (max_train_phase_ x) (target_frequency_ x) (frequency_ x) (lp_coefficient_ x) (max_ramp_value_ x) (f_ratio_ x) (reset_counter_ x) (reset_interval_ x) (history_ x) (current_pulse_ x) (average_pulse_width_ x) (apw_match_count_ x) (prediction_error_ x) (predicted_period_ x) (max_frequency_ x) (audio_rate_period_ x) (audio_rate_period_hysteresis_ x) (sample_rate_ x) (min_period_ x) (min_period_hysteresis_ x).
Definition set_train_phase_ (v : float) (x : RampExtractor) : RampExtractor :=
  Build_RampExtractor (audio_rate_ x) v (max_train_phase_ x) (target_frequency_ x) (frequency_ x) (lp_coefficient_ x) (max_ramp_value_ x) (f_ratio_ x) (reset_counter_ x) (reset_interval_ x) (history_ x) (current_pulse_ x) (average_pulse_width_ x) (apw_match_count_ x) (prediction_error_ x) (predicted_period_ x) (max_frequency_ x) (audio_rate_period_ x) (audio_rate_period_hysteresis_ x) (sample_rate_ x) (min_period_ x) (min_period_hysteresis_ x).
Definition set_max_train_phase_ (v : float) (x : RampExtractor) : RampExtractor :=
  Build_RampExtractor (audio_rate_ x) (train_phase_ x) v (target_frequency_ x) (frequency_ x) (lp_coefficient_ x) (max_ramp_value_ x) (f_ratio_ x) (reset_counter_ x) (reset_interval_ x) (history_ x) (current_pulse_ x) (average_pulse_width_ x) (apw_match_count_ x) (prediction_error_ x) (predicted_period_ x) (max_frequency_ x) (audio_rate_period_ x) (audio_rate_period_hysteresis_ x) (sample_rate_ x) (min_period_ x) (min_period_hysteresis_ x).
Definition set_target_frequency_ (v : float) (x : RampExtractor) : RampExtractor :=
  Build_RampExtractor (audio_rate_ x) (train_phase_ x) (max_train_phase_ x) v (frequency_ x) (lp_coefficient_ x) (max_ramp_value_ x) (f_ratio_ x) (reset_counter_ x) (reset_interval_ x) (history_ x) (current_pulse_ x) (average_pulse_width_ x) (apw_match_count_ x) (prediction_error_ x) (predicted_period_ x) (max_frequency_ x) (audio_rate_period_ x) (audio_rate_period_hysteresis_ x) (sample_rate_ x) (min_period_ x) (min_period_hysteresis_ x).
Definition set_frequency_ (v : float) (x : RampExtractor) : RampExtractor :=
  Build_RampExtractor (audio_rate_ x) (train_phase_ x) (max_train_phase_ x) (target_frequency_ x) v (lp_coefficient_ x) (max_ramp_value_ x) (f_ratio_ x) (reset_counter_ x) (reset_interval_ x) (history_ x) (current_pulse_ x) (average_pulse_width_ x) (apw_match_count_ x) (prediction_error_ x) (predicted_period_ x) (max_frequency_ x) (audio_rate_period_ x) (audio_rate_period_hysteresis_ x) (sample_rate_ x) (min_period_ x) (min_period_hysteresis_ x).
Definition set_lp_coefficient_ (v : float) (x : RampExtractor) : RampExtractor :=
  Build_RampExtractor (audio_rate_ x) (train_phase_ x) (max_train_phase_ x) (target_frequency_ x) (frequency_ x) v (max_ramp_value_ x) (f_ratio_ x) (reset_counter_ x) (reset_interval_ x) (history_ x) (current_pulse_ x) (average_pulse_width_ x) (apw_match_count_ x) (prediction_error_ x) (predicted_period_ x) (max_frequency_ x) (audio_rate_period_ x) (audio_rate_period_hysteresis_ x) (sample_rate_ x) (min_period_ x) (min_period_hysteresis_ x).
Definition set_max_ramp_value_ (v : float) (x : RampExtractor) : RampExtractor :=
  Build_RampExtractor (audio_rate_ x) (train_phase_ x) (max_train_phase_ x) (target_frequency_ x) (frequency_ x) (lp_coefficient_ x) v (f_ratio_ x) (reset_counter_ x) (reset_interval_ x) (history_ x) (current_pulse_ x) (average_pulse_width_ x) (apw_match_count_ x) (prediction_error_ x) (predicted_period_ x) (max_frequency_ x) (audio_rate_period_ x) (audio_rate_period_hysteresis_ x) (sample_rate_ x) (min_period_ x) (min_period_hysteresis_ x).
Definition set_f_ratio_ (v : float) (x : RampExtractor) : RampExtractor :=
  Build_RampExtractor (audio_rate_ x) (train_phase_ x) (max_train_phase_ x) (target_frequency_ x) (frequency_ x) (lp_coefficient_ x) (max_ramp_value_ x) v (reset_counter_ x) (reset_interval_ x) (history_ x) (current_pulse_ x) (average_pulse_width_ x) (apw_match_count_ x) (prediction_error_ x) (predicted_period_ x) (max_frequency_ x) (audio_rate_period_ x) (audio_rate_period_hysteresis_ x) (sample_rate_ x) (min_period_ x) (min_period_hysteresis_ x).
Definition set_reset_counter_ (v : Z) (x : RampExtractor) : RampExtractor :=
  Build_RampExtractor (audio_rate_ x) (train_phase_ x) (max_train_phase_ x) (target_frequency_ x) (frequency_ x) (lp_coefficient_ x) (max_ramp_value_ x) (f_ratio_ x) v (reset_interval_ x) (history_ x) (current_pulse_ x) (average_pulse_width_ x) (apw_match_count_ x) (prediction_error_ x) (predicted_period_ x) (max_frequency_ x) (audio_rate_period_ x) (audio_rate_period_hysteresis_ x) (sample_rate_ x) (min_period_ x) (min_period_hysteresis_ x).
Definition set_reset_interval_ (v : Z) (x : RampExtractor) : RampExtractor :=
  Build_RampExtractor (audio_rate_ x) (train_phase_ x) (max_train_phase_ x) (target_frequency_ x) (frequency_ x) (lp_coefficient_ x) (max_ramp_value_ x) (f_ratio_ x) (reset_counter_ x) v (history_ x) (current_pulse_ x) (average_pulse_width_ x) (apw_match_count_ x) (prediction_error_ x) (predicted_period_ x) (max_frequency_ x) (audio_rate_period_ x) (audio_rate_period_hysteresis_ x) (sample_rate_ x) (min_period_ x) (min_period_hysteresis_ x).
Definition set_history_ (v : list Pulse) (x : RampExtractor) : RampExtractor :=
  Build_RampExtractor (audio_rate_ x) (train_phase_ x) (max_train_phase_ x) (target_frequency_ x) (frequency_ x) (lp_coefficient_ x) (max_ramp_value_ x) (f_ratio_ x) (reset_counter_ x) (reset_interval_ x) v (current_pulse_ x) (average_pulse_width_ x) (apw_match_count_ x) (prediction_error_ x) (predicted_period_ x) (max_frequency_ x) (audio_rate_period_ x) (audio_rate_period_hysteresis_ x) (sample_rate_ x) (min_period_ x) (min_period_hysteresis_ x).
Definition set_current_pulse_ (v : Z) (x : RampExtractor) : RampExtractor :=
  Build_RampExtractor (audio_rate_ x) (train_phase_ x) (max_train_phase_ x) (target_frequency_ x) (frequency_ x) (lp_coefficient_ x) (max_ramp_value_ x) (f_ratio_ x) (reset_counter_ x) (reset_interval_ x) (history_ x) v (average_pulse_width_ x) (apw_match_count_ x) (prediction_error_ x) (predicted_period_ x) (max_frequency_ x) (audio_rate_period_ x) (audio_rate_period_hysteresis_ x) (sample_rate_ x) (min_period_ x) (min_period_hysteresis_ x).
Definition set_average_pulse_width_ (v : float) (x : RampExtractor) : RampExtractor :=
  Build_RampExtractor (audio_rate_ x) (train_phase_ x) (max_train_phase_ x) (target_frequency_ x) (frequency_ x) (lp_coefficient_ x) (max_ramp_value_ x) (f_ratio_ x) (reset_counter_ x) (reset_interval_ x) (history_ x) (current_pulse_ x) v (apw_match_count_ x) (prediction_error_ x) (predicted_period_ x) (max_frequency_ x) (audio_rate_period_ x) (audio_rate_period_hysteresis_ x) (sample_rate_ x) (min_period_ x) (min_period_hysteresis_ x).
Definition set_apw_match_count_ (v : Z) (x : RampExtractor) : RampExtractor :=
  Build_RampExtractor (audio_rate_ x) (train_phase_ x) (max_train_phase_ x) (target_frequency_ x) (frequency_ x) (lp_coefficient_ x) (max_ramp_value_ x) (f_ratio_ x) (reset_counter_ x) (reset_interval_ x) (history_ x) (current_pulse_ x) (average_pulse_width_ x) v (prediction_error_ x) (predicted_period_ x) (max_frequency_ x) (audio_rate_period_ x) (audio_rate_period_hysteresis_ x) (sample_rate_ x) (min_period_ x) (min_period_hysteresis_ x).
Definition set_prediction_error_ (v : list float) (x : RampExtractor) : RampExtractor :=
  Build_RampExtractor (audio_rate_ x) (train_phase_ x) (max_train_phase_ x) (target_frequency_ x) (frequency_ x) (lp_coefficient_ x) (max_ramp_value_ x) (f_ratio_ x) (reset_counter_ x) (reset_interval_ x) (history_ x) (current_pulse_ x) (average_pulse_width_ x) (apw_match_count_ x) v (predicted_period_ x) (max_frequency_ x) (audio_rate_period_ x) (audio_rate_period_hysteresis_ x) (sample_rate_ x) (min_period_ x) (min_period_hysteresis_ x).
Definition set_predicted_period_ (v : list float) (x : RampExtractor) : RampExtractor :=
  Build_RampExtractor (audio_rate_ x) (train_phase_ x) (max_train_phase_ x) (target_frequency_ x) (frequency_ x) (lp_coefficient_ x) (max_ramp_value_ x) (f_ratio_ x) (reset_counter_ x) (reset_interval_ x) (history_ x) (current_pulse_ x) (average_pulse_width_ x) (apw_match_count_ x) (prediction_error_ x) v (max_frequency_ x) (audio_rate_period_ x) (audio_rate_period_hysteresis_ x) (sample_rate_ x) (min_period_ x) (min_period_hysteresis_ x).
Definition set_max_frequency_ (v : float) (x : RampExtractor) : RampExtractor :=
  Build_RampExtractor (audio_rate_ x) (train_phase_ x) (max_train_phase_ x) (target_frequency_ x) (frequency_ x) (lp_coefficient_ x) (max_ramp_value_ x) (f_ratio_ x) (reset_counter_ x) (reset_interval_ x) (history_ x) (current_pulse_ x) (average_pulse_width_ x) (apw_match_count_ x) (prediction_error_ x) (predicted_period_ x) v (audio_rate_period_ x) (audio_rate_period_hysteresis_ x) (sample_rate_ x) (min_period_ x) (min_period_hysteresis_ x).
Definition set_audio_rate_period_ (v : float) (x : RampExtractor) : RampExtractor :=
  Build_RampExtractor (audio_rate_ x) (train_phase_ x) (max_train_phase_ x) (target_frequency_ x) (frequency_ x) (lp_coefficient_ x) (max_ramp_value_ x) (f_ratio_ x) (reset_counter_ x) (reset_interval_ x) (history_ x) (current_pulse_ x) (average_pulse_width_ x) (apw_match_count_ x) (prediction_error_ x) (predicted_period_ x) (max_frequency_ x) v (audio_rate_period_hysteresis_ x) (sample_rate_ x) (min_period_ x) (min_period_hysteresis_ x).
Definition set_audio_rate_period_hysteresis_ (v : float) (x : RampExtractor) : RampExtractor :=
  Build_RampExtractor (audio_rate_ x) (train_phase_ x) (max_train_phase_ x) (target_frequency_ x) (frequency_ x) (lp_coefficient_ x) (max_ramp_value_ x) (f_ratio_ x) (reset_counter_ x) (reset_interval_ x) (history_ x) (current_pulse_ x) (average_pulse_width_ x) (apw_match_count_ x) (prediction_error_ x) (predicted_period_ x) (max_frequency_ x) (audio_rate_period_ x) v (sample_rate_ x) (min_period_ x) (min_period_hysteresis_ x).
Definition set_sample_rate_ (v : float) (x : RampExtractor) : RampExtractor :=
  Build_RampExtractor (audio_rate_ x) (train_phase_ x) (max_train_phase_ x) (target_frequency_ x) (frequency_ x) (lp_coefficient_ x) (max_ramp_value_ x) (f_ratio_ x) (reset_counter_ x) (reset_interval_ x) (history_ x) (current_pulse_ x) (average_pulse_width_ x) (apw_match_count_ x) (prediction_error_ x) (predicted_period_ x) (max_frequency_ x) (audio_rate_period_ x) (audio_rate_period_hysteresis_ x) v (min_period_ x) (min_period_hysteresis_ x).
Definition set_min_period_ (v : float) (x : RampExtractor) : RampExtractor :=
  Build_RampExtractor (audio_rate_ x) (train_phase_ x) (max_train_phase_ x) (target_frequency_ x) (frequency_ x) (lp_coefficient_ x) (max_ramp_value_ x) (f_ratio_ x) (reset_counter_ x) (reset_interval_ x) (history_ x) (current_pulse_ x) (average_pulse_width_ x) (apw_match_count_ x) (prediction_error_ x) (predicted_period_ x) (max_frequency_ x) (audio_rate_period_ x) (audio_rate_period_hysteresis_ x) (sample_rate_ x) v (min_period_hysteresis_ x).
Definition set_min_period_hysteresis_ (v : float) (x : RampExtractor) : RampExtractor :=
  Build_RampExtractor (audio_rate_ x) (train_phase_ x) (max_train_phase_ x) (target_frequency_ x) (frequency_ x) (lp_coefficient_ x) (max_ramp_value_ x) (f_ratio_ x) (reset_counter_ x) (reset_interval_ x) (history_ x) (current_pulse_ x) (average_pulse_width_ x) (apw_match_count_ x) (prediction_error_ x) (predicted_period_ x) (max_frequency_ x) (audio_rate_period_ x) (audio_rate_period_hysteresis_ x) (sample_rate_ x) (min_period_ x) v.

Definition Pulse_zero : Pulse := Build_Pulse 0 0 F32.zero.

Definition kPulseWidthTolerance : float := F32.lit 5 100.

Definition IsWithinTolerance (x y error : float) : bool :=
  ((x >=? y * (F32.one - error)) && (x <=? y * (F32.one + error)))%f32.

Module RampExtractor_.

Definition Reset (x : RampExtractor) : RampExtractor :=
  let x := set_audio_rate_ false x in
  let x := set_train_phase_ F32.zero x in
  let x := set_frequency_ F32.zero x in
  let x := set_target_frequency_ (frequency_ x) x in
  let x := set_lp_coefficient_ F32.half x in
  let x := set_max_ramp_value_ F32.one x in
  let x := set_f_ratio_ F32.one x in
  let x := set_reset_counter_ 1 x in
  let x := set_reset_interval_
             (F32.to_uint32 (F32.of_Z 5 * sample_rate_ x)%f32) x in
  let p := Build_Pulse
             (F32.to_uint32 (sample_rate_ x * F32.lit 25 100)%f32)
             (F32.to_uint32 (sample_rate_ x * F32.half)%f32)
             F32.half in
  let x := set_history_ (repeat p (Z.to_nat kHistorySize)) x in
  let x := set_current_pulse_ 0 x in
  let x := set_history_
             (put (history_ x) (current_pulse_ x)
                (set_on_duration 0
                   (at_ Pulse_zero (history_ x) (current_pulse_ x)))) x in
  let x := set_history_
             (put (history_ x) (current_pulse_ x)
                (set_total_duration 0
                   (at_ Pulse_zero (history_ x) (current_pulse_ x)))) x in
  let x := set_average_pulse_width_ F32.zero x in
  let x := set_apw_match_count_ 0 x in
  let x := set_prediction_error_
             (repeat (F32.of_Z 50) (Z.to_nat (kMaxPatternPeriod + 1))) x in
  let x := set_predicted_period_
             (repeat (sample_rate_ x * F32.half)%f32
                (Z.to_nat (kMaxPatternPeriod + 1))) x in
  set_prediction_error_ (put (prediction_error_ x) 0 F32.zero) x.

Definition Init (sample_rate max_frequency : float) (x : RampExtractor)
  : RampExtractor :=
  let x := set_max_frequency_ max_frequency x in
  let x := set_audio_rate_period_
             (F32.one / (F32.of_Z 100 / sample_rate))%f32 x in
  let x := set_audio_rate_period_hysteresis_ (audio_rate_period_ x) x in
  let x := set_sample_rate_ sample_rate x in
  let x := set_min_period_ (F32.one / max_frequency_ x)%f32 x in
  let x := set_min_period_hysteresis_ (min_period_ x) x in
  Reset x.

Definition UpdateAveragePulseWidth (tolerance : float) (x : RampExtractor)
  : RampExtractor :=
  let cpw := pulse_width (at_ Pulse_zero (history_ x) (current_pulse_ x)) in
  if IsWithinTolerance (average_pulse_width_ x) cpw tolerance then
    let x := set_apw_match_count_
               (Z.min kHistorySize (apw_match_count_ x + 1)) x in
    let n := F32.of_Z (apw_match_count_ x) in
    set_average_pulse_width_
      (((n - F32.one) * average_pulse_width_ x + cpw) / n)%f32 x
  else
    let x := set_apw_match_count_ 1 x in
    set_average_pulse_width_ cpw x.

(** One turn of the loop of [PredictNextPeriod], on the pair of the
    object and [best_pattern_period]. *)
Definition PredictNextPeriod_body (last_period : float)
    (acc : RampExtractor * Z) (i : Z) : RampExtractor * Z :=
  let '(x, best_pattern_period) := acc in
  let error := (at_ F32.zero (predicted_period_ x) i - last_period)%f32 in
  let error_sq := (error * error)%f32 in
  let x := set_prediction_error_
             (put (prediction_error_ x) i
                (SLOPE (at_ F32.zero (prediction_error_ x) i) error_sq
                   (F32.lit 7 10) (F32.lit 2 10))) x in
  let x :=
    if i =? 0 then
      set_predicted_period_
        (put (predicted_period_ x) 0
           (ONE_POLE (at_ F32.zero (predicted_period_ x) 0) last_period
              F32.half)) x
    else
      let t := current_pulse_ x + 1 + kHistorySize - i in
      set_predicted_period_
        (put (predicted_period_ x) i
           (F32.of_Z (total_duration
                        (at_ Pulse_zero (history_ x)
                           (t mod kHistorySize))))) x in
  let best_pattern_period :=
    if (at_ F32.zero (prediction_error_ x) i
        <? at_ F32.zero (prediction_error_ x) best_pattern_period)%f32
    then i else best_pattern_period in
  (x, best_pattern_period).

Definition PredictNextPeriod (x : RampExtractor) : float * RampExtractor :=
  let last_period :=
    F32.of_Z (total_duration
                (at_ Pulse_zero (history_ x) (current_pulse_ x))) in
  let '(x, best_pattern_period) :=
    fold_left (PredictNextPeriod_body last_period)
      (upto 0 kMaxPatternPeriod) (x, 0) in
  (at_ F32.zero (predicted_period_ x) best_pattern_period, x).

End RampExtractor_.

(** The state of the loop of [RampExtractor::Process]: the object and the
    locals [train_phase] and [max_train_phase]. *)
Record RampLoop : Type := {
  rl_obj : RampExtractor;
  rl_train_phase : float;
  rl_max_train_phase : float
}.

Module RampProcess.

Import RampExtractor_.

Definition clear_pulse (x : RampExtractor) : RampExtractor :=
  let x := set_history_
             (put (history_ x) (current_pulse_ x)
                (set_on_duration 0
                   (at_ Pulse_zero (history_ x) (current_pulse_ x)))) x in
  set_history_
    (put (history_ x) (current_pulse_ x)
       (set_total_duration 0
          (at_ Pulse_zero (history_ x) (current_pulse_ x)))) x.

(** The branch [!record_pulse]: the pulse that ended is too long. *)
Definition reset_branch (ratio_ : Ratio) (s : RampLoop) : RampLoop :=
  let x := rl_obj s in
  let train_phase := F32.zero in
  let x := set_reset_counter_ (q ratio_) x in
  let x := set_f_ratio_ (ratio ratio_) x in
  let max_train_phase := F32.of_Z (q ratio_) in
  let '(predicted, x) := PredictNextPeriod x in
  let x := set_target_frequency_ (F32.one / predicted)%f32 x in
  let x := set_frequency_ (target_frequency_ x) x in
  let p := at_ Pulse_zero (history_ x) (current_pulse_ x) in
  let x := set_reset_interval_
             (F32.to_uint32 (F32.of_Z 4 * F32.of_Z (total_duration p))%f32)
             x in
  Build_RampLoop x train_phase max_train_phase.

(** The branch of a recorded pulse at audio rate. *)
Definition audio_rate_branch (ratio_ : Ratio) (period : float)
    (x : RampExtractor) : RampExtractor :=
  let x := set_audio_rate_ true x in
  let x := set_audio_rate_period_hysteresis_
             (audio_rate_period_ x * F32.lit 11 10)%f32 x in
  let x := set_average_pulse_width_ F32.zero x in
  let x := set_apw_match_count_ 0 x in
  let no_glide := F32.ne (f_ratio_ x) (ratio ratio_) in
  let x := set_f_ratio_ (ratio ratio_) x in
  let frequency := (F32.one / period)%f32 in
  let x := set_target_frequency_
             (F32.min (f_ratio_ x * frequency)%f32 (max_frequency_ x)) x in
  let up_tolerance :=
    ((F32.lit 102 100 + F32.of_Z 2 * frequency) * frequency_ x)%f32 in
  let down_tolerance :=
    ((F32.lit 98 100 - F32.of_Z 2 * frequency) * frequency_ x)%f32 in
  let no_glide :=
    no_glide
    || ((target_frequency_ x >? up_tolerance)%f32
        || (target_frequency_ x <? down_tolerance)%f32) in
  set_lp_coefficient_
    (if no_glide then F32.one else (period * F32.lit 1 100000)%f32) x.

(** The branch of a recorded pulse below audio rate. *)
Definition low_rate_branch (ratio_ : Ratio) (period : float) (s : RampLoop)
  : RampLoop :=
  let x := rl_obj s in
  let train_phase := rl_train_phase s in
  let max_train_phase := rl_max_train_phase s in
  let x := set_audio_rate_ false x in
  let x := set_audio_rate_period_hysteresis_ (audio_rate_period_ x) x in
  let x :=
    if (period <=? min_period_hysteresis_ x)%f32 then
      let x := set_min_period_hysteresis_
                 (min_period_ x * F32.lit 105 100)%f32 x in
      let x := set_frequency_
                 (F32.one / F32.max period (F32.one / sample_rate_ x))%f32
                 x in
      let x := set_average_pulse_width_ F32.zero x in
      set_apw_match_count_ 0 x
    else
      let x := set_min_period_hysteresis_ (min_period_ x) x in
      let p := at_ Pulse_zero (history_ x) (current_pulse_ x) in
      let x := set_history_
                 (put (history_ x) (current_pulse_ x)
                    (set_pulse_width
                       (F32.of_Z (on_duration p)
                        / F32.of_Z (total_duration p))%f32 p)) x in
      let x := UpdateAveragePulseWidth kPulseWidthTolerance x in
      let x :=
        if on_duration p <? 32 then
          set_apw_match_count_ 0 (set_average_pulse_width_ F32.zero x)
        else x in
      let '(predicted, x) := PredictNextPeriod x in
      set_frequency_ (F32.one / predicted)%f32 x in
  let x := set_reset_counter_ (reset_counter_ x - 1) x in
  let '(x, train_phase, max_train_phase) :=
    if reset_counter_ x =? 0 then
      let x := set_reset_counter_ (q ratio_) x in
      let x := set_f_ratio_ (ratio ratio_) x in
      (x, F32.zero, F32.of_Z (q ratio_))
    else
      let expected :=
        (max_train_phase - F32.of_Z (reset_counter_ x))%f32 in
      let warp := (expected - train_phase + F32.one)%f32 in
      let x := set_frequency_
                 (frequency_ x * F32.max warp (F32.lit 1 100))%f32 x in
      (x, train_phase, max_train_phase) in
  let x := set_target_frequency_ (f_ratio_ x * frequency_ x)%f32 x in
  let x := set_reset_interval_
             (F32.to_uint32
                (F32.max (F32.of_Z 4 / target_frequency_ x)%f32
                   (sample_rate_ x * F32.of_Z 3)%f32)) x in
  Build_RampLoop x train_phase max_train_phase.

(** "We are done with the previous pulse": the block run on a sample
    whose flags have [GATE_FLAG_RISING]. *)
Definition rising (ratio_ : Ratio) (ar_threshold : float) (s : RampLoop)
  : RampLoop :=
  let x := rl_obj s in
  let p := at_ Pulse_zero (history_ x) (current_pulse_ x) in
  let record_pulse := total_duration p <? reset_interval_ x in
  let s :=
    if negb record_pulse then reset_branch ratio_ s
    else
      let period := F32.of_Z (total_duration p) in
      let s :=
        if ((period <=? ar_threshold) && (period >? F32.zero))%f32 then
          Build_RampLoop (audio_rate_branch ratio_ period x)
            (rl_train_phase s) (rl_max_train_phase s)
        else low_rate_branch ratio_ period s in
      let x := rl_obj s in
      Build_RampLoop
        (set_current_pulse_ ((current_pulse_ x + 1) mod kHistorySize) x)
        (rl_train_phase s) (rl_max_train_phase s) in
  Build_RampLoop (clear_pulse (rl_obj s))
    (rl_train_phase s) (rl_max_train_phase s).

(** [++total_duration] and the bookkeeping of a falling edge, common to
    the two inner loops. *)
Definition count_sample (flags : GateFlags) (x : RampExtractor)
  : RampExtractor :=
  let p := at_ Pulse_zero (history_ x) (current_pulse_ x) in
  let p := set_total_duration ((total_duration p + 1) mod 2 ^ 32) p in
  let p :=
    if flag_set flags GATE_FLAG_FALLING then
      set_on_duration ((total_duration p - 1) mod 2 ^ 32) p
    else p in
  set_history_ (put (history_ x) (current_pulse_ x) p) x.

(** One turn of the inner loop taken when [audio_rate_] is set. *)
Definition audio_rate_sample (flags : GateFlags) (s : RampLoop)
  : RampLoop * float :=
  let x := count_sample flags (rl_obj s) in
  let total := total_duration
                 (at_ Pulse_zero (history_ x) (current_pulse_ x)) in
  let x := set_frequency_
             (ONE_POLE (frequency_ x) (target_frequency_ x)
                (lp_coefficient_ x)) x in
  let train_phase := (rl_train_phase s + frequency_ x)%f32 in
  let '(x, train_phase) :=
    if (train_phase >? F32.one)%f32 then
      let train_phase := (train_phase - F32.one)%f32 in
      if (F32.of_Z total / f_ratio_ x
          >? F32.lit 15 10 / target_frequency_ x)%f32 then
        let x := set_target_frequency_ F32.zero x in
        let x := set_frequency_ (target_frequency_ x) x in
        (x, F32.one)
      else (x, train_phase)
    else (x, train_phase) in
  (Build_RampLoop x train_phase (rl_max_train_phase s), train_phase).

(** One turn of the inner loop taken otherwise. *)
Definition low_rate_sample (flags : GateFlags) (s : RampLoop)
  : RampLoop * float :=
  let x := count_sample flags (rl_obj s) in
  let train_phase := rl_train_phase s in
  let max_train_phase := rl_max_train_phase s in
  let p := at_ Pulse_zero (history_ x) (current_pulse_ x) in
  let x :=
    if flag_set flags GATE_FLAG_FALLING
       && (apw_match_count_ x >=? kHistorySize) then
      let t_on := F32.of_Z (on_duration p) in
      let next :=
        (max_train_phase - F32.of_Z (reset_counter_ x) + F32.one)%f32 in
      let pw := average_pulse_width_ x in
      set_frequency_
        (F32.max (next - train_phase)%f32 F32.zero * pw
         / ((F32.one - pw) * t_on))%f32 x
    else x in
  let train_phase := (train_phase + frequency_ x)%f32 in
  let train_phase :=
    if (train_phase >=? max_train_phase)%f32 then max_train_phase
    else train_phase in
  let phase := (train_phase * f_ratio_ x)%f32 in
  let phase := (phase - F32.of_Z (F32.to_int32 phase))%f32 in
  (Build_RampLoop x train_phase max_train_phase, phase).

(** One sample: the edge block when the flags have RISING, then one
    turn of the inner loop [audio_rate_] selects.  The source nests the
    inner loops in [while (size)] and leaves them at the next rising
    edge; [audio_rate_] only changes in the edge block, so the nesting
    and this sample-by-sample reading agree. *)
Definition sample (ratio_ : Ratio) (ar_threshold : float) (s : RampLoop)
    (flags : GateFlags) : RampLoop * float :=
  let s :=
    if flag_set flags GATE_FLAG_RISING then rising ratio_ ar_threshold s
    else s in
  if audio_rate_ (rl_obj s) then audio_rate_sample flags s
  else low_rate_sample flags s.

(** [RampExtractor::Process(ratio, gate_flags, ramp, size)]; the result
    is the object and the [size] values written to [ramp]. *)
Definition Process (ratio_ : Ratio) (gate_flags : list GateFlags)
    (x : RampExtractor) : RampExtractor * list float :=
  let train_phase := train_phase_ x in
  let max_train_phase := max_train_phase_ x in
  let ar_threshold :=
    (audio_rate_period_hysteresis_ x
     * (if (ratio ratio_ >? F32.one)%f32 then ratio ratio_ else F32.one))%f32 in
  let '(s, ramp) :=
    for_each_sample (sample ratio_ ar_threshold)
      (Build_RampLoop x train_phase max_train_phase) gate_flags in
  let x := rl_obj s in
  let x := set_train_phase_ (rl_train_phase s) x in
  let x := set_max_train_phase_ (rl_max_train_phase s) x in
  (x, ramp).

End RampProcess.

(** ** Segment generator ([stages/segment_generator.cc]) *)

Definition kRetrigDelaySamples : Z := 32.

Definition Segment_default : Segment.t :=
  Segment.mk NULL NULL NULL NULL NULL NULL 0 0 0 false false false
    segment.RANGE_DEFAULT 0 F32.zero.

Definition Parameters_default : segment.Parameters :=
  segment.Build_Parameters F32.zero F32.zero.

Definition Configuration_default : segment.Configuration :=
  segment.Build_Configuration segment.TYPE_RAMP false false
    segment.RANGE_DEFAULT.

Section Generator.

Context {E : Env}.

(** The fields of [SegmentGenerator], with the two pieces of state it
    reaches through pointers and statics: the [multimode] of the settings
    and the state of [stmlib::Random]. *)
Record SegmentGenerator : Type := Build_SegmentGenerator {
  process_fn_ : ProcessFn;
  multimode : MultiMode;
  rng_state_ : Rng E;
  phase_ : float;
  aux_ : float;
  zero_ : float;
  half_ : float;
  one_ : float;
  start_ : float;
  value_ : float;
  lp_ : float;
  primary_ : float;
  monitored_segment_ : Z;
  active_segment_ : Z;
  retrig_delay_ : Z;
  segments_ : list Segment.t;
  parameters_ : list segment.Parameters;
  ramp_extractor_ : RampExtractor;
  ramp_division_quantizer_ : Quantizer E;
  delay_line_ : DelayLine E;
  gate_delay_ : GateDelay E;
  num_segments_ : Z
}.

Definition set_process_fn_ (v : ProcessFn) (x : SegmentGenerator) : SegmentGenerator :=
  Build_SegmentGenerator v (multimode x) (rng_state_ x) (phase_ x) (aux_ x) (zero_ x) (half_ x) (one_ x) (start_ x) (value_ x) (lp_ x) (primary_ x) (monitored_segment_ x) (active_segment_ x) (retrig_delay_ x) (segments_ x) (parameters_ x) (ramp_extractor_ x) (ramp_division_quantizer_ x) (delay_line_ x) (gate_delay_ x) (num_segments_ x).
Definition set_multimode (v : MultiMode) (x : SegmentGenerator) : SegmentGenerator :=
  Build_SegmentGenerator (process_fn_ x) v (rng_state_ x) (phase_ x) (aux_ x) (zero_ x) (half_ x) (one_ x) (start_ x) (value_ x) (lp_ x) (primary_ x) (monitored_segment_ x) (active_segment_ x) (retrig_delay_ x) (segments_ x) (parameters_ x) (ramp_extractor_ x) (ramp_division_quantizer_ x) (delay_line_ x) (gate_delay_ x) (num_segments_ x).
Definition set_rng_state_ (v : Rng E) (x : SegmentGenerator) : SegmentGenerator :=
  Build_SegmentGenerator (process_fn_ x) (multimode x) v (phase_ x) (aux_ x) (zero_ x) (half_ x) (one_ x) (start_ x) (value_ x) (lp_ x) (primary_ x) (monitored_segment_ x) (active_segment_ x) (retrig_delay_ x) (segments_ x) (parameters_ x) (ramp_extractor_ x) (ramp_division_quantizer_ x) (delay_line_ x) (gate_delay_ x) (num_segments_ x).
Definition set_phase_ (v : float) (x : SegmentGenerator) : SegmentGenerator :=
  Build_SegmentGenerator (process_fn_ x) (multimode x) (rng_state_ x) v (aux_ x) (zero_ x) (half_ x) (one_ x) (start_ x) (value_ x) (lp_ x) (primary_ x) (monitored_segment_ x) (active_segment_ x) (retrig_delay_ x) (segments_ x) (parameters_ x) (ramp_extractor_ x) (ramp_division_quantizer_ x) (delay_line_ x) (gate_delay_ x) (num_segments_ x).
Definition set_aux_ (v : float) (x : SegmentGenerator) : SegmentGenerator :=
  Build_SegmentGenerator (process_fn_ x) (multimode x) (rng_state_ x) (phase_ x) v (zero_ x) (half_ x) (one_ x) (start_ x) (value_ x) (lp_ x) (primary_ x) (monitored_segment_ x) (active_segment_ x) (retrig_delay_ x) (segments_ x) (parameters_ x) (ramp_extractor_ x) (ramp_division_quantizer_ x) (delay_line_ x) (gate_delay_ x) (num_segments_ x).
Definition set_zero_ (v : float) (x : SegmentGenerator) : SegmentGenerator :=
  Build_SegmentGenerator (process_fn_ x) (multimode x) (rng_state_ x) (phase_ x) (aux_ x) v (half_ x) (one_ x) (start_ x) (value_ x) (lp_ x) (primary_ x) (monitored_segment_ x) (active_segment_ x) (retrig_delay_ x) (segments_ x) (parameters_ x) (ramp_extractor_ x) (ramp_division_quantizer_ x) (delay_line_ x) (gate_delay_ x) (num_segments_ x).
Definition set_half_ (v : float) (x : SegmentGenerator) : SegmentGenerator :=
  Build_SegmentGenerator (process_fn_ x) (multimode x) (rng_state_ x) (phase_ x) (aux_ x) (zero_ x) v (one_ x) (start_ x) (value_ x) (lp_ x) (primary_ x) (monitored_segment_ x) (active_segment_ x) (retrig_delay_ x) (segments_ x) (parameters_ x) (ramp_extractor_ x) (ramp_division_quantizer_ x) (delay_line_ x) (gate_delay_ x) (num_segments_ x).
Definition set_one_ (v : float) (x : SegmentGenerator) : SegmentGenerator :=
  Build_SegmentGenerator (process_fn_ x) (multimode x) (rng_state_ x) (phase_ x) (aux_ x) (zero_ x) (half_ x) v (start_ x) (value_ x) (lp_ x) (primary_ x) (monitored_segment_ x) (active_segment_ x) (retrig_delay_ x) (segments_ x) (parameters_ x) (ramp_extractor_ x) (ramp_division_quantizer_ x) (delay_line_ x) (gate_delay_ x) (num_segments_ x).
Definition set_start_ (v : float) (x : SegmentGenerator) : SegmentGenerator :=
  Build_SegmentGenerator (process_fn_ x) (multimode x) (rng_state_ x) (phase_ x) (aux_ x) (zero_ x) (half_ x) (one_ x) v (value_ x) (lp_ x) (primary_ x) (monitored_segment_ x) (active_segment_ x) (retrig_delay_ x) (segments_ x) (parameters_ x) (ramp_extractor_ x) (ramp_division_quantizer_ x) (delay_line_ x) (gate_delay_ x) (num_segments_ x).
Definition set_value_ (v : float) (x : SegmentGenerator) : SegmentGenerator :=
  Build_SegmentGenerator (process_fn_ x) (multimode x) (rng_state_ x) (phase_ x) (aux_ x) (zero_ x) (half_ x) (one_ x) (start_ x) v (lp_ x) (primary_ x) (monitored_segment_ x) (active_segment_ x) (retrig_delay_ x) (segments_ x) (parameters_ x) (ramp_extractor_ x) (ramp_division_quantizer_ x) (delay_line_ x) (gate_delay_ x) (num_segments_ x).
Definition set_lp_ (v : float) (x : SegmentGenerator) : SegmentGenerator :=
  Build_SegmentGenerator (process_fn_ x) (multimode x) (rng_state_ x) (phase_ x) (aux_ x) (zero_ x) (half_ x) (one_ x) (start_ x) (value_ x) v (primary_ x) (monitored_segment_ x) (active_segment_ x) (retrig_delay_ x) (segments_ x) (parameters_ x) (ramp_extractor_ x) (ramp_division_quantizer_ x) (delay_line_ x) (gate_delay_ x) (num_segments_ x).
Definition set_primary_ (v : float) (x : SegmentGenerator) : SegmentGenerator :=
  Build_SegmentGenerator (process_fn_ x) (multimode x) (rng_state_ x) (phase_ x) (aux_ x) (zero_ x) (half_ x) (one_ x) (start_ x) (value_ x) (lp_ x) v (monitored_segment_ x) (active_segment_ x) (retrig_delay_ x) (segments_ x) (parameters_ x) (ramp_extractor_ x) (ramp_division_quantizer_ x) (delay_line_ x) (gate_delay_ x) (num_segments_ x).
Definition set_monitored_segment_ (v : Z) (x : SegmentGenerator) : SegmentGenerator :=
  Build_SegmentGenerator (process_fn_ x) (multimode x) (rng_state_ x) (phase_ x) (aux_ x) (zero_ x) (half_ x) (one_ x) (start_ x) (value_ x) (lp_ x) (primary_ x) v (active_segment_ x) (retrig_delay_ x) (segments_ x) (parameters_ x) (ramp_extractor_ x) (ramp_division_quantizer_ x) (delay_line_ x) (gate_delay_ x) (num_segments_ x).
Definition set_active_segment_ (v : Z) (x : SegmentGenerator) : SegmentGenerator :=
  Build_SegmentGenerator (process_fn_ x) (multimode x) (rng_state_ x) (phase_ x) (aux_ x) (zero_ x) (half_ x) (one_ x) (start_ x) (value_ x) (lp_ x) (primary_ x) (monitored_segment_ x) v (retrig_delay_ x) (segments_ x) (parameters_ x) (ramp_extractor_ x) (ramp_division_quantizer_ x) (delay_line_ x) (gate_delay_ x) (num_segments_ x).
Definition set_retrig_delay_ (v : Z) (x : SegmentGenerator) : SegmentGenerator :=
  Build_SegmentGenerator (process_fn_ x) (multimode x) (rng_state_ x) (phase_ x) (aux_ x) (zero_ x) (half_ x) (one_ x) (start_ x) (value_ x) (lp_ x) (primary_ x) (monitored_segment_ x) (active_segment_ x) v (segments_ x) (parameters_ x) (ramp_extractor_ x) (ramp_division_quantizer_ x) (delay_line_ x) (gate_delay_ x) (num_segments_ x).
Definition set_segments_ (v : list Segment.t) (x : SegmentGenerator) : SegmentGenerator :=
  Build_SegmentGenerator (process_fn_ x) (multimode x) (rng_state_ x) (phase_ x) (aux_ x) (zero_ x) (half_ x) (one_ x) (start_ x) (value_ x) (lp_ x) (primary_ x) (monitored_segment_ x) (active_segment_ x) (retrig_delay_ x) v (parameters_ x) (ramp_extractor_ x) (ramp_division_quantizer_ x) (delay_line_ x) (gate_delay_ x) (num_segments_ x).
Definition set_parameters_ (v : list segment.Parameters) (x : SegmentGenerator) : SegmentGenerator :=
  Build_SegmentGenerator (process_fn_ x) (multimode x) (rng_state_ x) (phase_ x) (aux_ x) (zero_ x) (half_ x) (one_ x) (start_ x) (value_ x) (lp_ x) (primary_ x) (monitored_segment_ x) (active_segment_ x) (retrig_delay_ x) (segments_ x) v (ramp_extractor_ x) (ramp_division_quantizer_ x) (delay_line_ x) (gate_delay_ x) (num_segments_ x).
Definition set_ramp_extractor_ (v : RampExtractor) (x : SegmentGenerator) : SegmentGenerator :=
  Build_SegmentGenerator (process_fn_ x) (multimode x) (rng_state_ x) (phase_ x) (aux_ x) (zero_ x) (half_ x) (one_ x) (start_ x) (value_ x) (lp_ x) (primary_ x) (monitored_segment_ x) (active_segment_ x) (retrig_delay_ x) (segments_ x) (parameters_ x) v (ramp_division_quantizer_ x) (delay_line_ x) (gate_delay_ x) (num_segments_ x).
Definition set_ramp_division_quantizer_ (v : Quantizer E) (x : SegmentGenerator) : SegmentGenerator :=
  Build_SegmentGenerator (process_fn_ x) (multimode x) (rng_state_ x) (phase_ x) (aux_ x) (zero_ x) (half_ x) (one_ x) (start_ x) (value_ x) (lp_ x) (primary_ x) (monitored_segment_ x) (active_segment_ x) (retrig_delay_ x) (segments_ x) (parameters_ x) (ramp_extractor_ x) v (delay_line_ x) (gate_delay_ x) (num_segments_ x).
Definition set_delay_line_ (v : DelayLine E) (x : SegmentGenerator) : SegmentGenerator :=
  Build_SegmentGenerator (process_fn_ x) (multimode x) (rng_state_ x) (phase_ x) (aux_ x) (zero_ x) (half_ x) (one_ x) (start_ x) (value_ x) (lp_ x) (primary_ x) (monitored_segment_ x) (active_segment_ x) (retrig_delay_ x) (segments_ x) (parameters_ x) (ramp_extractor_ x) (ramp_division_quantizer_ x) v (gate_delay_ x) (num_segments_ x).
Definition set_gate_delay_ (v : GateDelay E) (x : SegmentGenerator) : SegmentGenerator :=
  Build_SegmentGenerator (process_fn_ x) (multimode x) (rng_state_ x) (phase_ x) (aux_ x) (zero_ x) (half_ x) (one_ x) (start_ x) (value_ x) (lp_ x) (primary_ x) (monitored_segment_ x) (active_segment_ x) (retrig_delay_ x) (segments_ x) (parameters_ x) (ramp_extractor_ x) (ramp_division_quantizer_ x) (delay_line_ x) v (num_segments_ x).
Definition set_num_segments_ (v : Z) (x : SegmentGenerator) : SegmentGenerator :=
  Build_SegmentGenerator (process_fn_ x) (multimode x) (rng_state_ x) (phase_ x) (aux_ x) (zero_ x) (half_ x) (one_ x) (start_ x) (value_ x) (lp_ x) (primary_ x) (monitored_segment_ x) (active_segment_ x) (retrig_delay_ x) (segments_ x) (parameters_ x) (ramp_extractor_ x) (ramp_division_quantizer_ x) (delay_line_ x) (gate_delay_ x) v.

Definition kSampleAndHoldDelay : Z :=
  F32.to_size_t (kSampleRate E * F32.of_Z 2 / F32.of_Z 1000)%f32.

Definition segment_at (x : SegmentGenerator) (i : Z) : Segment.t :=
  at_ Segment_default (segments_ x) i.

Definition parameters_at (x : SegmentGenerator) (i : Z) : segment.Parameters :=
  at_ Parameters_default (parameters_ x) i.

(** Reading through a pointer of a segment. *)
Definition load (x : SegmentGenerator) (p : FloatPtr) : float :=
  match p with
  | NULL => F32.zero
  | zero_ptr => zero_ x
  | half_ptr => half_ x
  | one_ptr => one_ x
  | primary_ptr i => segment.primary (parameters_at x i)
  | secondary_ptr i => segment.secondary (parameters_at x i)
  | register_value_ptr i => Segment.register_value (segment_at x i)
  end.

(** [set_segment_parameters(i, primary, secondary)] of the header. *)
Definition set_segment_parameters (i : Z) (primary secondary : float)
    (x : SegmentGenerator) : SegmentGenerator :=
  set_parameters_
    (put (parameters_ x) i (segment.Build_Parameters primary secondary)) x.

(** [SegmentGenerator::Init].  The local [Segment s] is not initialized:
    the fields the function does not assign ([advance_tm], [range]) keep
    what [s] held. *)
Definition Init (settings : MultiMode) (s : Segment.t) (x : SegmentGenerator)
    : SegmentGenerator :=
  let x := set_process_fn_ ProcessMultiSegment_fn x in
  let x := set_multimode settings x in
  let x := set_phase_ F32.zero x in
  let x := set_zero_ F32.zero x in
  let x := set_half_ F32.half x in
  let x := set_one_ F32.one x in
  let x := set_start_ F32.zero x in
  let x := set_value_ F32.zero x in
  let x := set_lp_ F32.zero x in
  let x := set_monitored_segment_ 0 x in
  let x := set_active_segment_ 0 x in
  let x := set_retrig_delay_ 0 x in
  let x := set_primary_ F32.zero x in
  let s := Segment.set_start zero_ptr s in
  let s := Segment.set_end_ zero_ptr s in
  let s := Segment.set_time zero_ptr s in
  let s := Segment.set_curve half_ptr s in
  let s := Segment.set_portamento zero_ptr s in
  let s := Segment.set_phase NULL s in
  let s := Segment.set_if_rising 0 s in
  let s := Segment.set_if_falling 0 s in
  let s := Segment.set_if_complete 0 s in
  let s := Segment.set_bipolar false s in
  let s := Segment.set_retrig true s in
  let '(sample, rng) := Random_GetSample E (rng_state_ x) in
  let s := Segment.set_shift_register (sample mod 2 ^ 16) s in
  let '(f, rng) := Random_GetFloat E rng in
  let s := Segment.set_register_value f s in
  let x := set_rng_state_ rng x in
  let x := set_segments_ (repeat s (Z.to_nat (kMaxNumSegments + 1))) x in
  let p := segment.Build_Parameters F32.zero F32.zero in
  let x := set_parameters_ (repeat p (Z.to_nat kMaxNumSegments)) x in
  let x := set_ramp_extractor_
             (RampExtractor_.Init (kSampleRate E)
                (F32.of_Z 1000 / kSampleRate E)%f32 (ramp_extractor_ x)) x in
  let x := set_ramp_division_quantizer_
             (Quantizer_Init E (ramp_division_quantizer_ x)) x in
  let x := set_delay_line_ (DelayLine_Init E (delay_line_ x)) x in
  let x := set_gate_delay_ (GateDelay_Init E (gate_delay_ x)) x in
  set_num_segments_ 0 x.

Definition WarpPhase (t curve : float) : float :=
  let curve := (curve - F32.half)%f32 in
  let flip := (curve <? F32.zero)%f32 in
  let t := if flip then (F32.one - t)%f32 else t in
  let a := (F32.of_Z 128 * curve * curve)%f32 in
  let t := ((F32.one + a) * t / (F32.one + a * t))%f32 in
  if flip then (F32.one - t)%f32 else t.

(** The index [RateToFrequency] reads [lut_env_frequency] at. *)
Definition RateToFrequency_index (rate : float) : Z :=
  let i := F32.to_int32 (rate * F32.of_Z 2048)%f32 in
  CONSTRAIN_int i 0 (LUT_ENV_FREQUENCY_SIZE E).

Definition RateToFrequency (rate : float) : float :=
  lut_env_frequency E (RateToFrequency_index rate).

(** The index [PortamentoRateToLPCoefficient] reads
    [lut_portamento_coefficient] at. *)
Definition PortamentoRateToLPCoefficient_index (rate : float) : Z :=
  F32.to_int32 (rate * F32.of_Z 512)%f32.

Definition PortamentoRateToLPCoefficient (rate : float) : float :=
  lut_portamento_coefficient E (PortamentoRateToLPCoefficient_index rate).

(** The coin of [advance_tm]: [Random::GetFloat() < p] for the value [u]
    drawn, with [p] the probability after the two thresholds. *)
Definition tm_probability (prob : float) : float :=
  if (prob <? F32.lit 1 1000)%f32 then F32.zero
  else if (prob >? F32.lit 999 1000)%f32 then F32.lit 11 10
  else prob.

Definition tm_coin (prob u : float) : bool := (u <? tm_probability prob)%f32.

(** The register after [advance_tm] when the draw is [u].  [steps] is a
    [size_t] of at least 1 ([steps - 1] wraps for 0, and the shift is then
    undefined). *)
Definition tm_shift (steps : Z) (prob u : float) (shift_register : Z) : Z :=
  let sr := shift_register in
  let copied_bit := Z.land (Z.shiftl sr (steps - 1)) (Z.shiftl 1 15) in
  let mutated := Z.lxor copied_bit (Z.shiftl (Z.b2z (tm_coin prob u)) 15) in
  Z.lor (Z.shiftr sr 1) mutated.

Definition tm_value (shift_register : Z) (bipolar : bool) : float :=
  let register_value := (F32.of_Z shift_register / F32.of_Z 65535)%f32 in
  if bipolar then
    (F32.of_Z 10 / F32.of_Z 8 * (register_value - F32.half))%f32
  else register_value.

(** [advance_tm(steps, prob, shift_register, register_value, bipolar)]:
    the new register, the new value and the state of the random
    generator. *)
Definition advance_tm (steps : Z) (prob : float) (shift_register : Z)
    (bipolar : bool) (rng : Rng E) : Z * float * Rng E :=
  let '(u, rng) := Random_GetFloat E rng in
  let sr := tm_shift steps prob u shift_register in
  (sr, tm_value sr bipolar, rng).

(** [advance_tm] applied to the register of segment [i]. *)
Definition advance_segment_tm (steps : Z) (prob : float) (i : Z)
    (bipolar : bool) (x : SegmentGenerator) : SegmentGenerator :=
  let seg := segment_at x i in
  let '(sr, v, rng) :=
    advance_tm steps prob (Segment.shift_register seg) bipolar
      (rng_state_ x) in
  let seg := Segment.set_register_value v (Segment.set_shift_register sr seg) in
  set_rng_state_ rng (set_segments_ (put (segments_ x) i seg) x).

(** The number of steps the Turing kernels read from [secondary]. *)
Definition tm_steps (secondary : float) : Z :=
  F32.to_size_t (F32.of_Z 15 * secondary + F32.one)%f32.

(** The locals of [ProcessMultiSegment] and the object it updates. *)
Record MultiLoop : Type := {
  ml_obj : SegmentGenerator;
  ml_phase : float;
  ml_start : float;
  ml_lp : float;
  ml_value : float
}.

(** "Decide what to do next": the value of [go_to_segment]. *)
Definition go_to_segment_of (gate_flags : GateFlags) (seg : Segment.t)
    (complete : bool) : Z :=
  if flag_set gate_flags GATE_FLAG_RISING && Segment.retrig seg then
    Segment.if_rising seg
  else if flag_set gate_flags GATE_FLAG_FALLING then
    Segment.if_falling seg
  else if complete then
    Segment.if_complete seg
  else -1.

(** The phase after the increment of the active segment, before the test
    of completion. *)
Definition advanced_phase (x : SegmentGenerator) (phase : float) : float :=
  let seg := segment_at x (active_segment_ x) in
  if is_null (Segment.time seg) then phase
  else (phase + RateToFrequency (load x (Segment.time seg)))%f32.

(** The block run when [go_to_segment != -1]. *)
Definition enter_segment (go_to_segment : Z) (s : MultiLoop) : MultiLoop :=
  let x := ml_obj s in
  let seg := segment_at x (active_segment_ x) in
  let x :=
    if Segment.advance_tm seg then
      let steps :=
        tm_steps (segment.secondary (parameters_at x (active_segment_ x))) in
      let prob := segment.primary (parameters_at x (active_segment_ x)) in
      advance_segment_tm steps prob (active_segment_ x) (Segment.bipolar seg) x
    else x in
  let phase := F32.zero in
  let destination := segment_at x go_to_segment in
  let start :=
    if is_null (Segment.start destination) then
      if go_to_segment =? active_segment_ x then ml_start s else ml_value s
    else load x (Segment.start destination) in
  let x := set_active_segment_ go_to_segment x in
  Build_MultiLoop x phase start (ml_lp s) (ml_value s).

(** One turn of the loop of [ProcessMultiSegment]. *)
Definition ProcessMultiSegment_sample (s : MultiLoop) (gate_flags : GateFlags)
    : MultiLoop * Output :=
  let x := ml_obj s in
  let seg := segment_at x (active_segment_ x) in
  let phase := advanced_phase x (ml_phase s) in
  let complete := (phase >=? F32.one)%f32 in
  let phase := if complete then F32.one else phase in
  let value :=
    Crossfade (ml_start s) (load x (Segment.end_ seg))
      (WarpPhase
         (if is_null (Segment.phase seg) then phase
          else load x (Segment.phase seg))
         (load x (Segment.curve seg))) in
  let lp :=
    ONE_POLE (ml_lp s) value
      (PortamentoRateToLPCoefficient (load x (Segment.portamento seg))) in
  let go_to_segment := go_to_segment_of gate_flags seg complete in
  let s := Build_MultiLoop x phase (ml_start s) lp value in
  let s := if go_to_segment =? -1 then s else enter_segment go_to_segment s in
  (s, Build_Output (ml_lp s) (ml_phase s) (active_segment_ (ml_obj s))).

Definition ProcessMultiSegment (gate_flags : list GateFlags)
    (x : SegmentGenerator) : SegmentGenerator * list Output :=
  let '(s, out) :=
    for_each_sample ProcessMultiSegment_sample
      (Build_MultiLoop x (phase_ x) (start_ x) (lp_ x) (value_ x))
      gate_flags in
  let x := ml_obj s in
  let x := set_phase_ (ml_phase s) x in
  let x := set_start_ (ml_start s) x in
  let x := set_lp_ (ml_lp s) x in
  let x := set_value_ (ml_value s) x in
  (x, out).

(** Modelled from the spec: [stmlib::ParameterInterpolator], which
    "linearly interpolates a scalar from its previous to its new value
    across N samples": the running value and the increment per sample.
    The destructor stores the running value back. *)
Record ParameterInterpolator : Type := {
  pi_value : float;
  pi_increment : float
}.

Definition ParameterInterpolator_make (state new_value : float) (size : Z)
    : ParameterInterpolator :=
  Build_ParameterInterpolator state ((new_value - state) / F32.of_Z size)%f32.

Definition Next (p : ParameterInterpolator) : float * ParameterInterpolator :=
  let v := (pi_value p + pi_increment p)%f32 in
  (v, Build_ParameterInterpolator v (pi_increment p)).

Definition subsample (p : ParameterInterpolator) (t : float) : float :=
  (pi_value p + pi_increment p * t)%f32.

Definition size_of {A : Type} (l : list A) : Z := Z.of_nat (length l).

Definition emit (x : SegmentGenerator) (value phase : float) : Output :=
  Build_Output value phase (active_segment_ x).

(** [active_segment_ = *gate_flags & GATE_FLAG_HIGH ? 0 : 1] *)
Definition follow_gate (gate_flags : GateFlags) (x : SegmentGenerator)
    : SegmentGenerator :=
  set_active_segment_ (if flag_set gate_flags GATE_FLAG_HIGH then 0 else 1) x.

Definition ProcessDecayEnvelope_sample (frequency : float)
    (x : SegmentGenerator) (gate_flags : GateFlags)
    : SegmentGenerator * Output :=
  let x :=
    if flag_set gate_flags GATE_FLAG_RISING
       && (negb (active_segment_ x =? 0) || Segment.retrig (segment_at x 0))
    then set_active_segment_ 0 (set_phase_ F32.zero x)
    else x in
  let x := set_phase_ (phase_ x + frequency)%f32 x in
  let x :=
    if (phase_ x >=? F32.one)%f32 then
      set_active_segment_ 1 (set_phase_ F32.one x)
    else x in
  let x := set_value_
             (F32.one
              - WarpPhase (phase_ x) (segment.secondary (parameters_at x 0)))%f32
             x in
  let x := set_lp_ (value_ x) x in
  (x, emit x (lp_ x) (phase_ x)).

Definition ProcessDecayEnvelope (gate_flags : list GateFlags)
    (x : SegmentGenerator) : SegmentGenerator * list Output :=
  let frequency := RateToFrequency (segment.primary (parameters_at x 0)) in
  for_each_sample (ProcessDecayEnvelope_sample frequency) x gate_flags.

(** The edge block of [ProcessTimedPulseGenerator]. *)
Definition TimedPulse_rising (gate_flags : GateFlags) (x : SegmentGenerator)
    : SegmentGenerator :=
  if flag_set gate_flags GATE_FLAG_RISING
     && (negb (active_segment_ x =? 0) || Segment.retrig (segment_at x 0))
  then
    let x := set_retrig_delay_
               (if active_segment_ x =? 0 then kRetrigDelaySamples else 0) x in
    let x := set_phase_ F32.zero x in
    set_active_segment_ 0 x
  else x.

Definition ProcessTimedPulseGenerator_sample (frequency : float)
    (s : SegmentGenerator * ParameterInterpolator) (gate_flags : GateFlags)
    : SegmentGenerator * ParameterInterpolator * Output :=
  let '(x, primary) := s in
  let x := TimedPulse_rising gate_flags x in
  let x :=
    if negb (retrig_delay_ x =? 0) then
      set_retrig_delay_ (retrig_delay_ x - 1) x
    else x in
  let x := set_phase_ (phase_ x + frequency)%f32 x in
  let x :=
    if (phase_ x >=? F32.one)%f32 then
      set_active_segment_ 1 (set_phase_ F32.one x)
    else x in
  let '(p, primary) := Next primary in
  let x := set_value_
             (if (active_segment_ x =? 0) && (retrig_delay_ x =? 0) then p
              else F32.zero) x in
  let x := set_lp_ (value_ x) x in
  (x, primary, emit x (lp_ x) (phase_ x)).

Definition ProcessTimedPulseGenerator (gate_flags : list GateFlags)
    (x : SegmentGenerator) : SegmentGenerator * list Output :=
  let frequency := RateToFrequency (segment.secondary (parameters_at x 0)) in
  let primary :=
    ParameterInterpolator_make (primary_ x)
      (segment.primary (parameters_at x 0)) (size_of gate_flags) in
  let '(x, primary, out) :=
    for_each_sample (ProcessTimedPulseGenerator_sample frequency)
      (x, primary) gate_flags in
  (set_primary_ (pi_value primary) x, out).

Definition ProcessGateGenerator_sample
    (s : SegmentGenerator * ParameterInterpolator) (gate_flags : GateFlags)
    : SegmentGenerator * ParameterInterpolator * Output :=
  let '(x, primary) := s in
  let x := follow_gate gate_flags x in
  let '(p, primary) := Next primary in
  let x := set_value_ (if active_segment_ x =? 0 then p else F32.zero) x in
  let x := set_lp_ (value_ x) x in
  (x, primary, emit x (lp_ x) F32.half).

Definition ProcessGateGenerator (gate_flags : list GateFlags)
    (x : SegmentGenerator) : SegmentGenerator * list Output :=
  let primary :=
    ParameterInterpolator_make (primary_ x)
      (segment.primary (parameters_at x 0)) (size_of gate_flags) in
  let '(x, primary, out) :=
    for_each_sample ProcessGateGenerator_sample (x, primary) gate_flags in
  (set_primary_ (pi_value primary) x, out).

(** The loop shared by [ProcessSampleAndHold] and [ProcessTrackAndHold],
    which differ by the flag tested on the delayed gate. *)
Definition hold_sample (mask : GateFlags) (coefficient : float)
    (s : SegmentGenerator * ParameterInterpolator) (gate_flags : GateFlags)
    : SegmentGenerator * ParameterInterpolator * Output :=
  let '(x, primary) := s in
  let '(p, primary) := Next primary in
  let x := set_gate_delay_ (GateDelay_Write E (gate_delay_ x) gate_flags) x in
  let x :=
    if flag_set (GateDelay_Read E (gate_delay_ x) kSampleAndHoldDelay) mask
    then set_value_ p x else x in
  let x := follow_gate gate_flags x in
  let x := set_lp_ (ONE_POLE (lp_ x) (value_ x) coefficient) x in
  (x, primary, emit x (lp_ x) F32.half).

Definition hold_kernel (mask : GateFlags) (gate_flags : list GateFlags)
    (x : SegmentGenerator) : SegmentGenerator * list Output :=
  let coefficient :=
    PortamentoRateToLPCoefficient (segment.secondary (parameters_at x 0)) in
  let primary :=
    ParameterInterpolator_make (primary_ x)
      (segment.primary (parameters_at x 0)) (size_of gate_flags) in
  let '(x, primary, out) :=
    for_each_sample (hold_sample mask coefficient) (x, primary) gate_flags in
  (set_primary_ (pi_value primary) x, out).

Definition ProcessSampleAndHold := hold_kernel GATE_FLAG_RISING.
Definition ProcessTrackAndHold := hold_kernel GATE_FLAG_HIGH.

Definition ProcessClockedSampleAndHold_sample (frequency : float)
    (s : SegmentGenerator * ParameterInterpolator) (gate_flags : GateFlags)
    : SegmentGenerator * ParameterInterpolator * Output :=
  let '(x, primary) := s in
  let x := set_phase_ (phase_ x + frequency)%f32 x in
  let x :=
    if (phase_ x >=? F32.one)%f32 then
      let x := set_phase_ (phase_ x - F32.one)%f32 x in
      let reset_time := (phase_ x / frequency)%f32 in
      set_value_ (subsample primary (F32.one - reset_time)%f32) x
    else x in
  let '(_, primary) := Next primary in
  let x := set_active_segment_
             (if (phase_ x <? F32.half)%f32 then 0 else 1) x in
  (x, primary, emit x (value_ x) (phase_ x)).

Definition ProcessClockedSampleAndHold (gate_flags : list GateFlags)
    (x : SegmentGenerator) : SegmentGenerator * list Output :=
  let frequency := RateToFrequency (segment.secondary (parameters_at x 0)) in
  let primary :=
    ParameterInterpolator_make (primary_ x)
      (segment.primary (parameters_at x 0)) (size_of gate_flags) in
  let '(x, primary, out) :=
    for_each_sample (ProcessClockedSampleAndHold_sample frequency)
      (x, primary) gate_flags in
  (set_primary_ (pi_value primary) x, out).

Definition divider_ratios : list Ratio :=
  [ Build_Ratio (F32.lit 249999 1000000) 4;
    Build_Ratio (F32.lit 333333 1000000) 3;
    Build_Ratio (F32.lit 499999 1000000) 2;
    Build_Ratio (F32.lit 999999 1000000) 1;
    Build_Ratio (F32.lit 1999999 1000000) 1;
    Build_Ratio (F32.lit 2999999 1000000) 1;
    Build_Ratio (F32.lit 3999999 1000000) 1 ].

Definition divider_ratios_slow : list Ratio :=
  [ Build_Ratio (F32.lit 124999 1000000) 8;
    Build_Ratio (F32.lit 142856 1000000) 7;
    Build_Ratio (F32.lit 166666 1000000) 6;
    Build_Ratio (F32.lit 199999 1000000) 5;
    Build_Ratio (F32.lit 249999 1000000) 4;
    Build_Ratio (F32.lit 333333 1000000) 3;
    Build_Ratio (F32.lit 499999 1000000) 2;
    Build_Ratio (F32.lit 999999 1000000) 1 ].

Definition divider_ratios_fast : list Ratio :=
  [ Build_Ratio (F32.lit 999999 1000000) 1;
    Build_Ratio (F32.lit 1999999 1000000) 1;
    Build_Ratio (F32.lit 2999999 1000000) 1;
    Build_Ratio (F32.lit 3999999 1000000) 1;
    Build_Ratio (F32.lit 4999999 1000000) 1;
    Build_Ratio (F32.lit 5999999 1000000) 1;
    Build_Ratio (F32.lit 6999999 1000000) 1;
    Build_Ratio (F32.lit 7999999 1000000) 1 ].

(** One turn of the loop of [ShapeLFO]. *)
Definition ShapeLFO_sample (slope slope_up slope_down plateau normalization
    phase_shift sine_amount : float) (bipolar : bool) (o : Output) : Output :=
  let phase := (out_phase o + phase_shift)%f32 in
  let phase := if (phase >? F32.one)%f32 then (phase - F32.one)%f32 else phase in
  let triangle :=
    if (phase <? slope)%f32 then (slope_up * phase)%f32
    else (F32.one - (phase - slope) * slope_down)%f32 in
  let triangle := (triangle - F32.half)%f32 in
  let triangle := CONSTRAIN triangle (SFopp plateau) plateau in
  let triangle := (triangle * normalization)%f32 in
  let sine :=
    InterpolateWrap_lut_sine E (phase + F32.lit 75 100)%f32 (F32.of_Z 1024) in
  let amplitude := if bipolar then (F32.of_Z 10 / F32.of_Z 16)%f32
                   else F32.half in
  let offset := if bipolar then F32.zero else F32.half in
  Build_Output
    (amplitude * Crossfade triangle sine sine_amount + offset)%f32
    (out_phase o)
    (if (phase <? F32.half)%f32 then 0 else 1).

Definition ShapeLFO (shape : float) (in_out : list Output) (bipolar : bool)
    : list Output :=
  let shape := (shape - F32.half)%f32 in
  let shape :=
    (F32.of_Z 2
     + F32.lit 9999999 1000000 * shape
       / (F32.one + F32.of_Z 3 * F32.fabs shape))%f32 in
  let slope := F32.min (shape * F32.half)%f32 F32.half in
  let plateau_width := F32.max (shape - F32.of_Z 3)%f32 F32.zero in
  let sine_amount :=
    F32.max
      (if (shape <? F32.of_Z 2)%f32 then (shape - F32.one)%f32
       else (F32.of_Z 3 - shape)%f32) F32.zero in
  let slope_up := (F32.one / slope)%f32 in
  let slope_down := (F32.one / (F32.one - slope))%f32 in
  let plateau := (F32.half * (F32.one - plateau_width))%f32 in
  let normalization := (F32.one / plateau)%f32 in
  let phase_shift := (plateau_width * F32.lit 25 100)%f32 in
  map (ShapeLFO_sample slope slope_up slope_down plateau normalization
         phase_shift sine_amount bipolar) in_out.

(** [active_segment_ = out[size - 1].segment]; with no sample rendered
    the source reads before the buffer, the model leaves the field. *)
Definition take_last_segment (out : list Output) (x : SegmentGenerator)
    : SegmentGenerator :=
  match rev out with
  | [] => x
  | o :: _ => set_active_segment_ (out_segment o) x
  end.

Definition ramp_output (phase : float) : Output :=
  Build_Output F32.zero phase 0.

(** The room in the scratch buffer of [ProcessTapLFO], [float ramp[12]]. *)
Definition ramp_capacity : Z := 12.

(** [ramp_extractor_.Process] writes one value per sample of the block
    into the scratch buffer [ramp]; a block of more than [ramp_capacity]
    samples runs past its end, and the call then has no result. *)
Definition ProcessTapLFO (gate_flags : list GateFlags) (x : SegmentGenerator)
    : option (SegmentGenerator * list Output) :=
  let value := (segment.primary (parameters_at x 0) * F32.lit 103 100)%f32 in
  let '(r, quantizer) :=
    match Segment.range (segment_at x 0) with
    | segment.RANGE_DEFAULT =>
        let '(i, quantizer) :=
          Quantizer_Lookup E (ramp_division_quantizer_ x) value 7 in
        (at_ (Build_Ratio F32.zero 0) divider_ratios i, quantizer)
    | segment.RANGE_SLOW =>
        let '(i, quantizer) :=
          Quantizer_Lookup E (ramp_division_quantizer_ x) value 8 in
        (at_ (Build_Ratio F32.zero 0) divider_ratios_slow i, quantizer)
    | segment.RANGE_FAST =>
        let '(i, quantizer) :=
          Quantizer_Lookup E (ramp_division_quantizer_ x) value 8 in
        (at_ (Build_Ratio F32.zero 0) divider_ratios_fast i, quantizer)
    end in
  let x := set_ramp_division_quantizer_ quantizer x in
  if ramp_capacity <? size_of gate_flags then None
  else
    let '(extractor, ramp) :=
      RampProcess.Process r gate_flags (ramp_extractor_ x) in
    let x := set_ramp_extractor_ extractor x in
    let out := map ramp_output ramp in
    let out :=
      ShapeLFO (segment.secondary (parameters_at x 0)) out
        (Segment.bipolar (segment_at x 0)) in
    Some (take_last_segment out x, out).

(** The semitone offset [ProcessFreeRunningLFO] hands to
    [SemitonesToRatio]. *)
Definition FreeRunningLFO_semitones (primary : float) : float :=
  let f := (F32.of_Z 96 * (primary - F32.half))%f32 in
  CONSTRAIN f (F32.of_Z (-128)) (F32.of_Z 127).

(** The phase increment per sample of [ProcessFreeRunningLFO]. *)
Definition FreeRunningLFO_frequency (x : SegmentGenerator) : float :=
  let f := FreeRunningLFO_semitones (segment.primary (parameters_at x 0)) in
  let frequency :=
    (SemitonesToRatio E f * F32.lit 20439497 10000000 / kSampleRate E)%f32 in
  let frequency :=
    match Segment.range (segment_at x 0) with
    | segment.RANGE_SLOW => (frequency / F32.of_Z 16)%f32
    | segment.RANGE_FAST =>
        let frequency := (frequency * F32.of_Z 64)%f32 in
        F32.min frequency (F32.of_Z 7040 / kSampleRate E)%f32
    | segment.RANGE_DEFAULT => frequency
    end in
  match multimode x with
  | MULTI_MODE_STAGES_SLOW_LFO => (frequency / F32.of_Z 8)%f32
  | _ => frequency
  end.

Definition ProcessFreeRunningLFO_sample (frequency : float)
    (x : SegmentGenerator) (gate_flags : GateFlags)
    : SegmentGenerator * Output :=
  let x := set_phase_ (phase_ x + frequency)%f32 x in
  let x :=
    if (phase_ x >=? F32.one)%f32 then set_phase_ (phase_ x - F32.one)%f32 x
    else x in
  (x, ramp_output (phase_ x)).

Definition ProcessFreeRunningLFO (gate_flags : list GateFlags)
    (x : SegmentGenerator) : SegmentGenerator * list Output :=
  let frequency := FreeRunningLFO_frequency x in
  let x := set_active_segment_ 0 x in
  let '(x, out) :=
    for_each_sample (ProcessFreeRunningLFO_sample frequency) x gate_flags in
  let out :=
    ShapeLFO (segment.secondary (parameters_at x 0)) out
      (Segment.bipolar (segment_at x 0)) in
  (take_last_segment out x, out).

Definition ProcessDelay_sample (clock_frequency delay_frequency delay_time
    : float) (s : SegmentGenerator * ParameterInterpolator)
    (gate_flags : GateFlags)
    : SegmentGenerator * ParameterInterpolator * Output :=
  let '(x, primary) := s in
  let x := set_phase_ (phase_ x + clock_frequency)%f32 x in
  let '(p, primary) := Next primary in
  let x := set_lp_ (ONE_POLE (lp_ x) p clock_frequency) x in
  let x :=
    if (phase_ x >=? F32.one)%f32 then
      let x := set_phase_ (phase_ x - F32.one)%f32 x in
      set_delay_line_ (DelayLine_Write E (delay_line_ x) (lp_ x)) x
    else x in
  let x := set_aux_ (aux_ x + delay_frequency)%f32 x in
  let x :=
    if (aux_ x >=? F32.one)%f32 then set_aux_ (aux_ x - F32.one)%f32 x
    else x in
  let x := set_active_segment_ (if (aux_ x <? F32.half)%f32 then 0 else 1) x in
  let x := set_value_
             (ONE_POLE (value_ x)
                (DelayLine_Read E (delay_line_ x) (delay_time - phase_ x)%f32)
                clock_frequency) x in
  (x, primary, emit x (value_ x) (aux_ x)).

Definition ProcessDelay (gate_flags : list GateFlags) (x : SegmentGenerator)
    : SegmentGenerator * list Output :=
  let max_delay := F32.of_Z (kMaxDelay E - 1) in
  let delay_time :=
    (SemitonesToRatio E
       (F32.of_Z 2 * (segment.secondary (parameters_at x 0) - F32.half)
        * F32.of_Z 36)
     * F32.half * kSampleRate E)%f32 in
  let delay_frequency := (F32.one / delay_time)%f32 in
  let '(clock_frequency, delay_time) :=
    if (delay_time >=? max_delay)%f32 then
      ((max_delay * delay_frequency)%f32, max_delay)
    else (F32.one, delay_time) in
  let primary :=
    ParameterInterpolator_make (primary_ x)
      (segment.primary (parameters_at x 0)) (size_of gate_flags) in
  let x := set_active_segment_ 0 x in
  let '(x, primary, out) :=
    for_each_sample
      (ProcessDelay_sample clock_frequency delay_frequency delay_time)
      (x, primary) gate_flags in
  (set_primary_ (pi_value primary) x, out).

Definition ProcessPortamento_sample (coefficient : float)
    (s : SegmentGenerator * ParameterInterpolator) (gate_flags : GateFlags)
    : SegmentGenerator * ParameterInterpolator * Output :=
  let '(x, primary) := s in
  let '(p, primary) := Next primary in
  let x := set_value_ p x in
  let x := set_lp_ (ONE_POLE (lp_ x) (value_ x) coefficient) x in
  (x, primary, emit x (lp_ x) F32.half).

Definition ProcessPortamento (gate_flags : list GateFlags)
    (x : SegmentGenerator) : SegmentGenerator * list Output :=
  let coefficient :=
    PortamentoRateToLPCoefficient (segment.secondary (parameters_at x 0)) in
  let primary :=
    ParameterInterpolator_make (primary_ x)
      (segment.primary (parameters_at x 0)) (size_of gate_flags) in
  let x := set_active_segment_ 0 x in
  let '(x, primary, out) :=
    for_each_sample (ProcessPortamento_sample coefficient)
      (x, primary) gate_flags in
  (set_primary_ (pi_value primary) x, out).

Definition ProcessRandom_sample (coefficient frequency : float)
    (x : SegmentGenerator) (gate_flags : GateFlags)
    : SegmentGenerator * Output :=
  let x := set_phase_ (phase_ x + frequency)%f32 x in
  let x :=
    if (phase_ x >=? F32.one)%f32 then
      let x := set_phase_ (phase_ x - F32.one)%f32 x in
      let '(u, rng) := Random_GetFloat E (rng_state_ x) in
      let x := set_rng_state_ rng x in
      let x := set_value_ u x in
      let x :=
        if Segment.bipolar (segment_at x 0) then
          set_value_
            (F32.of_Z 10 / F32.of_Z 8 * (value_ x - F32.half))%f32 x
        else x in
      set_active_segment_ 1 x
    else x in
  let x := set_lp_ (ONE_POLE (lp_ x) (value_ x) coefficient) x in
  (x, emit x (lp_ x) F32.half).

Definition ProcessRandom (gate_flags : list GateFlags) (x : SegmentGenerator)
    : SegmentGenerator * list Output :=
  let coefficient :=
    PortamentoRateToLPCoefficient (segment.secondary (parameters_at x 0)) in
  let f := FreeRunningLFO_semitones (segment.primary (parameters_at x 0)) in
  let frequency :=
    (SemitonesToRatio E f * F32.lit 20439497 10000000 / kSampleRate E)%f32 in
  let x := set_active_segment_ 0 x in
  for_each_sample (ProcessRandom_sample coefficient frequency) x gate_flags.

Definition ProcessTuring_sample (steps : Z)
    (s : SegmentGenerator * ParameterInterpolator) (gate_flags : GateFlags)
    : SegmentGenerator * ParameterInterpolator * Output :=
  let '(x, primary) := s in
  let '(prob, primary) := Next primary in
  let x :=
    if flag_set gate_flags GATE_FLAG_RISING then
      let x := advance_segment_tm steps prob 0
                 (Segment.bipolar (segment_at x 0)) x in
      set_value_ (Segment.register_value (segment_at x 0)) x
    else x in
  let x := follow_gate gate_flags x in
  (x, primary,
   emit x (Segment.register_value (segment_at x 0)) F32.half).

Definition ProcessTuring (gate_flags : list GateFlags) (x : SegmentGenerator)
    : SegmentGenerator * list Output :=
  let steps := tm_steps (segment.secondary (parameters_at x 0)) in
  let primary :=
    ParameterInterpolator_make (primary_ x)
      (segment.primary (parameters_at x 0)) (size_of gate_flags) in
  let '(x, primary, out) :=
    for_each_sample (ProcessTuring_sample steps) (x, primary) gate_flags in
  (set_primary_ (pi_value primary) x, out).

Definition ProcessLogistic_sample (coefficient r : float)
    (x : SegmentGenerator) (gate_flags : GateFlags)
    : SegmentGenerator * Output :=
  let x :=
    if flag_set gate_flags GATE_FLAG_RISING then
      set_value_ (value_ x * (r * (F32.one - value_ x)))%f32 x
    else x in
  let x := follow_gate gate_flags x in
  let x := set_lp_ (ONE_POLE (lp_ x) (value_ x) coefficient) x in
  let value :=
    if Segment.bipolar (segment_at x 0) then
      F32.of_double
        (F64.mul (F32.of_Z 10 / F32.of_Z 8)%f32 (F64.sub (lp_ x) F64.half))
    else lp_ x in
  (x, emit x value F32.half).

Definition ProcessLogistic (gate_flags : list GateFlags)
    (x : SegmentGenerator) : SegmentGenerator * list Output :=
  let coefficient :=
    PortamentoRateToLPCoefficient (segment.secondary (parameters_at x 0)) in
  let r :=
    (F32.half * segment.primary (parameters_at x 0) + F32.lit 35 10)%f32 in
  let x :=
    if (value_ x <=? F32.zero)%f32 then
      let '(u, rng) := Random_GetFloat E (rng_state_ x) in
      set_value_ u (set_rng_state_ rng x)
    else x in
  for_each_sample (ProcessLogistic_sample coefficient r) x gate_flags.

Definition ProcessZero (gate_flags : list GateFlags) (x : SegmentGenerator)
    : SegmentGenerator * list Output :=
  let x := set_value_ F32.zero x in
  let x := set_active_segment_ 1 x in
  (x, map (fun _ => Build_Output F32.zero F32.half 1) gate_flags).

(** [ProcessSlave] rewrites the buffer of the generator it follows. *)
Definition ProcessSlave_sample (x : SegmentGenerator) (o : Output)
    : SegmentGenerator * Output :=
  let x := set_active_segment_
             (if out_segment o =? monitored_segment_ x then 0 else 1) x in
  (x, Build_Output
        (if negb (active_segment_ x =? 0) then F32.zero
         else (F32.one - out_phase o)%f32)
        (out_phase o) (out_segment o)).

Definition ProcessSlave (out : list Output) (x : SegmentGenerator)
    : SegmentGenerator * list Output :=
  for_each_sample ProcessSlave_sample x out.

Definition process_fn_table_ : list ProcessFn :=
  [ (* RAMP *)
    ProcessZero_fn;
    ProcessFreeRunningLFO_fn;
    ProcessDecayEnvelope_fn;
    ProcessTapLFO_fn;
    (* STEP *)
    ProcessPortamento_fn;
    ProcessPortamento_fn;
    ProcessSampleAndHold_fn;
    ProcessSampleAndHold_fn;
    (* HOLD *)
    ProcessDelay_fn;
    ProcessDelay_fn;
    ProcessTimedPulseGenerator_fn;
    ProcessGateGenerator_fn;
    (* not normally reached; what random segments are in basic mode *)
    ProcessZero_fn;
    ProcessZero_fn;
    ProcessZero_fn;
    ProcessZero_fn ].

Definition advanced_process_fn_table_ : list ProcessFn :=
  [ (* RAMP *)
    ProcessZero_fn;
    ProcessFreeRunningLFO_fn;
    ProcessDecayEnvelope_fn;
    ProcessTapLFO_fn;
    (* STEP *)
    ProcessPortamento_fn;
    ProcessPortamento_fn;
    ProcessSampleAndHold_fn;
    ProcessTrackAndHold_fn;
    (* HOLD *)
    ProcessDelay_fn;
    ProcessDelay_fn;
    ProcessTimedPulseGenerator_fn;
    ProcessGateGenerator_fn;
    (* TURING *)
    ProcessRandom_fn;
    ProcessRandom_fn;
    ProcessTuring_fn;
    ProcessLogistic_fn ].

(** Modelled from the spec: [SegmentGenerator::Process] of the header,
    which renders a block with the process mode [Configure] selected.
    Each sample comes with its gate flags and with what the output buffer
    holds, which only the slave mode reads.  The call has a result when
    the kernel it hands the block to has one. *)
Definition Process (io : list (GateFlags * Output)) (x : SegmentGenerator)
    : option (SegmentGenerator * list Output) :=
  let gate_flags := map fst io in
  match process_fn_ x with
  | ProcessMultiSegment_fn => Some (ProcessMultiSegment gate_flags x)
  | ProcessDecayEnvelope_fn => Some (ProcessDecayEnvelope gate_flags x)
  | ProcessTimedPulseGenerator_fn =>
      Some (ProcessTimedPulseGenerator gate_flags x)
  | ProcessGateGenerator_fn => Some (ProcessGateGenerator gate_flags x)
  | ProcessSampleAndHold_fn => Some (ProcessSampleAndHold gate_flags x)
  | ProcessTrackAndHold_fn => Some (ProcessTrackAndHold gate_flags x)
  | ProcessClockedSampleAndHold_fn =>
      Some (ProcessClockedSampleAndHold gate_flags x)
  | ProcessTapLFO_fn => ProcessTapLFO gate_flags x
  | ProcessFreeRunningLFO_fn => Some (ProcessFreeRunningLFO gate_flags x)
  | ProcessDelay_fn => Some (ProcessDelay gate_flags x)
  | ProcessPortamento_fn => Some (ProcessPortamento gate_flags x)
  | ProcessRandom_fn => Some (ProcessRandom gate_flags x)
  | ProcessTuring_fn => Some (ProcessTuring gate_flags x)
  | ProcessLogistic_fn => Some (ProcessLogistic gate_flags x)
  | ProcessZero_fn => Some (ProcessZero gate_flags x)
  | ProcessSlave_fn => Some (ProcessSlave (map snd io) x)
  end.

Definition is_step (config : segment.Configuration) : bool :=
  (* Looping Turing types are holds *)
  segment.Type_eqb (segment.type config) segment.TYPE_STEP
  || (segment.Type_eqb (segment.type config) segment.TYPE_TURING
      && negb (segment.loop config)).

(** Modelled from the spec: [ConfigureSingleSegment] of the header.  With
    one segment, "select a single-segment kernel from a 16-entry table
    indexed by [(type << 2) | (has_trigger << 1) | bipolar]", the table
    being "chosen from an external multimode setting". *)
Definition single_segment_index (has_trigger : bool)
    (config : segment.Configuration) : Z :=
  Z.lor (Z.shiftl (segment.Type_index (segment.type config)) 2)
    (Z.lor (Z.shiftl (Z.b2z has_trigger) 1) (Z.b2z (segment.bipolar config))).

Definition ConfigureSingleSegment (has_trigger : bool)
    (config : segment.Configuration) (x : SegmentGenerator)
    : SegmentGenerator :=
  let table :=
    match multimode x with
    | MULTI_MODE_STAGES_ADVANCED => advanced_process_fn_table_
    | _ => process_fn_table_
    end in
  set_process_fn_
    (at_ ProcessZero_fn table (single_segment_index has_trigger config)) x.

Section Configure.

Variable segment_configuration : list segment.Configuration.
Variable num_segments : Z.

Definition config_at (i : Z) : segment.Configuration :=
  at_ Configuration_default segment_configuration i.

Definition type_is (i : Z) (t : segment.Type_) : bool :=
  segment.Type_eqb (segment.type (config_at i)) t.

(** What the first pass of [Configure] collects. *)
Record FirstPass : Type := {
  loop_start : Z;
  loop_end : Z;
  has_step_segments : bool;
  first_ramp_segment : Z
}.

Definition first_pass_body (a : FirstPass) (i : Z) : FirstPass :=
  let has_step := has_step_segments a || is_step (config_at i) in
  let '(ls, le) :=
    if segment.loop (config_at i) then
      ((if loop_start a =? -1 then i else loop_start a), i)
    else (loop_start a, loop_end a) in
  let fr :=
    if type_is i segment.TYPE_RAMP && (first_ramp_segment a =? -1) then i
    else first_ramp_segment a in
  Build_FirstPass ls le has_step fr.

Definition first_pass : FirstPass :=
  fold_left first_pass_body (upto 0 (num_segments - 1))
    (Build_FirstPass (-1) (-1) false (-1)).

(** "Check if there are step segments inside the loop." *)
Definition has_step_segments_inside_loop (a : FirstPass) : bool :=
  if negb (loop_start a =? -1) then
    existsb (fun i => is_step (config_at i)) (upto (loop_start a) (loop_end a))
  else false.

(** "Find the next STEP segment": the [while] loop, which turns at most
    [fuel] times. *)
Fixpoint find_next_step (a : FirstPass) (fuel : nat) (follow_loop : bool)
    (next_step : Z) : Z :=
  match fuel with
  | O => next_step
  | S fuel' =>
      if is_step (config_at next_step) then next_step
      else
        let next_step := next_step + 1 in
        let '(next_step, follow_loop) :=
          if follow_loop && (next_step =? loop_end a + 1) then
            (loop_start a, false)
          else (next_step, follow_loop) in
        if next_step >=? num_segments then num_segments - 1
        else find_next_step a fuel' follow_loop next_step
  end.

Definition next_step_fuel : nat := Z.to_nat (2 * num_segments + 2).

Definition if_rising_of (a : FirstPass) (i : Z) : Z :=
  if has_step_segments a then
    if negb (has_step_segments_inside_loop a)
       && (i >=? loop_start a) && (i <=? loop_end a) then
      Z.rem (loop_end a + 1) num_segments
    else
      let follow_loop := negb (loop_end a =? -1) in
      let next_step := find_next_step a next_step_fuel follow_loop i in
      if next_step =? loop_end a then loop_start a
      else Z.rem (next_step + 1) num_segments
  else 0.

(** The body of the second loop of [Configure]: segment [i] rewired. *)
Definition configure_segment (a : FirstPass) (i : Z) (s : Segment.t)
    : Segment.t :=
  let last_segment := num_segments - 1 in
  let one_segment_loop := (i =? loop_start a) && (i =? loop_end a) in
  let s := Segment.set_bipolar (segment.bipolar (config_at i)) s in
  let s := Segment.set_retrig true s in
  let s := Segment.set_advance_tm false s in
  let s :=
    if type_is i segment.TYPE_RAMP then
      (* For ramp, bipolar means don't retrig. *)
      let s := Segment.set_retrig (negb (Segment.bipolar s)) s in
      let s := Segment.set_start
                 (if num_segments =? 1 then one_ptr else NULL) s in
      let s := Segment.set_time (primary_ptr i) s in
      let s := Segment.set_curve (secondary_ptr i) s in
      let s := Segment.set_portamento zero_ptr s in
      let s := Segment.set_phase NULL s in
      if i =? last_segment then
        Segment.set_end_ zero_ptr s
      else if type_is (i + 1) segment.TYPE_TURING then
        Segment.set_end_ (register_value_ptr (i + 1)) s
      else if negb (type_is (i + 1) segment.TYPE_RAMP) then
        Segment.set_end_ (primary_ptr (i + 1)) s
      else if i =? first_ramp_segment a then
        Segment.set_end_ one_ptr s
      else
        let s := Segment.set_end_ (secondary_ptr i) s in
        Segment.set_curve half_ptr s
    else
      let s := Segment.set_end_ (primary_ptr i) s in
      let s := Segment.set_start (Segment.end_ s) s in
      let s := Segment.set_curve half_ptr s in
      if type_is i segment.TYPE_STEP then
        let s := Segment.set_portamento (secondary_ptr i) s in
        let s := Segment.set_time NULL s in
        (* Sample if there is a loop of length 1 on this segment.
           Otherwise track. *)
        Segment.set_phase (if one_segment_loop then zero_ptr else one_ptr) s
      else if type_is i segment.TYPE_TURING then
        let s := Segment.set_end_ (register_value_ptr i) s in
        let s := Segment.set_start (Segment.end_ s) s in
        let s := Segment.set_advance_tm true s in
        let s := Segment.set_portamento zero_ptr s in
        let s := Segment.set_time NULL s in
        Segment.set_phase zero_ptr s
      else
        let s := Segment.set_portamento zero_ptr s in
        (* Hold if there's a loop of length 1 of this segment.  Otherwise,
           use the programmed time. *)
        let s := Segment.set_time
                   (if one_segment_loop then NULL else secondary_ptr i) s in
        Segment.set_phase one_ptr s (* Track the changes on the slider. *)
  in
  let s := Segment.set_if_complete
             (if i =? loop_end a then loop_start a else i + 1) s in
  let s := Segment.set_if_falling
             (if (loop_end a =? -1) || (loop_end a =? last_segment)
                 || has_step_segments a
              then -1 else loop_end a + 1) s in
  let s := Segment.set_if_rising 0 s in
  Segment.set_if_rising (if_rising_of a i) s.

Definition configure_sentinel (a : FirstPass) (segments : list Segment.t)
    : Segment.t :=
  let last_segment := num_segments - 1 in
  let sentinel := at_ Segment_default segments num_segments in
  let sentinel :=
    Segment.set_start
      (Segment.end_ (at_ Segment_default segments (num_segments - 1)))
      sentinel in
  let sentinel := Segment.set_end_ (Segment.start sentinel) sentinel in
  let sentinel := Segment.set_time zero_ptr sentinel in
  let sentinel := Segment.set_curve half_ptr sentinel in
  let sentinel := Segment.set_portamento zero_ptr sentinel in
  let sentinel := Segment.set_if_rising 0 sentinel in
  let sentinel := Segment.set_if_falling (-1) sentinel in
  Segment.set_if_complete
    (if loop_end a =? last_segment then 0 else -1) sentinel.

Definition Configure (has_trigger : bool) (x : SegmentGenerator)
    : SegmentGenerator :=
  if num_segments =? 1 then
    ConfigureSingleSegment has_trigger (config_at 0) x
  else
    let x := set_num_segments_ num_segments x in
    let x := set_process_fn_ ProcessMultiSegment_fn x in
    let a := first_pass in
    let segments :=
      fold_left
        (fun segments i =>
           put segments i
             (configure_segment a i (at_ Segment_default segments i)))
        (upto 0 (num_segments - 1)) (segments_ x) in
    let segments :=
      put segments num_segments (configure_sentinel a segments) in
    let x := set_segments_ segments x in
    (* After changing the state of the module, we go to the sentinel. *)
    set_active_segment_ num_segments x.

End Configure.

End Generator.

(** ** A concrete environment

    Used to run the model: the sample rate of the module, the linear
    congruential generator and the hysteresis quantizer of [stmlib], a
    gate delay that records what was written, and stand-ins for the
    tables and the audio delay line, whose contents no statement below
    depends on. *)

Module Bench.

Definition GetWord (state : Z) : Z :=
  (state * 1664525 + 1013904223) mod 2 ^ 32.

Definition GetSample (state : Z) : Z * Z :=
  let w := GetWord state in
  let s := Z.shiftr w 16 in
  ((if s <? 2 ^ 15 then s else s - 2 ^ 16), w).

Definition GetFloat (state : Z) : float * Z :=
  let w := GetWord state in
  ((F32.of_Z w / F32.of_Z 4294967296)%f32, w).

(** [HysteresisQuantizer::Process], hysteresis 0.25. *)
Definition Lookup (quantized_value : Z) (value : float) (num_steps : Z)
  : Z * Z :=
  let value := (value * F32.of_Z (num_steps - 1))%f32 in
  let hysteresis := F32.lit 25 100 in
  let hysteresis_feedback :=
    if (value >? F32.of_Z quantized_value)%f32 then SFopp hysteresis
    else hysteresis in
  let q := F32.to_int32 (value + hysteresis_feedback + F32.half)%f32 in
  let q := CONSTRAIN_int q 0 (num_steps - 1) in
  (q, q).

Definition env : Env := {|
  kSampleRate := F32.of_Z 31250;
  LUT_ENV_FREQUENCY_SIZE := 2049;
  lut_env_frequency := fun _ => F32.lit 1 1000;
  LUT_PORTAMENTO_COEFFICIENT_SIZE := 513;
  lut_portamento_coefficient := fun _ => F32.one;
  SemitonesToRatio := fun _ => F32.one;
  InterpolateWrap_lut_sine := fun _ _ => F32.zero;
  Rng := Z;
  Random_GetSample := GetSample;
  Random_GetFloat := GetFloat;
  Quantizer := Z;
  Quantizer_Init := fun _ => 0;
  Quantizer_Lookup := Lookup;
  kMaxDelay := 768;
  DelayLine := unit;
  DelayLine_Init := fun d => d;
  DelayLine_Write := fun d _ => d;
  DelayLine_Read := fun _ _ => F32.zero;
  GateDelay := list GateFlags;
  GateDelay_Init := fun _ => [];
  GateDelay_Write := fun d f => f :: d;
  GateDelay_Read := fun d n => at_ GATE_FLAG_LOW d n
|}.

(** The object before [Init]: zeroed storage. *)
Definition blank_extractor : RampExtractor :=
  Build_RampExtractor false F32.zero F32.zero F32.zero F32.zero F32.zero
    F32.zero F32.zero 0 0 [] 0 F32.zero 0 [] [] F32.zero F32.zero F32.zero
    F32.zero F32.zero F32.zero.

Definition blank : @SegmentGenerator env :=
  Build_SegmentGenerator ProcessMultiSegment_fn MULTI_MODE_STAGES (0 : Rng env)
    F32.zero F32.zero F32.zero F32.zero F32.zero F32.zero F32.zero F32.zero
    F32.zero 0 0 0 [] [] blank_extractor (0 : Quantizer env)
    (tt : DelayLine env) ([] : GateDelay env) 0.

Definition fresh : @SegmentGenerator env :=
  Init MULTI_MODE_STAGES Segment_default blank.

End Bench.

(** ** Notions the statements use *)

(** A phase in the unit interval. *)
Definition phase_in_range (p : float) : Prop :=
  (F32.zero <=? p)%f32 = true /\ (p <=? F32.one)%f32 = true.

(** The wiring of a segment: its indirections, its transitions and its
    flags, that is all of it but the Turing register and its value (and
    the range, which no pointer or transition depends on). *)
Record Wiring : Type := {
  w_start : FloatPtr;
  w_end : FloatPtr;
  w_time : FloatPtr;
  w_curve : FloatPtr;
  w_portamento : FloatPtr;
  w_phase : FloatPtr;
  w_if_rising : Z;
  w_if_falling : Z;
  w_if_complete : Z;
  w_bipolar : bool;
  w_retrig : bool;
  w_advance_tm : bool
}.

Definition wiring_of (s : Segment.t) : Wiring :=
  Build_Wiring (Segment.start s) (Segment.end_ s) (Segment.time s)
    (Segment.curve s) (Segment.portamento s) (Segment.phase s)
    (Segment.if_rising s) (Segment.if_falling s) (Segment.if_complete s)
    (Segment.bipolar s) (Segment.retrig s) (Segment.advance_tm s).

(** The segment graph of a generator. *)
Definition graph {E : Env} (x : @SegmentGenerator E) : list Wiring :=
  map wiring_of (segments_ x).

(** What a kernel leaves alone: the graph and the process mode. *)
Definition same_setup {E : Env} (x y : @SegmentGenerator E) : Prop :=
  graph y = graph x /\ process_fn_ y = process_fn_ x.

(** What happens between two calls of [Configure]: blocks are rendered
    and parameters are set. *)
Inductive Action : Type :=
| Render (io : list (GateFlags * Output))
| SetParameters (i : Z) (primary secondary : float).

Fixpoint run {E : Env} (actions : list Action) (x : @SegmentGenerator E)
    : option (@SegmentGenerator E * list Output) :=
  match actions with
  | [] => Some (x, [])
  | Render io :: rest =>
      match Process io x with
      | None => None
      | Some (x, out) =>
          match run rest x with
          | None => None
          | Some (x, more) => Some (x, out ++ more)
          end
      end
  | SetParameters i primary secondary :: rest =>
      run rest (set_segment_parameters i primary secondary x)
  end.

(** A block the process mode of [x] can render: the tap LFO takes no more
    samples than its scratch buffer holds. *)
Definition renderable {E : Env} (x : @SegmentGenerator E)
    (io : list (GateFlags * Output)) : Prop :=
  process_fn_ x = ProcessTapLFO_fn -> size_of io <= ramp_capacity.

Definition all_renderable {E : Env} (x : @SegmentGenerator E)
    (actions : list Action) : Prop :=
  forall io, In (Render io) actions -> renderable x io.

(** The transitions of a segment stay inside the [n + 1] segments. *)
Definition transitions_in_range (n : Z) (s : Segment.t) : Prop :=
  -1 <= Segment.if_rising s <= n /\
  -1 <= Segment.if_falling s <= n /\
  -1 <= Segment.if_complete s <= n.

(** What [RateToFrequency] can read, the entries 0 to
    [LUT_ENV_FREQUENCY_SIZE] between the bounds of its [CONSTRAIN], are
    non-negative numbers. *)
Definition env_frequencies_nonneg (E : Env) : Prop :=
  forall i,
    Z.min 0 (LUT_ENV_FREQUENCY_SIZE E) <= i
      <= Z.max 0 (LUT_ENV_FREQUENCY_SIZE E) ->
    F32.nonneg (lut_env_frequency E i).

(** An emitted sample in range: the phase in the unit interval and the
    segment index between 0 and [n]. *)
Definition output_in_range (n : Z) (o : Output) : Prop :=
  phase_in_range (out_phase o) /\ 0 <= out_segment o <= n.

(** What holds of the generator between two render calls of the
    multi-segment engine configured with [n] segments. *)
Definition multi_segment_invariant {E : Env} (n : Z) (x : @SegmentGenerator E)
    : Prop :=
  process_fn_ x = ProcessMultiSegment_fn /\
  0 <= active_segment_ x <= n /\
  (forall i, 0 <= i <= n -> transitions_in_range n (segment_at x i)) /\
  phase_in_range (phase_ x).

(** The same inside the loop, where the phase is a local. *)
Definition multi_loop_invariant {E : Env} (n : Z) (s : @MultiLoop E) : Prop :=
  process_fn_ (ml_obj s) = ProcessMultiSegment_fn /\
  0 <= active_segment_ (ml_obj s) <= n /\
  (forall i, 0 <= i <= n -> transitions_in_range n (segment_at (ml_obj s) i)) /\
  phase_in_range (ml_phase s).

(** What the first pass of [Configure] guarantees of the loop window. *)
Definition loop_window_in_range (n : Z) (a : FirstPass) : Prop :=
  (loop_start a = -1 /\ loop_end a = -1) \/
  (0 <= loop_start a <= n - 1 /\ 0 <= loop_end a <= n - 1).


(** The 16-bit register turned right by one bit. *)
Definition rotate_right_16 (sr : Z) : Z :=
  Z.lor (Z.shiftr sr 1) (Z.shiftl (Z.land sr 1) 15).

(** The register after a Turing update, as section 4.9 words it: the bit
    15 of [sr << (s - 1)], mutated by the coin, enters at the top of the
    register shifted right. *)
Definition turing_update (s : Z) (coin : bool) (sr : Z) : Z :=
  let b := Z.testbit (Z.shiftl sr (s - 1)) 15 in
  let mutated := xorb b coin in
  Z.lor (Z.shiftr sr 1) (Z.shiftl (Z.b2z mutated) 15).

(** [register_value = sr / 65535], rescaled to [1.25 * (v - 0.5)] when
    bipolar. *)
Definition turing_value (sr : Z) (bipolar : bool) : float :=
  let v := (F32.of_Z sr / F32.of_Z 65535)%f32 in
  if bipolar then (F32.lit 125 100 * (v - F32.half))%f32 else v.

(** [n] updates in a row of one register, the generator drawing a coin
    at each. *)
Fixpoint advance_tm_times {E : Env} (n : nat) (steps : Z) (prob : float)
    (bipolar : bool) (sr : Z) (rng : Rng E) : Z * Rng E :=
  match n with
  | O => (sr, rng)
  | S n' =>
      let '(sr, _, rng) := advance_tm steps prob sr bipolar rng in
      advance_tm_times n' steps prob bipolar sr rng
  end.

(** The frequency of the free-running LFO in the words of section 4.3,
    the offset in semitones being [semitones]. *)
Definition lfo_frequency_of (E : Env) (semitones : float)
    (range : segment.Range) (slow_lfo : bool) : float :=
  let base :=
    (SemitonesToRatio E semitones * F32.lit 20439497 10000000
     / kSampleRate E)%f32 in
  let ranged :=
    match range with
    | segment.RANGE_DEFAULT => base
    | segment.RANGE_SLOW => (base / F32.of_Z 16)%f32
    | segment.RANGE_FAST =>
        F32.min (base * F32.of_Z 64)%f32 (F32.of_Z 7040 / kSampleRate E)%f32
    end in
  if slow_lfo then (ranged / F32.of_Z 8)%f32 else ranged.

Definition clamp_semitones (lo hi : Z) (primary : float) : float :=
  CONSTRAIN (F32.of_Z 96 * (primary - F32.half))%f32 (F32.of_Z lo) (F32.of_Z hi).

Definition is_slow_lfo (m : MultiMode) : bool :=
  match m with MULTI_MODE_STAGES_SLOW_LFO => true | _ => false end.

(** The phase of a sample of the free-running LFO: accumulated modulo 1. *)
Definition wrap_phase (p : float) : float :=
  if (p >=? F32.one)%f32 then (p - F32.one)%f32 else p.

(** The phases of [n] samples of the free-running LFO from the phase [p],
    with the increment [f]. *)
Fixpoint lfo_phases (p f : float) (n : nat) : list float :=
  match n with
  | O => []
  | S n' => let p' := wrap_phase (p + f)%f32 in p' :: lfo_phases p' f n'
  end.


(** ** Concrete runs *)

Module Runs.

(** The ramp extractor as the generator initializes it. *)
Definition extractor : RampExtractor :=
  RampExtractor_.Init (F32.of_Z 31250) (F32.of_Z 1000 / F32.of_Z 31250)%f32
    Bench.blank_extractor.

Definition unit_ratio : Ratio := Build_Ratio (F32.lit 999999 1000000) 1.

Definition edge : GateFlags := Z.lor GATE_FLAG_RISING GATE_FLAG_HIGH.


(** The loop of [Process] on the silence, from the extractor as it is
    after [Init]. *)
Definition threshold : float :=
  (audio_rate_period_hysteresis_ extractor * F32.one)%f32.



(** A single looping bipolar ramp with a trigger: the tap LFO. *)
Definition tap_lfo_configuration : list segment.Configuration :=
  [segment.Build_Configuration segment.TYPE_RAMP true true
     segment.RANGE_DEFAULT].

Definition tap_lfo : @SegmentGenerator Bench.env :=
  set_segment_parameters 0 F32.zero F32.half
    (Configure tap_lfo_configuration 1 true Bench.fresh).

(** Two rising edges four samples apart. *)
Definition two_edges : list (GateFlags * Output) :=
  map (fun f => (f, Build_Output F32.zero F32.zero 0))
    [edge; GATE_FLAG_HIGH; GATE_FLAG_FALLING; GATE_FLAG_LOW;
     edge; GATE_FLAG_HIGH; GATE_FLAG_HIGH; GATE_FLAG_LOW].

(** Parameters are set, then two blocks are rendered. *)
Definition session : list Action :=
  [SetParameters 0 (F32.lit 15 100) F32.zero;
   SetParameters 1 F32.half (F32.lit 1 10);
   Render two_edges; Render two_edges].

(** An initialized generator with the parameters of a Turing segment:
    probability 0.7 and eight steps. *)
Definition turing : @SegmentGenerator Bench.env :=
  set_segment_parameters 0 (F32.lit 7 10) F32.half Bench.fresh.

(** A two-segment envelope, ramp then hold. *)
Definition ramp_hold : list segment.Configuration :=
  [segment.Build_Configuration segment.TYPE_RAMP false false
     segment.RANGE_DEFAULT;
   segment.Build_Configuration segment.TYPE_HOLD false false
     segment.RANGE_DEFAULT].

End Runs.

(** ** Notions for the ramp extractor *)

(** The arrays of the extractor have their declared sizes and the write
    position is inside the history. *)
Definition extractor_wf (x : RampExtractor) : Prop :=
  length (history_ x) = Z.to_nat kHistorySize /\
  length (prediction_error_ x) = Z.to_nat (kMaxPatternPeriod + 1) /\
  length (predicted_period_ x) = Z.to_nat (kMaxPatternPeriod + 1) /\
  0 <= current_pulse_ x < kHistorySize.

(** The pulse being measured, [history_[current_pulse_]]. *)
Definition current_pulse (x : RampExtractor) : Pulse :=
  at_ Pulse_zero (history_ x) (current_pulse_ x).

(** A sample that carries no rising edge. *)
Definition no_rising (flags : GateFlags) : Prop :=
  flag_set flags GATE_FLAG_RISING = false.

(** The pulse that ended [i] pulses before the current one, in the
    circular history. *)
Definition pulse_back (x : RampExtractor) (i : Z) : Pulse :=
  at_ Pulse_zero (history_ x)
    ((current_pulse_ x + 1 + kHistorySize - i) mod kHistorySize).

(** ** Notions for the single-segment kernels *)

(** The segment a kernel that follows the gate reports: 0 while the gate
    is high, 1 otherwise. *)
Definition gate_segment (gate_flags : GateFlags) : Z :=
  if flag_set gate_flags GATE_FLAG_HIGH then 0 else 1.

(** The segment a kernel that runs a clock reports: the half of the
    cycle the phase is in. *)
Definition half_cycle (phase : float) : Z :=
  if (phase <? F32.half)%f32 then 0 else 1.

Definition binary_segment (segment : Z) : Prop := segment = 0 \/ segment = 1.

(** What a follower makes of a sample of the generator it follows, when
    it monitors the segment [monitored]. *)
Definition slave_output (monitored : Z) (o : Output) : Output :=
  Build_Output
    (if out_segment o =? monitored then (F32.one - out_phase o)%f32
     else F32.zero)
    (out_phase o) (out_segment o).

(** ** Notions for [Configure] *)

(** What the first pass of [Configure] has collected once it has seen
    the segments below [m]: the first and the last looping segment, the
    first ramp, and whether there is a step segment. *)
Definition first_pass_summary (config : list segment.Configuration) (m : Z)
    (a : FirstPass) : Prop :=
  let loops i := segment.loop (config_at config i) in
  let ramp i := type_is config i segment.TYPE_RAMP in
  ((loop_start a = -1 /\ loop_end a = -1 /\
    forall i, 0 <= i < m -> loops i = false) \/
   (0 <= loop_start a <= loop_end a /\ loop_end a < m /\
    loops (loop_start a) = true /\ loops (loop_end a) = true /\
    forall i, 0 <= i < m -> loops i = true ->
              loop_start a <= i <= loop_end a)) /\
  ((first_ramp_segment a = -1 /\
    forall i, 0 <= i < m -> ramp i = false) \/
   (0 <= first_ramp_segment a < m /\
    ramp (first_ramp_segment a) = true /\
    forall i, 0 <= i < first_ramp_segment a -> ramp i = false)) /\
  (has_step_segments a = true <->
   exists i, 0 <= i < m /\ is_step (config_at config i) = true).

(** A pointer that refers to a cell in use when [n] segments are
    configured: a constant of the generator, a parameter or the register
    value of one of the [n] segments. *)
Definition pointer_in_range (n : Z) (p : FloatPtr) : Prop :=
  match p with
  | NULL | zero_ptr | half_ptr | one_ptr => True
  | primary_ptr i | secondary_ptr i | register_value_ptr i => 0 <= i < n
  end.

(** The five indirections [Configure] writes in every segment, the
    sentinel included. *)
Definition wired_in_range (n : Z) (s : Segment.t) : Prop :=
  pointer_in_range n (Segment.start s) /\
  pointer_in_range n (Segment.end_ s) /\
  pointer_in_range n (Segment.time s) /\
  pointer_in_range n (Segment.curve s) /\
  pointer_in_range n (Segment.portamento s).

(** ** More concrete runs *)

Module Holds.

(** A ramp followed by a step: a two-stage sequencer. *)
Definition ramp_step : list segment.Configuration :=
  [segment.Build_Configuration segment.TYPE_RAMP false false
     segment.RANGE_DEFAULT;
   segment.Build_Configuration segment.TYPE_STEP false false
     segment.RANGE_DEFAULT].

(** The generator on the step, at the start of the segment. *)
Definition on_the_step : @SegmentGenerator Bench.env :=
  set_active_segment_ 1 (Configure ramp_step 2 true Bench.fresh).

End Holds.

(** ** The note quantizer ([stages/quantizer.cc]) *)

Module NoteQuantizer.

(** The value of an [int] expression once it is stored in an [int16_t]. *)
Definition int16 (z : Z) : Z := (z + 2 ^ 15) mod 2 ^ 16 - 2 ^ 15.

(** The class [Quantizer], under the name of its module since the
    environment already has a [Quantizer], and the fields [quantizer.cc]
    names.  The class is declared in [stages/quantizer.h]; the scale is
    the array [notes_] points to, [num_notes_] and [span_]. *)
Record t : Type := mk {
  enabled_ : bool;
  codeword_ : Z;
  previous_boundary_ : Z;
  next_boundary_ : Z;
  notes_ : list Z;
  span_ : Z;
  num_notes_ : Z
}.

Definition Init (x : t) : t :=
  mk true 0 0 0 (notes_ x) (span_ x) (num_notes_ x).

(** [notes_[i]]; reading outside the array is undefined. *)
Definition note (x : t) (i : Z) : option Z :=
  if (0 <=? i) && (i <? Z.of_nat (length (notes_ x))) then
    Some (nth (Z.to_nat i) (notes_ x) 0)
  else None.

(** One turn of the search for the nearest note, on [best_distance] and
    [q]. *)
Definition nearest_body (x : t) (rel_pitch : Z) (acc : option (Z * Z))
    (i : Z) : option (Z * Z) :=
  match acc with
  | None => None
  | Some (best_distance, q) =>
      match note x i with
      | None => None
      | Some n =>
          let distance := int16 (Z.abs (rel_pitch - n)) in
          if distance <? best_distance then Some (distance, int16 i)
          else Some (best_distance, q)
      end
  end.

Section Width.

(** What a store to [codeword_], [previous_boundary_] or
    [next_boundary_] keeps of an [int] value: the declared width of the
    three fields is in the header. *)
Variable store : Z -> Z.

(** The branch taken outside the hysteresis window; [pitch] is already
    relative to the root. *)
Definition requantize (pitch : Z) (x : t) : option t :=
  if span_ x =? 0 then None
  else
    let octave :=
      int16 (Z.quot pitch (span_ x) - (if pitch <? 0 then 1 else 0)) in
    let rel_pitch := int16 (pitch - span_ x * octave) in
    match
      fold_left (nearest_body x rel_pitch) (upto 0 (num_notes_ x - 1))
        (Some (16384, -1))
    with
    | None => None
    | Some (best_distance, q) =>
        match note x 0 with
        | None => None
        | Some first =>
            let moved :=
              if Z.abs (pitch - (octave + 1) * span_ x - first)
                 <? best_distance
              then Some (int16 (octave + 1), 0)
              else
                match note x (num_notes_ x - 1) with
                | None => None
                | Some last_note =>
                    if Z.abs (pitch - (octave - 1) * span_ x - last_note)
                       <=? best_distance
                    then Some (int16 (octave - 1), int16 (num_notes_ x - 1))
                    else Some (octave, q)
                end in
            match moved with
            | None => None
            | Some (octave, q) =>
                match note x q,
                      note x (if q =? 0 then num_notes_ x - 1 else q - 1),
                      note x (if q =? num_notes_ x - 1 then 0 else q + 1)
                with
                | Some n, Some below, Some above =>
                    let codeword := store (n + octave * span_ x) in
                    let previous_boundary :=
                      store (if q =? 0 then below + (octave - 1) * span_ x
                             else below + octave * span_ x) in
                    let previous_boundary :=
                      store (Z.shiftr (9 * previous_boundary + 7 * codeword) 4)
                    in
                    let next_boundary :=
                      store (if q =? num_notes_ x - 1
                             then above + (octave + 1) * span_ x
                             else above + octave * span_ x) in
                    let next_boundary :=
                      store (Z.shiftr (9 * next_boundary + 7 * codeword) 4) in
                    Some (mk (enabled_ x) codeword previous_boundary
                            next_boundary (notes_ x) (span_ x) (num_notes_ x))
                | _, _, _ => None
                end
            end
        end
    end.

(** [Quantizer::Process(pitch, root)]: the pitch returned and the
    object, or nothing where the source is undefined (a span of 0, a
    read outside the scale). *)
Definition Process (pitch root : Z) (x : t) : option (Z * t) :=
  if negb (enabled_ x) then Some (pitch, x)
  else
    let pitch := int16 (pitch - root) in
    if (pitch >=? previous_boundary_ x) && (pitch <=? next_boundary_ x) then
      Some (int16 (int16 (codeword_ x) + root), x)
    else
      match requantize pitch x with
      | None => None
      | Some x => Some (int16 (int16 (codeword_ x) + root), x)
      end.

(** Calls in a row with the same root. *)
Fixpoint Process_all (pitches : list Z) (root : Z) (x : t)
    : option (list Z * t) :=
  match pitches with
  | [] => Some ([], x)
  | pitch :: rest =>
      match Process pitch root x with
      | None => None
      | Some (out, x) =>
          match Process_all rest root x with
          | None => None
          | Some (outs, x) => Some (out :: outs, x)
          end
      end
  end.

End Width.

(** A pitch, relative to the root, inside the hysteresis window. *)
Definition in_window (x : t) (root pitch : Z) : Prop :=
  previous_boundary_ x <= int16 (pitch - root) <= next_boundary_ x.

End NoteQuantizer.

(** * Proofs *)

(** * Binary32 facts *)

Module F32Facts.

Import F32.

Lemma signed_nonneg x : signed false x -> F32.nonneg x.
Proof. destruct x; simpl; auto. Qed.

Lemma shr_1_nonneg mrs : 0 <= shr_m mrs -> 0 <= shr_m (shr_1 mrs).
Proof.
  destruct mrs as [m r s]; simpl.
  destruct m as [|p|p]; [simpl; lia| |lia].
  destruct p; simpl; lia.
Qed.

Lemma iter_shr_1_nonneg p : forall mrs,
  0 <= shr_m mrs -> 0 <= shr_m (iter_pos shr_1 p mrs).
Proof.
  induction p as [p IH|p IH|]; intros mrs H; simpl.
  - apply IH, IH, shr_1_nonneg, H.
  - apply IH, IH, H.
  - apply shr_1_nonneg, H.
Qed.

Lemma shr_nonneg mrs e n : 0 <= shr_m mrs -> 0 <= shr_m (fst (shr mrs e n)).
Proof.
  intros H. unfold shr. destruct n; simpl; auto.
  apply iter_shr_1_nonneg, H.
Qed.

Lemma shr_fexp_nonneg m e l :
  0 <= m -> 0 <= shr_m (fst (shr_fexp F32.prec F32.emax m e l)).
Proof.
  intros H. unfold shr_fexp. apply shr_nonneg.
  destruct l as [|[]]; simpl; exact H.
Qed.

Lemma round_nearest_even_nonneg m l : 0 <= m -> 0 <= round_nearest_even m l.
Proof.
  intros H. destruct l as [|[]]; simpl; try lia.
  destruct (Z.even m); lia.
Qed.

Lemma binary_round_aux_signed s m e l :
  0 <= m -> signed s (binary_round_aux F32.prec F32.emax s m e l).
Proof.
  intros H. unfold binary_round_aux.
  pose proof (shr_fexp_nonneg m e l H) as H1.
  destruct (shr_fexp F32.prec F32.emax m e l) as [mrs' e'].
  simpl in H1.
  pose proof (shr_fexp_nonneg _ e' loc_Exact
                (round_nearest_even_nonneg _ (loc_of_shr_record mrs') H1))
    as H2.
  destruct (shr_fexp F32.prec F32.emax
              (round_nearest_even (shr_m mrs') (loc_of_shr_record mrs'))
              e' loc_Exact) as [mrs'' e''].
  simpl in H2.
  destruct (shr_m mrs'') as [|p|p]; simpl.
  - reflexivity.
  - match goal with |- context [if ?b then _ else _] => destruct b end;
      simpl; reflexivity.
  - lia.
Qed.

Lemma binary_round_signed s m e :
  signed s (binary_round F32.prec F32.emax s m e).
Proof.
  unfold binary_round.
  destruct (shl_align m e _) as [mz ez].
  apply binary_round_aux_signed. lia.
Qed.

Lemma of_Z_nonneg z : 0 <= z -> F32.nonneg (F32.of_Z z).
Proof.
  intros H. unfold F32.of_Z, binary_normalize.
  destruct z as [|p|p]; [exact I| |lia].
  apply signed_nonneg, binary_round_signed.
Qed.

Lemma add_nonneg x y :
  F32.nonneg x -> F32.nonneg y -> F32.nonneg (F32.add x y).
Proof.
  unfold F32.add.
  destruct x as [sx|sx| |sx mx ex], y as [sy|sy| |sy my ey];
    simpl; intros Hx Hy; subst; try tauto; try reflexivity.
  - destruct sx, sy; exact I.
  - apply signed_nonneg. apply binary_round_signed.
Qed.

Lemma div_nonneg x m e :
  F32.nonneg x -> F32.nonneg (F32.div x (S754_finite false m e)).
Proof.
  unfold F32.div, SFdiv.
  destruct x as [sx|sx| |sx mx ex]; intros Hx; cbn [F32.nonneg] in Hx;
    subst; try tauto; try exact I; try reflexivity.
  apply signed_nonneg.
  unfold SFdiv_core_binary.
  match goal with |- context [Z.div_eucl ?a ?b] =>
    pose proof (Z_div_mod a b ltac:(lia)) as Hd;
    assert (Ha : 0 <= a);
    [|destruct (Z.div_eucl a b) as [q r]] end.
  { match goal with |- 0 <= match ?s with _ => _ end =>
      destruct s; try lia end.
    apply Z.shiftl_nonneg. lia. }
  apply binary_round_aux_signed.
  destruct Hd as [Hd1 Hd2]. nia.
Qed.

(** [0 <= p] holds exactly for the values [F32.nonneg] keeps. *)
Lemma zero_le_iff p : (F32.zero <=? p)%f32 = true <-> F32.nonneg p.
Proof.
  unfold F32.le, SFleb, F32.zero.
  destruct p as [s|s| |s m e]; simpl; try destruct s; simpl;
    split; intros H; try discriminate; try reflexivity; try exact I;
    try tauto.
Qed.

Lemma nonneg_not_lt_zero u : F32.nonneg u -> (u <? F32.zero)%f32 = false.
Proof.
  unfold F32.lt, SFltb, F32.zero.
  destruct u as [s|s| |s m e]; simpl; intros H; subst; try tauto;
    reflexivity.
Qed.

Lemma cont_eq_lt m n c :
  Pos.compare_cont Eq m n = c -> c <> Gt -> (m <= n)%positive.
Proof.
  intros H Hc. rewrite <- Pos.compare_le_iff. 
  change (Pos.compare_cont Eq m n) with (Pos.compare m n) in H.
  congruence.
Qed.

Lemma one_eq : F32.one = S754_finite false 8388608 (-23).
Proof. reflexivity. Qed.

Lemma lit_1_1_eq : F32.lit 11 10 = S754_finite false 9227469 (-23).
Proof. vm_compute. reflexivity. Qed.

(** On a number, the negation of [p >= b] is [p <= b] for a positive
    finite bound. *)
Lemma not_ge_finite p k ek :
  F32.nonneg p ->
  SFleb (S754_finite false k ek) p = false ->
  SFleb p (S754_finite false k ek) = true.
Proof.
  unfold SFleb.
  destruct p as [s|s| |s m e]; cbn [F32.nonneg SFcompare]; intros H;
    subst; try tauto; try discriminate; try reflexivity.
  rewrite (Z.compare_antisym e ek).
  destruct (e ?= ek) eqn:He; cbn [CompOpp]; try discriminate;
    try reflexivity.
  change (Pos.compare_cont Eq k m) with (Pos.compare k m).
  change (Pos.compare_cont Eq m k) with (Pos.compare m k).
  rewrite (Pos.compare_antisym m k).
  destruct (m ?= k)%positive; cbn [CompOpp]; try discriminate;
    reflexivity.
Qed.

Lemma not_ge_one p :
  F32.nonneg p -> (p >=? F32.one)%f32 = false -> (p <=? F32.one)%f32 = true.
Proof.
  unfold F32.ge, F32.le. rewrite one_eq. apply not_ge_finite.
Qed.

(** Whatever is at most a positive finite bound is below a bound with
    the same exponent and a larger mantissa. *)
Lemma le_finite_lt_finite u k k' ek :
  (k < k')%positive ->
  SFleb u (S754_finite false k ek) = true ->
  SFltb u (S754_finite false k' ek) = true.
Proof.
  intros Hk. unfold SFleb, SFltb.
  destruct u as [s|s| |s m e]; cbn [SFcompare]; try destruct s;
    try discriminate; try reflexivity.
  destruct (e ?= ek); try discriminate; try reflexivity.
  change (Pos.compare_cont Eq m k) with (Pos.compare m k).
  change (Pos.compare_cont Eq m k') with (Pos.compare m k').
  destruct (m ?= k)%positive eqn:Hm; try discriminate; intros _.
  - apply Pos.compare_eq in Hm. subst.
    apply Pos.compare_lt_iff in Hk. rewrite Hk. reflexivity.
  - assert (H : (m ?= k')%positive = Lt).
    { apply Pos.compare_lt_iff. apply Pos.compare_lt_iff in Hm.
      eapply Pos.lt_trans; eassumption. }
    rewrite H. reflexivity.
Qed.

(** Whatever is at most one is below [1.1]. *)
Lemma le_one_lt_1_1 u :
  (u <=? F32.one)%f32 = true -> (u <? F32.lit 11 10)%f32 = true.
Proof.
  unfold F32.le, F32.lt. rewrite one_eq, lit_1_1_eq.
  apply le_finite_lt_finite. reflexivity.
Qed.

End F32Facts.

(** * Arrays *)

Section Arrays.

Context {A : Type}.
Implicit Types (l : list A) (i j : Z) (n : nat).

Lemma put_nat_length l : forall n a, length (put_nat l n a) = length l.
Proof.
  induction l as [|h t IH]; intros [|n] a; cbn; auto.
Qed.

Lemma put_length l i a : length (put l i a) = length l.
Proof. unfold put. destruct (i <? 0); auto using put_nat_length. Qed.

Lemma nth_put_nat_eq d l : forall n a,
  (n < length l)%nat -> nth n (put_nat l n a) d = a.
Proof.
  induction l as [|h t IH]; intros [|n] a H; cbn in *; try lia; auto.
  apply IH. lia.
Qed.

Lemma nth_put_nat_ne d l : forall n m a,
  n <> m -> nth m (put_nat l n a) d = nth m l d.
Proof.
  induction l as [|h t IH]; intros [|n] [|m] a H; cbn; auto; try lia.
Qed.

Lemma put_nat_put_nat l : forall n a b,
  put_nat (put_nat l n a) n b = put_nat l n b.
Proof.
  induction l as [|h t IH]; intros [|n] a b; cbn; auto. now rewrite IH.
Qed.

Lemma at_put_eq d l i a :
  0 <= i < Z.of_nat (length l) -> at_ d (put l i a) i = a.
Proof.
  intros H. unfold at_, put.
  destruct (Z.ltb_spec i 0); [lia|]. apply nth_put_nat_eq. lia.
Qed.

Lemma at_put_ne d l i j a : i <> j -> at_ d (put l i a) j = at_ d l j.
Proof.
  intros H. unfold at_, put.
  destruct (Z.ltb_spec j 0); [reflexivity|].
  destruct (Z.ltb_spec i 0); [reflexivity|].
  apply nth_put_nat_ne. lia.
Qed.

Lemma put_put l i a b : put (put l i a) i b = put l i b.
Proof. unfold put. destruct (i <? 0); auto using put_nat_put_nat. Qed.

Lemma map_put_nat {B : Type} (f : A -> B) d l : forall n a,
  f a = f (nth n l d) -> map f (put_nat l n a) = map f l.
Proof.
  induction l as [|h t IH]; intros [|n] a H; cbn in *; auto.
  - now rewrite H.
  - now rewrite IH.
Qed.

(** A store that leaves the image under [f] of the cell alone leaves
    the image of the array alone. *)
Lemma map_put {B : Type} (f : A -> B) d l i a :
  f a = f (at_ d l i) -> map f (put l i a) = map f l.
Proof.
  unfold at_, put. destruct (i <? 0); [reflexivity|]. apply map_put_nat.
Qed.

End Arrays.

(** * The ramp extractor *)

Section Reset.

Import RampExtractor_ RampProcess.

Lemma clear_pulse_history x :
  history_ (clear_pulse x)
  = put (history_ x) (current_pulse_ x)
      (set_total_duration 0
         (at_ Pulse_zero
            (put (history_ x) (current_pulse_ x)
               (set_on_duration 0
                  (at_ Pulse_zero (history_ x) (current_pulse_ x))))
            (current_pulse_ x))).
Proof. unfold clear_pulse. cbn. apply put_put. Qed.


Lemma put_nat_out {A : Type} (l : list A) : forall n a,
  (length l <= n)%nat -> put_nat l n a = l.
Proof.
  induction l as [|h t IH]; intros [|n] a H; cbn in *; auto; try lia.
  rewrite IH by lia. reflexivity.
Qed.

Lemma clear_pulse_clears x :
  history_ (clear_pulse x)
  = put (history_ x) (current_pulse_ x)
      (Build_Pulse 0 0
         (pulse_width (at_ Pulse_zero (history_ x) (current_pulse_ x)))).
Proof.
  rewrite clear_pulse_history.
  destruct (Z.ltb_spec (current_pulse_ x) 0) as [Hneg|Hpos].
  - unfold put. destruct (Z.ltb_spec (current_pulse_ x) 0); [reflexivity|lia].
  - destruct (Z.ltb_spec (current_pulse_ x) (Z.of_nat (length (history_ x))))
      as [Hin|Hout].
    + rewrite at_put_eq by lia. reflexivity.
    + unfold put. destruct (Z.ltb_spec (current_pulse_ x) 0); [lia|].
      rewrite !put_nat_out by lia. reflexivity.
Qed.



End Reset.

(** * Loops *)

Lemma for_each_sample_invariant {S A B : Type} (step : S -> A -> S * B)
    (P : S -> Prop) (Q : B -> Prop) :
  (forall s a, P s -> P (fst (step s a)) /\ Q (snd (step s a))) ->
  forall input s, P s ->
    P (fst (for_each_sample step s input)) /\
    Forall Q (snd (for_each_sample step s input)).
Proof.
  intros Hstep. induction input as [|a rest IH]; intros s Hs.
  - split; [exact Hs|constructor].
  - cbn [for_each_sample].
    destruct (Hstep s a Hs) as [H1 H2].
    destruct (step s a) as [s1 b]. cbn [fst snd] in *.
    destruct (IH s1 H1) as [H3 H4].
    destruct (for_each_sample step s1 rest) as [s2 out]. cbn [fst snd] in *.
    split; [exact H3|constructor; assumption].
Qed.

Lemma for_each_sample_keeps {S A B : Type} (step : S -> A -> S * B)
    (P : S -> Prop) :
  (forall s a, P s -> P (fst (step s a))) ->
  forall input s, P s -> P (fst (for_each_sample step s input)).
Proof.
  intros Hstep input s Hs.
  apply (for_each_sample_invariant step P (fun _ => True)); auto.
Qed.

(** * The segment graph is not touched by rendering *)

Section Frame.

Context {E : Env}.
Implicit Types x : @SegmentGenerator E.

Lemma same_setup_refl x : same_setup x x.
Proof. split; reflexivity. Qed.

Lemma same_setup_trans x y z :
  same_setup x y -> same_setup y z -> same_setup x z.
Proof. intros [H1 H2] [H3 H4]. split; congruence. Qed.

Lemma advance_segment_tm_setup steps prob i bipolar x :
  same_setup x (advance_segment_tm steps prob i bipolar x).
Proof.
  unfold advance_segment_tm.
  destruct (advance_tm _ _ _ _ _) as [[sr v] rng].
  split; [|reflexivity]. unfold graph. cbn.
  apply (map_put wiring_of Segment_default). reflexivity.
Qed.

Ltac split_ifs :=
  repeat match goal with
    | |- context [if ?b then _ else _] => destruct b
    end.

Lemma take_last_segment_setup out x : same_setup x (take_last_segment out x).
Proof.
  unfold take_last_segment. destruct (rev out); split; reflexivity.
Qed.

Lemma ProcessMultiSegment_sample_setup (s : @MultiLoop E) g :
  same_setup (ml_obj s) (ml_obj (fst (ProcessMultiSegment_sample s g))).
Proof.
  unfold ProcessMultiSegment_sample. cbn [fst].
  destruct (go_to_segment_of _ _ _ =? -1); [apply same_setup_refl|].
  unfold enter_segment. cbn [ml_obj].
  destruct (Segment.advance_tm _).
  - eapply same_setup_trans; [apply advance_segment_tm_setup|].
    split; reflexivity.
  - split; reflexivity.
Qed.

(** A kernel that runs [step] over the block keeps the setup if each
    turn does; [obj] extracts the generator from the state of the loop. *)
Lemma loop_setup {S A B : Type} (obj : S -> @SegmentGenerator E)
    (step : S -> A -> S * B) :
  (forall s a, same_setup (obj s) (obj (fst (step s a)))) ->
  forall input s, same_setup (obj s) (obj (fst (for_each_sample step s input))).
Proof.
  intros Hstep input s.
  apply (for_each_sample_keeps step (fun s' => same_setup (obj s) (obj s'))).
  - intros s1 a H. eapply same_setup_trans; [exact H|apply Hstep].
  - apply same_setup_refl.
Qed.

Lemma ProcessMultiSegment_setup gate_flags x :
  same_setup x (fst (ProcessMultiSegment gate_flags x)).
Proof.
  unfold ProcessMultiSegment.
  pose proof (loop_setup ml_obj ProcessMultiSegment_sample
                ProcessMultiSegment_sample_setup gate_flags
                (Build_MultiLoop x (phase_ x) (start_ x) (lp_ x) (value_ x)))
    as H.
  destruct (for_each_sample _ _ _) as [s out]. exact H.
Qed.

Lemma ProcessDecayEnvelope_setup gate_flags x :
  same_setup x (fst (ProcessDecayEnvelope gate_flags x)).
Proof.
  unfold ProcessDecayEnvelope.
  apply (loop_setup (fun y => y)). intros s a.
  unfold ProcessDecayEnvelope_sample. cbn [fst].
  split_ifs; split; reflexivity.
Qed.

Lemma interpolated_setup {A : Type}
    (step : @SegmentGenerator E * ParameterInterpolator -> A ->
            @SegmentGenerator E * ParameterInterpolator * Output)
    input x primary :
  (forall s a, same_setup (fst s) (fst (fst (step s a)))) ->
  same_setup x
    (fst (let '(y, p, out) := for_each_sample step (x, primary) input in
          (set_primary_ (pi_value p) y, out))).
Proof.
  intros Hstep.
  pose proof (loop_setup fst step Hstep input (x, primary)) as H.
  destruct (for_each_sample step (x, primary) input) as [[y p] out].
  cbn [fst] in *. destruct H as [H1 H2]. split; assumption.
Qed.

Lemma ProcessTimedPulseGenerator_setup gate_flags x :
  same_setup x (fst (ProcessTimedPulseGenerator gate_flags x)).
Proof.
  unfold ProcessTimedPulseGenerator. apply interpolated_setup.
  intros [y p] a. unfold ProcessTimedPulseGenerator_sample, TimedPulse_rising.
  cbn [fst]. split_ifs; split; reflexivity.
Qed.

Lemma ProcessGateGenerator_setup gate_flags x :
  same_setup x (fst (ProcessGateGenerator gate_flags x)).
Proof.
  unfold ProcessGateGenerator. apply interpolated_setup.
  intros [y p] a. unfold ProcessGateGenerator_sample, follow_gate.
  cbn [fst]. split_ifs; split; reflexivity.
Qed.

Lemma hold_kernel_setup mask gate_flags x :
  same_setup x (fst (hold_kernel mask gate_flags x)).
Proof.
  unfold hold_kernel. apply interpolated_setup.
  intros [y p] a. unfold hold_sample, follow_gate.
  cbn [fst]. split_ifs; split; reflexivity.
Qed.

Lemma ProcessClockedSampleAndHold_setup gate_flags x :
  same_setup x (fst (ProcessClockedSampleAndHold gate_flags x)).
Proof.
  unfold ProcessClockedSampleAndHold. apply interpolated_setup.
  intros [y p] a. unfold ProcessClockedSampleAndHold_sample.
  cbn [fst]. split_ifs; split; reflexivity.
Qed.

Lemma ProcessTapLFO_setup gate_flags x r :
  ProcessTapLFO gate_flags x = Some r -> same_setup x (fst r).
Proof.
  unfold ProcessTapLFO.
  destruct (Segment.range (segment_at x 0));
    destruct (Quantizer_Lookup E _ _ _) as [i qz];
    (destruct (ramp_capacity <? size_of gate_flags); [discriminate|]);
    destruct (RampProcess.Process _ _ _) as [ex ramp];
    intros [= <-]; cbn [fst];
    (eapply same_setup_trans; [|apply take_last_segment_setup]);
    split; reflexivity.
Qed.

Lemma ProcessTapLFO_returns gate_flags x :
  size_of gate_flags <= ramp_capacity ->
  exists r, ProcessTapLFO gate_flags x = Some r.
Proof.
  intros H. unfold ProcessTapLFO.
  destruct (Segment.range (segment_at x 0));
    destruct (Quantizer_Lookup E _ _ _) as [i qz];
    (destruct (Z.ltb_spec ramp_capacity (size_of gate_flags)); [lia|]);
    destruct (RampProcess.Process _ _ _) as [ex ramp];
    eexists; reflexivity.
Qed.

Lemma ProcessFreeRunningLFO_setup gate_flags x :
  same_setup x (fst (ProcessFreeRunningLFO gate_flags x)).
Proof.
  unfold ProcessFreeRunningLFO.
  pose proof (loop_setup (fun y => y)
                (ProcessFreeRunningLFO_sample (FreeRunningLFO_frequency x)))
    as H.
  specialize (H ltac:(intros s a; unfold ProcessFreeRunningLFO_sample;
                      cbn [fst]; split_ifs; split; reflexivity)
                gate_flags (set_active_segment_ 0 x)).
  destruct (for_each_sample _ _ _) as [y out]. cbn [fst] in *.
  eapply same_setup_trans; [|apply take_last_segment_setup].
  destruct H as [H1 H2]. split; assumption.
Qed.

Lemma ProcessDelay_setup gate_flags x :
  same_setup x (fst (ProcessDelay gate_flags x)).
Proof.
  unfold ProcessDelay.
  destruct (_ >=? _)%f32;
    apply (interpolated_setup _ gate_flags (set_active_segment_ 0 x));
    intros [y p] a; unfold ProcessDelay_sample, Next; cbn [fst];
    split_ifs; split; reflexivity.
Qed.

Lemma ProcessPortamento_setup gate_flags x :
  same_setup x (fst (ProcessPortamento gate_flags x)).
Proof.
  unfold ProcessPortamento.
  apply (interpolated_setup _ gate_flags (set_active_segment_ 0 x)).
  intros [y p] a. unfold ProcessPortamento_sample. cbn [fst].
  split; reflexivity.
Qed.

Lemma ProcessRandom_setup gate_flags x :
  same_setup x (fst (ProcessRandom gate_flags x)).
Proof.
  unfold ProcessRandom.
  apply (loop_setup (fun y => y) _ ) with (s := set_active_segment_ 0 x).
  intros s a. unfold ProcessRandom_sample. cbn [fst].
  destruct (_ >=? _)%f32; [|split; reflexivity].
  destruct (Random_GetFloat E _) as [u rng].
  split_ifs; split; reflexivity.
Qed.

Lemma ProcessTuring_setup gate_flags x :
  same_setup x (fst (ProcessTuring gate_flags x)).
Proof.
  unfold ProcessTuring. apply interpolated_setup.
  intros [y p] a. unfold ProcessTuring_sample, follow_gate. cbn [fst].
  destruct (flag_set a GATE_FLAG_RISING); [|split_ifs; split; reflexivity].
  eapply same_setup_trans; [apply advance_segment_tm_setup|].
  split_ifs; split; reflexivity.
Qed.

Lemma ProcessLogistic_setup gate_flags x :
  same_setup x (fst (ProcessLogistic gate_flags x)).
Proof.
  unfold ProcessLogistic.
  match goal with
  | |- same_setup x (fst (for_each_sample ?step ?x0 gate_flags)) =>
      apply (same_setup_trans x x0);
      [|apply (loop_setup (fun z => z) step)]
  end.
  - destruct (_ <=? _)%f32; [|apply same_setup_refl].
    destruct (Random_GetFloat E _) as [u rng]. split; reflexivity.
  - intros s a. unfold ProcessLogistic_sample, follow_gate. cbn [fst].
    split_ifs; split; reflexivity.
Qed.

Lemma ProcessSlave_setup out x : same_setup x (fst (ProcessSlave out x)).
Proof.
  unfold ProcessSlave. apply (loop_setup (fun y => y)).
  intros s a. unfold ProcessSlave_sample. cbn [fst].
  split_ifs; split; reflexivity.
Qed.

Lemma Process_setup io x r :
  Process io x = Some r -> same_setup x (fst r).
Proof.
  unfold Process. destruct (process_fn_ x);
    try (intros [= <-]);
    [ apply ProcessMultiSegment_setup
    | apply ProcessDecayEnvelope_setup
    | apply ProcessTimedPulseGenerator_setup
    | apply ProcessGateGenerator_setup
    | apply hold_kernel_setup
    | apply hold_kernel_setup
    | apply ProcessClockedSampleAndHold_setup
    | apply ProcessTapLFO_setup
    | apply ProcessFreeRunningLFO_setup
    | apply ProcessDelay_setup
    | apply ProcessPortamento_setup
    | apply ProcessRandom_setup
    | apply ProcessTuring_setup
    | apply ProcessLogistic_setup
    | split; reflexivity
    | apply ProcessSlave_setup ].
Qed.

Lemma Process_returns io x :
  renderable x io -> exists r, Process io x = Some r.
Proof.
  unfold renderable, Process. intros H.
  destruct (process_fn_ x); try (eexists; reflexivity).
  apply ProcessTapLFO_returns. specialize (H eq_refl).
  unfold size_of in *. rewrite length_map. exact H.
Qed.

Lemma run_setup actions : forall x r,
  run actions x = Some r -> same_setup x (fst r).
Proof.
  induction actions as [|a rest IH]; intros x r;
    [intros [= <-]; apply same_setup_refl|].
  destruct a as [io|i p s]; cbn [run].
  - destruct (Process io x) as [[x1 out]|] eqn:Hp; [|discriminate].
    apply Process_setup in Hp. cbn [fst] in Hp.
    destruct (run rest x1) as [[x2 more]|] eqn:Hr; [|discriminate].
    apply IH in Hr. cbn [fst] in Hr.
    intros [= <-]. cbn [fst]. eapply same_setup_trans; eassumption.
  - intros Hr. apply IH in Hr.
    eapply same_setup_trans; [|exact Hr]. split; reflexivity.
Qed.

Lemma all_renderable_same (x y : @SegmentGenerator E) actions :
  process_fn_ y = process_fn_ x ->
  all_renderable x actions -> all_renderable y actions.
Proof.
  intros He H io Hin Hfn. apply (H io Hin). congruence.
Qed.

Lemma run_returns actions : forall x,
  all_renderable x actions -> exists r, run actions x = Some r.
Proof.
  induction actions as [|a rest IH]; intros x Hall;
    [eexists; reflexivity|].
  assert (Hrest : all_renderable x rest)
    by (intros io Hin; apply Hall; right; exact Hin).
  destruct a as [io|i p s]; cbn [run].
  - destruct (Process_returns io x (Hall io (or_introl eq_refl)))
      as [[x1 out] Hp].
    rewrite Hp. apply Process_setup in Hp. cbn [fst] in Hp.
    destruct (IH x1 (all_renderable_same x x1 rest (proj2 Hp) Hrest))
      as [[x2 more] Hr].
    rewrite Hr. eexists; reflexivity.
  - apply IH. eapply all_renderable_same; [|exact Hrest]. reflexivity.
Qed.

(** C8: a render call leaves the segment graph as it is: the six
    indirections, the three transitions and the three flags of every
    segment are the same after the call as before, and so they are after
    any sequence of render calls and parameter updates.  A call has a
    result for every block the process mode can render, which is every
    block but one of more than twelve samples handed to the tap LFO. *)
Theorem C8_render_keeps_the_graph (io : list (GateFlags * Output))
    (actions : list Action) x :
  (renderable x io -> exists r, Process io x = Some r) /\
  (forall r, Process io x = Some r -> graph (fst r) = graph x) /\
  (all_renderable x actions -> exists r, run actions x = Some r) /\
  (forall r, run actions x = Some r -> graph (fst r) = graph x).
Proof.
  split; [apply Process_returns|].
  split; [intros r Hr; apply (Process_setup io x r Hr)|].
  split; [apply run_returns|].
  intros r Hr. apply (run_setup actions x r Hr).
Qed.

End Frame.

(** C7: the two dispatch tables have sixteen entries each and agree on
    every cell but five.  In the STEP row the cell with trigger and
    bipolar is Sample-and-Hold in the basic table and Track-and-Hold in
    the advanced one; the four cells of the TURING row are the zero
    kernel in the basic table and Random, Random, Turing and Logistic in
    the advanced one. *)
Theorem C7_tables_differ_in_five_cells :
  length process_fn_table_ = 16%nat /\
  length advanced_process_fn_table_ = 16%nat /\
  forall (has_trigger : bool) (config : segment.Configuration),
    let i := single_segment_index has_trigger config in
    let basic := at_ ProcessZero_fn process_fn_table_ i in
    let advanced := at_ ProcessZero_fn advanced_process_fn_table_ i in
    match segment.type config, has_trigger, segment.bipolar config with
    | segment.TYPE_STEP, true, true =>
        basic = ProcessSampleAndHold_fn /\ advanced = ProcessTrackAndHold_fn
    | segment.TYPE_TURING, false, _ =>
        basic = ProcessZero_fn /\ advanced = ProcessRandom_fn
    | segment.TYPE_TURING, true, false =>
        basic = ProcessZero_fn /\ advanced = ProcessTuring_fn
    | segment.TYPE_TURING, true, true =>
        basic = ProcessZero_fn /\ advanced = ProcessLogistic_fn
    | _, _, _ => basic = advanced
    end.
Proof.
  split; [reflexivity|]. split; [reflexivity|].
  intros has_trigger [t l b r].
  destruct t, has_trigger, b; cbv; auto.
Qed.

Section TimedPulse.

Context {E : Env}.
Implicit Types x : @SegmentGenerator E.


End TimedPulse.

Section MultiSegment.

Context {E : Env}.




End MultiSegment.

(** * The Turing register *)

Section Bits.

Lemma land_bit_15 a :
  Z.land a (Z.shiftl 1 15) = Z.shiftl (Z.b2z (Z.testbit a 15)) 15.
Proof.
  apply Z.bits_inj'. intros n Hn.
  rewrite Z.land_spec, !Z.shiftl_spec by lia.
  destruct (Z.eq_dec n 15) as [->|Hne].
  - change (15 - 15) with 0. rewrite Z.b2z_bit0.
    change (Z.testbit 1 0) with true. apply andb_true_r.
  - destruct (Z.lt_ge_cases n 15).
    + rewrite !(Z.testbit_neg_r _ (n - 15)) by lia. apply andb_false_r.
    + assert (Hb : forall b, Z.testbit (Z.b2z b) (n - 15) = false).
      { intros b. destruct b; [|apply Z.bits_0].
        apply (Z.bits_above_log2 1); simpl; lia. }
      rewrite (Hb true : Z.testbit 1 (n - 15) = false), Hb.
      apply andb_false_r.
Qed.

Lemma lxor_bit_15 b c :
  Z.lxor (Z.shiftl (Z.b2z b) 15) (Z.shiftl (Z.b2z c) 15)
  = Z.shiftl (Z.b2z (xorb b c)) 15.
Proof. destruct b, c; reflexivity. Qed.

(** The register computed by [advance_tm] is the one of section 4.9. *)
Lemma tm_shift_turing_update steps prob u sr :
  tm_shift steps prob u sr = turing_update steps (tm_coin prob u) sr.
Proof.
  unfold tm_shift, turing_update.
  rewrite land_bit_15, lxor_bit_15. reflexivity.
Qed.

Lemma tm_value_turing_value sr bipolar :
  tm_value sr bipolar = turing_value sr bipolar.
Proof.
  unfold tm_value, turing_value.
  replace (F32.of_Z 10 / F32.of_Z 8)%f32 with (F32.lit 125 100)
    by (vm_compute; reflexivity).
  reflexivity.
Qed.

Lemma testbit_high sr n :
  0 <= sr < 2 ^ 16 -> 16 <= n -> Z.testbit sr n = false.
Proof.
  intros [H0 H1] Hn.
  destruct (Z.eq_dec sr 0) as [->|Hz]; [apply Z.bits_0|].
  apply Z.bits_above_log2; [lia|].
  assert (Z.log2 sr < 16) by (apply Z.log2_lt_pow2; lia). lia.
Qed.

Lemma low_bits_range x :
  0 <= x -> (forall n, 16 <= n -> Z.testbit x n = false) -> 0 <= x < 2 ^ 16.
Proof.
  intros H0 Hb.
  assert (Hx : x = x mod 2 ^ 16).
  { apply Z.bits_inj'. intros n Hn.
    destruct (Z.lt_ge_cases n 16).
    - rewrite Z.mod_pow2_bits_low by lia. reflexivity.
    - rewrite Z.mod_pow2_bits_high by lia. apply Hb. lia. }
  rewrite Hx. apply Z.mod_pos_bound. lia.
Qed.

Lemma rotate_right_16_testbit sr i :
  0 <= sr < 2 ^ 16 -> 0 <= i ->
  Z.testbit (rotate_right_16 sr) i
  = if i <? 15 then Z.testbit sr (i + 1)
    else if i =? 15 then Z.testbit sr 0 else false.
Proof.
  intros Hsr Hi. unfold rotate_right_16.
  rewrite Z.lor_spec, Z.shiftr_spec, Z.shiftl_spec, Z.land_spec by lia.
  destruct (i <? 15) eqn:Hlt.
  - apply Z.ltb_lt in Hlt.
    rewrite (Z.testbit_neg_r sr (i - 15)) by lia. cbn [andb].
    apply orb_false_r.
  - apply Z.ltb_ge in Hlt.
    rewrite (testbit_high sr (i + 1)) by lia. cbn [orb].
    destruct (i =? 15) eqn:He.
    + apply Z.eqb_eq in He. subst i. change (15 - 15) with 0.
      change (Z.testbit 1 0) with true. apply andb_true_r.
    + apply Z.eqb_neq in He.
      replace (Z.testbit 1 (i - 15)) with false; [apply andb_false_r|].
      symmetry. apply (Z.bits_above_log2 1); simpl; lia.
Qed.

Lemma rotate_right_16_range sr :
  0 <= sr < 2 ^ 16 -> 0 <= rotate_right_16 sr < 2 ^ 16.
Proof.
  intros Hsr. apply low_bits_range.
  - unfold rotate_right_16. apply Z.lor_nonneg. split.
    + apply Z.shiftr_nonneg. lia.
    + apply Z.shiftl_nonneg. apply Z.land_nonneg. lia.
  - intros n Hn. rewrite rotate_right_16_testbit by lia.
    replace (n <? 15) with false by (symmetry; apply Z.ltb_ge; lia).
    replace (n =? 15) with false by (symmetry; apply Z.eqb_neq; lia).
    reflexivity.
Qed.

Lemma iter_rotate_spec k : forall sr,
  0 <= sr < 2 ^ 16 ->
  0 <= Nat.iter k rotate_right_16 sr < 2 ^ 16 /\
  forall i, 0 <= i < 16 ->
    Z.testbit (Nat.iter k rotate_right_16 sr) i
    = Z.testbit sr ((i + Z.of_nat k) mod 16).
Proof.
  induction k as [|k IH]; intros sr Hsr.
  - split; [exact Hsr|]. intros i Hi. change (Nat.iter 0 rotate_right_16 sr) with sr.
    rewrite Z.add_0_r, Z.mod_small by lia. reflexivity.
  - destruct (IH sr Hsr) as [Hr Hb]. rewrite Nat.iter_succ.
    split; [apply rotate_right_16_range, Hr|].
    intros i Hi. rewrite rotate_right_16_testbit by lia.
    destruct (i <? 15) eqn:Hlt.
    + apply Z.ltb_lt in Hlt. rewrite Hb by lia. f_equal. f_equal. lia.
    + apply Z.ltb_ge in Hlt. assert (i = 15) by lia. subst i.
      cbn [Z.eqb Pos.eqb]. rewrite Hb by lia. f_equal.
      replace (15 + Z.of_nat (S k)) with (0 + Z.of_nat k + 1 * 16) by lia.
      symmetry. apply Z.mod_add. lia.
Qed.

(** Sixteen turns by one bit bring the 16-bit register back. *)
Lemma sixteen_rotations sr :
  0 <= sr < 2 ^ 16 -> Nat.iter 16 rotate_right_16 sr = sr.
Proof.
  intros Hsr. destruct (iter_rotate_spec 16 sr Hsr) as [Hr Hb].
  apply Z.bits_inj'. intros n Hn.
  destruct (Z.lt_ge_cases n 16).
  - rewrite Hb by lia. f_equal.
    change (Z.of_nat 16) with (1 * 16).
    rewrite Z.mod_add by lia. apply Z.mod_small. lia.
  - rewrite !testbit_high by (auto; lia). reflexivity.
Qed.

End Bits.

Import F32Facts.

(** A conversion to [size_t] takes the floor of whatever number has a
    floor that fits. *)
Lemma to_size_t_floor v s :
  F32.floor v = Some s -> 0 <= s < 2 ^ 32 -> F32.to_size_t v = s.
Proof.
  unfold F32.to_size_t, F32.to_uint32, F32.saturate, F32.floor, F32.trunc.
  destruct v as [sg|sg| |sg m e]; try discriminate.
  - intros [= <-] _. reflexivity.
  - destruct sg.
    + intros [= <-] [H0 _]. exfalso.
      destruct (0 <=? e) eqn:He.
      * apply Z.leb_le in He.
        rewrite Z.shiftl_mul_pow2 in H0 by lia.
        assert (0 < 2 ^ e) by (apply Z.pow_pos_nonneg; lia). nia.
      * apply Z.leb_gt in He.
        assert (0 < 2 ^ (- e)) by (apply Z.pow_pos_nonneg; lia).
        assert (Z.neg m / 2 ^ (- e) < 0); [|lia].
        apply Z.div_lt_upper_bound; lia.
    + intros [= <-] Hs.
      destruct (0 <=? e) eqn:He.
      * lia.
      * apply Z.leb_gt in He.
        rewrite Z.shiftr_div_pow2 in * by lia. lia.
Qed.

Section Turing.

Context {E : Env}.

Lemma coin_never prob u :
  F32.nonneg u -> (prob <? F32.lit 1 1000)%f32 = true ->
  tm_coin prob u = false.
Proof.
  intros Hu Hp. unfold tm_coin, tm_probability. rewrite Hp.
  apply nonneg_not_lt_zero, Hu.
Qed.

Lemma above_high_not_below_low prob :
  (prob >? F32.lit 999 1000)%f32 = true ->
  (prob <? F32.lit 1 1000)%f32 = false.
Proof.
  unfold F32.gt, F32.lt, SFltb.
  replace (F32.lit 999 1000) with (S754_finite false 16760439 (-24))
    by (vm_compute; reflexivity).
  replace (F32.lit 1 1000) with (S754_finite false 8589935 (-33))
    by (vm_compute; reflexivity).
  destruct prob as [s|s| |s m e]; cbn [SFcompare]; try destruct s;
    try discriminate; try reflexivity.
  destruct (Z.compare_spec (-24) e) as [H1|H1|H1]; try discriminate;
    intros _.
  - subst e. reflexivity.
  - destruct (Z.compare_spec e (-33)) as [H2|H2|H2]; try reflexivity; lia.
Qed.

Lemma coin_always prob u :
  (u <=? F32.one)%f32 = true -> (prob >? F32.lit 999 1000)%f32 = true ->
  tm_coin prob u = true.
Proof.
  intros Hu Hp. unfold tm_coin, tm_probability.
  rewrite (above_high_not_below_low prob Hp), Hp.
  apply le_one_lt_1_1, Hu.
Qed.

Lemma coin_between prob u :
  (prob <? F32.lit 1 1000)%f32 = false ->
  (prob >? F32.lit 999 1000)%f32 = false ->
  tm_coin prob u = (u <? prob)%f32.
Proof.
  intros H1 H2. unfold tm_coin, tm_probability. rewrite H1, H2. reflexivity.
Qed.

Lemma turing_update_range s coin sr :
  0 <= sr < 2 ^ 16 -> 0 <= turing_update s coin sr < 2 ^ 16.
Proof.
  intros Hsr. unfold turing_update. apply low_bits_range.
  - apply Z.lor_nonneg. split.
    + apply Z.shiftr_nonneg. lia.
    + apply Z.shiftl_nonneg. destruct (xorb _ _); simpl; lia.
  - intros n Hn.
    rewrite Z.lor_spec, Z.shiftr_spec, Z.shiftl_spec by lia.
    rewrite (testbit_high sr (n + 1)) by lia. cbn [orb].
    destruct (xorb _ _); [|apply Z.bits_0].
    apply (Z.bits_above_log2 1); simpl; lia.
Qed.

(** The register of segment 0 after [advance_tm] was applied to it. *)
Lemma advance_segment_tm_register steps prob bipolar (x : @SegmentGenerator E) :
  (0 < length (segments_ x))%nat ->
  let r := advance_tm steps prob (Segment.shift_register (segment_at x 0))
             bipolar (rng_state_ x) in
  let x' := advance_segment_tm steps prob 0 bipolar x in
  Segment.shift_register (segment_at x' 0) = fst (fst r) /\
  Segment.register_value (segment_at x' 0) = snd (fst r) /\
  rng_state_ x' = snd r.
Proof.
  intros Hlen. cbv zeta. unfold advance_segment_tm.
  destruct (advance_tm _ _ _ _ _) as [[sr v] rng]. cbn [fst snd].
  unfold segment_at, set_rng_state_, set_segments_.
  cbn [segments_ rng_state_].
  rewrite at_put_eq by lia.
  split; [|split]; reflexivity.
Qed.

(** C3: the update of the Turing register on a rising edge.  The number
    of steps is the floor of [15 * secondary + 1]; with [s] steps the bit
    extracted is bit 15 of [sr << (s - 1)]; the coin never falls when the
    probability is below 0.001, always above 0.999 and with the
    probability given in between; the bit, mutated by the coin, enters
    the register shifted right by one; the value is [sr / 65535],
    rescaled to [1.25 * (v - 0.5)] when bipolar.  That is what
    [advance_tm] computes, and a sample of [ProcessTuring] with a rising
    edge stores it: the register and the value of segment 0 are the
    updated ones, the sample and [value_] carry the new value, and the
    random generator has drawn once.  So does a block of one such
    sample. *)
Theorem C3_turing_register_update (x : @SegmentGenerator E)
    (primary : ParameterInterpolator) (gate_flags : GateFlags) (s : Z) :
  let secondary := segment.secondary (parameters_at x 0) in
  let sr := Segment.shift_register (segment_at x 0) in
  let bipolar := Segment.bipolar (segment_at x 0) in
  let prob := fst (Next primary) in
  let u := fst (Random_GetFloat E (rng_state_ x)) in
  flag_set gate_flags GATE_FLAG_RISING = true ->
  (0 < length (segments_ x))%nat ->
  F32.floor (F32.of_Z 15 * secondary + F32.one)%f32 = Some s ->
  1 <= s <= 16 ->
  0 <= sr < 2 ^ 16 ->
  (F32.zero <=? u)%f32 = true ->
  (u <=? F32.one)%f32 = true ->
  tm_steps secondary = s /\
  exists coin : bool,
    ((prob <? F32.lit 1 1000)%f32 = true -> coin = false) /\
    ((prob >? F32.lit 999 1000)%f32 = true -> coin = true) /\
    ((prob <? F32.lit 1 1000)%f32 = false ->
     (prob >? F32.lit 999 1000)%f32 = false -> coin = (u <? prob)%f32) /\
    let sr' := turing_update s coin sr in
    0 <= sr' < 2 ^ 16 /\
    advance_tm s prob sr bipolar (rng_state_ x)
    = (sr', turing_value sr' bipolar,
       snd (Random_GetFloat E (rng_state_ x))) /\
    (let r := ProcessTuring_sample (tm_steps secondary) (x, primary)
                gate_flags in
     let x' := fst (fst r) in
     Segment.shift_register (segment_at x' 0) = sr' /\
     Segment.register_value (segment_at x' 0) = turing_value sr' bipolar /\
     value_ x' = turing_value sr' bipolar /\
     out_value (snd r) = turing_value sr' bipolar /\
     rng_state_ x' = snd (Random_GetFloat E (rng_state_ x))) /\
    (primary
     = ParameterInterpolator_make (primary_ x)
         (segment.primary (parameters_at x 0)) 1 ->
     let b := ProcessTuring [gate_flags] x in
     Segment.shift_register (segment_at (fst b) 0) = sr' /\
     Segment.register_value (segment_at (fst b) 0)
     = turing_value sr' bipolar /\
     map out_value (snd b) = [turing_value sr' bipolar]).
Proof.
  intros secondary sr bipolar prob u Hrise Hlen Hfloor Hs Hsr Hu0 Hu1.
  assert (Hsteps : tm_steps secondary = s)
    by (apply to_size_t_floor; [exact Hfloor|lia]).
  split; [exact Hsteps|].
  exists (tm_coin prob u).
  split; [intros Hp; apply coin_never; [apply zero_le_iff, Hu0|exact Hp]|].
  split; [intros Hp; apply coin_always; assumption|].
  split; [apply coin_between|].
  cbv zeta.
  split; [apply turing_update_range, Hsr|].
  assert (Htm : advance_tm s prob sr bipolar (rng_state_ x)
                = (turing_update s (tm_coin prob u) sr,
                   turing_value (turing_update s (tm_coin prob u) sr) bipolar,
                   snd (Random_GetFloat E (rng_state_ x)))).
  { unfold advance_tm. subst u.
    destruct (Random_GetFloat E (rng_state_ x)) as [u rng']. cbn [fst snd].
    rewrite tm_shift_turing_update, tm_value_turing_value. reflexivity. }
  split; [exact Htm|].
  assert (Hsample :
    forall p : ParameterInterpolator, fst (Next p) = prob ->
      let r := ProcessTuring_sample (tm_steps secondary) (x, p) gate_flags in
      let x' := fst (fst r) in
      Segment.shift_register (segment_at x' 0)
      = turing_update s (tm_coin prob u) sr /\
      Segment.register_value (segment_at x' 0)
      = turing_value (turing_update s (tm_coin prob u) sr) bipolar /\
      value_ x' = turing_value (turing_update s (tm_coin prob u) sr) bipolar /\
      out_value (snd r)
      = turing_value (turing_update s (tm_coin prob u) sr) bipolar /\
      rng_state_ x' = snd (Random_GetFloat E (rng_state_ x))).
  { intros p Hp. cbv zeta. unfold ProcessTuring_sample.
    destruct (Next p) as [prob' p'] eqn:Hnext. cbn [fst] in Hp. subst prob'.
    rewrite Hrise, Hsteps.
    destruct (advance_segment_tm_register s prob bipolar x Hlen)
      as (H1 & H2 & H3).
    fold sr in H1, H2, H3. rewrite Htm in H1, H2, H3. cbn [fst snd] in H1, H2, H3.
    fold bipolar.
    set (y := advance_segment_tm s prob 0 bipolar x) in *. clearbody y.
    unfold follow_gate, emit, segment_at, set_active_segment_, set_value_
      in *.
    cbn [fst snd segments_ value_ rng_state_ out_value active_segment_] in *.
    repeat (split; [assumption|]). assumption. }
  split; [apply (Hsample primary eq_refl)|].
  intros Hprimary. unfold ProcessTuring. cbn [for_each_sample].
  change (size_of [gate_flags]) with 1. rewrite <- Hprimary.
  destruct (Hsample primary eq_refl) as (H1 & H2 & _ & H4 & _).
  fold secondary.
  destruct (ProcessTuring_sample (tm_steps secondary) (x, primary) gate_flags)
    as [[y p] o].
  cbn [fst snd map] in *.
  unfold segment_at, set_primary_ in *. cbn [segments_] in *.
  split; [exact H1|]. split; [exact H2|congruence].
Qed.

Lemma advance_tm_rotates prob sr bipolar (rng : Rng E) :
  (forall r, F32.nonneg (fst (Random_GetFloat E r))) ->
  (prob <? F32.lit 1 1000)%f32 = true ->
  fst (fst (advance_tm 16 prob sr bipolar rng)) = rotate_right_16 sr.
Proof.
  intros Hu Hp. unfold advance_tm.
  pose proof (Hu rng) as Hr.
  destruct (Random_GetFloat E rng) as [u rng']. cbn [fst] in *.
  unfold tm_shift, rotate_right_16.
  rewrite (coin_never prob u Hr Hp).
  change (Z.shiftl (Z.b2z false) 15) with 0. rewrite Z.lxor_0_r.
  change (16 - 1) with 15. rewrite Z.shiftl_land. reflexivity.
Qed.

Lemma advance_tm_times_rotates prob bipolar n : forall sr (rng : Rng E),
  (forall r, F32.nonneg (fst (Random_GetFloat E r))) ->
  (prob <? F32.lit 1 1000)%f32 = true ->
  fst (advance_tm_times n 16 prob bipolar sr rng)
  = Nat.iter n rotate_right_16 sr.
Proof.
  induction n as [|n IH]; intros sr rng Hu Hp; [reflexivity|].
  cbn [advance_tm_times].
  pose proof (advance_tm_rotates prob sr bipolar rng Hu Hp) as H1.
  destruct (advance_tm 16 prob sr bipolar rng) as [[sr1 v] rng1].
  cbn [fst] in H1. subst sr1. rewrite IH by assumption.
  rewrite Nat.iter_succ_r. reflexivity.
Qed.

(** C4, amended: when the mutation probability is 0 (parameter below
    0.001) and the number of steps is 16, each update turns the 16-bit
    register right by one bit, and sixteen updates in a row give the
    register back. *)
Theorem C4_sixteen_steps_rotate (prob : float) (sr : Z) (bipolar : bool)
    (rng : Rng E) :
  (forall r, F32.nonneg (fst (Random_GetFloat E r))) ->
  (prob <? F32.lit 1 1000)%f32 = true ->
  0 <= sr < 2 ^ 16 ->
  fst (fst (advance_tm 16 prob sr bipolar rng)) = rotate_right_16 sr /\
  fst (advance_tm_times 16 16 prob bipolar sr rng) = sr.
Proof.
  intros Hu Hp Hsr. split.
  - apply advance_tm_rotates; assumption.
  - rewrite advance_tm_times_rotates by assumption.
    apply sixteen_rotations, Hsr.
Qed.

End Turing.

Lemma Bench_GetFloat_nonneg r : F32.nonneg (fst (Bench.GetFloat r)).
Proof.
  unfold Bench.GetFloat. cbn [fst].
  replace (F32.of_Z 4294967296) with (S754_finite false 8388608 9)
    by (vm_compute; reflexivity).
  apply div_nonneg, of_Z_nonneg.
  unfold Bench.GetWord. apply Z.mod_pos_bound. lia.
Qed.

(** With one step the update copies the top bit onto itself: the
    register 1 becomes 0, not 0x8000, and stays there. *)
Lemma C4_one_step_does_not_rotate :
  (F32.zero <? F32.lit 1 1000)%f32 = true /\
  fst (fst (@advance_tm Bench.env 1 F32.zero 1 false 0)) <> rotate_right_16 1 /\
  fst (@advance_tm_times Bench.env 16 1 F32.zero false 1 0) <> 1.
Proof. vm_compute. repeat split; discriminate. Qed.

Lemma C4_sixteen_steps_rotate_witness :
  ((forall r, F32.nonneg (fst (Random_GetFloat Bench.env r))) /\
   (F32.zero <? F32.lit 1 1000)%f32 = true /\
   0 <= 44257 < 2 ^ 16) /\
  fst (fst (@advance_tm Bench.env 16 F32.zero 44257 false 0))
  = rotate_right_16 44257 /\
  fst (@advance_tm_times Bench.env 16 16 F32.zero false 44257 0) = 44257.
Proof.
  split.
  - split; [exact Bench_GetFloat_nonneg|]. split; [reflexivity|lia].
  - apply (@C4_sixteen_steps_rotate Bench.env F32.zero 44257 false 0).
    + exact Bench_GetFloat_nonneg.
    + reflexivity.
    + lia.
Defined.

Lemma C3_turing_register_update_witness :
  let x := Runs.turing in
  let primary := ParameterInterpolator_make F32.zero (F32.lit 7 10) 1 in
  let secondary := segment.secondary (parameters_at x 0) in
  let sr := Segment.shift_register (segment_at x 0) in
  let bipolar := Segment.bipolar (segment_at x 0) in
  let prob := fst (Next primary) in
  let u := fst (Random_GetFloat Bench.env (rng_state_ x)) in
  (flag_set Runs.edge GATE_FLAG_RISING = true /\
   (0 < length (segments_ x))%nat /\
   F32.floor (F32.of_Z 15 * secondary + F32.one)%f32 = Some 8 /\
   1 <= 8 <= 16 /\ 0 <= sr < 2 ^ 16 /\
   (F32.zero <=? u)%f32 = true /\ (u <=? F32.one)%f32 = true) /\
  tm_steps secondary = 8 /\
  exists coin : bool,
    ((prob <? F32.lit 1 1000)%f32 = true -> coin = false) /\
    ((prob >? F32.lit 999 1000)%f32 = true -> coin = true) /\
    ((prob <? F32.lit 1 1000)%f32 = false ->
     (prob >? F32.lit 999 1000)%f32 = false -> coin = (u <? prob)%f32) /\
    let sr' := turing_update 8 coin sr in
    0 <= sr' < 2 ^ 16 /\
    advance_tm 8 prob sr bipolar (rng_state_ x)
    = (sr', turing_value sr' bipolar,
       snd (Random_GetFloat Bench.env (rng_state_ x))) /\
    (let r := ProcessTuring_sample (tm_steps secondary) (x, primary)
                Runs.edge in
     let x' := fst (fst r) in
     Segment.shift_register (segment_at x' 0) = sr' /\
     Segment.register_value (segment_at x' 0) = turing_value sr' bipolar /\
     value_ x' = turing_value sr' bipolar /\
     out_value (snd r) = turing_value sr' bipolar /\
     rng_state_ x' = snd (Random_GetFloat Bench.env (rng_state_ x))) /\
    (primary
     = ParameterInterpolator_make (primary_ x)
         (segment.primary (parameters_at x 0)) 1 ->
     let b := ProcessTuring [Runs.edge] x in
     Segment.shift_register (segment_at (fst b) 0) = sr' /\
     Segment.register_value (segment_at (fst b) 0)
     = turing_value sr' bipolar /\
     map out_value (snd b) = [turing_value sr' bipolar]).
Proof.
  intros x primary secondary sr bipolar prob u.
  assert (H0 : flag_set Runs.edge GATE_FLAG_RISING = true) by reflexivity.
  assert (Hl : (0 < length (segments_ x))%nat) by (vm_compute; lia).
  assert (H1 : F32.floor (F32.of_Z 15 * secondary + F32.one)%f32 = Some 8)
    by (vm_compute; reflexivity).
  assert (H2 : 1 <= 8 <= 16) by lia.
  assert (H3 : 0 <= sr < 2 ^ 16)
    by (vm_compute; split; [intros Hc; discriminate Hc|reflexivity]).
  assert (H4 : (F32.zero <=? u)%f32 = true) by (vm_compute; reflexivity).
  assert (H5 : (u <=? F32.one)%f32 = true) by (vm_compute; reflexivity).
  split; [repeat split; try assumption; lia|].
  exact (@C3_turing_register_update Bench.env x primary Runs.edge 8
           H0 Hl H1 H2 H3 H4 H5).
Defined.

Import F32Facts.

Section FreeLFO.

Context {E : Env}.
Implicit Types x : @SegmentGenerator E.

Lemma ShapeLFO_keeps_phase shape out bipolar :
  map out_phase (@ShapeLFO E shape out bipolar) = map out_phase out.
Proof.
  unfold ShapeLFO. rewrite map_map. apply map_ext. reflexivity.
Qed.

Lemma FreeRunningLFO_phases f gate_flags : forall x,
  map out_phase
    (snd (for_each_sample (ProcessFreeRunningLFO_sample f) x gate_flags))
  = lfo_phases (phase_ x) f (length gate_flags).
Proof.
  induction gate_flags as [|g rest IH]; intros x; [reflexivity|].
  cbn [for_each_sample length lfo_phases].
  destruct (ProcessFreeRunningLFO_sample f x g) as [x1 o] eqn:Hs.
  specialize (IH x1).
  destruct (for_each_sample (ProcessFreeRunningLFO_sample f) x1 rest)
    as [x2 out].
  cbn [snd map] in *. rewrite IH.
  unfold ProcessFreeRunningLFO_sample in Hs. unfold wrap_phase.
  cbn in Hs.
  destruct (phase_ x + f >=? F32.one)%f32; inversion Hs; reflexivity.
Qed.

(** C5, amended: the increment per sample of the free-running LFO is
    [SemitonesToRatio(96 * (primary - 0.5)) * 2.0439497 / SR], the
    offset in semitones being clamped to [-128, 127]; range SLOW divides
    it by 16, range FAST multiplies it by 64 and caps it at [7040 / SR];
    the slow-LFO multimode divides it by 8 on top.  The phase of each
    sample is the previous phase plus this increment, modulo 1. *)
Theorem C5_free_lfo_frequency x (gate_flags : list GateFlags) :
  let primary := segment.primary (parameters_at x 0) in
  let f :=
    lfo_frequency_of E (clamp_semitones (-128) 127 primary)
      (Segment.range (segment_at x 0)) (is_slow_lfo (multimode x)) in
  FreeRunningLFO_frequency x = f /\
  map out_phase (snd (ProcessFreeRunningLFO gate_flags x))
  = lfo_phases (phase_ x) f (length gate_flags).
Proof.
  intros primary f.
  assert (Hf : FreeRunningLFO_frequency x = f).
  { subst f primary. unfold FreeRunningLFO_frequency, lfo_frequency_of.
    destruct (Segment.range (segment_at x 0)), (multimode x); reflexivity. }
  split; [exact Hf|].
  unfold ProcessFreeRunningLFO. rewrite Hf.
  pose proof (FreeRunningLFO_phases f gate_flags (set_active_segment_ 0 x))
    as Hp.
  destruct (for_each_sample (ProcessFreeRunningLFO_sample f)
              (set_active_segment_ 0 x) gate_flags) as [x1 out].
  cbn [snd] in *. rewrite ShapeLFO_keeps_phase. exact Hp.
Qed.

End FreeLFO.

(** At [primary = 2] the offset is 144 semitones: the source hands 127
    to [SemitonesToRatio], a clamp to plus or minus 128 would hand 128. *)
Lemma C5_clamp_is_not_symmetric :
  FreeRunningLFO_semitones (F32.of_Z 2) = F32.of_Z 127 /\
  clamp_semitones (-128) 128 (F32.of_Z 2) = F32.of_Z 128 /\
  FreeRunningLFO_semitones (F32.of_Z 2)
  <> clamp_semitones (-128) 128 (F32.of_Z 2).
Proof. vm_compute. repeat split; discriminate. Qed.

(** C9: the portamento look-up does not bound its index.  A rate of -1
    reads entry -512 and a rate of 2 reads entry 1024, while the
    frequency look-up keeps its index between 0 and
    [LUT_ENV_FREQUENCY_SIZE]. *)
Theorem C9_portamento_index_is_not_bounded :
  PortamentoRateToLPCoefficient_index (F32.of_Z (-1)) = -512 /\
  PortamentoRateToLPCoefficient_index (F32.of_Z 2) = 1024 /\
  (forall E : Env,
     @PortamentoRateToLPCoefficient E (F32.of_Z (-1))
     = lut_portamento_coefficient E (-512)) /\
  (forall (E : Env) (rate : float),
     Z.min 0 (LUT_ENV_FREQUENCY_SIZE E)
     <= @RateToFrequency_index E rate
     <= Z.max 0 (LUT_ENV_FREQUENCY_SIZE E)).
Proof.
  split; [vm_compute; reflexivity|].
  split; [vm_compute; reflexivity|].
  split.
  - intros E. unfold PortamentoRateToLPCoefficient.
    replace (PortamentoRateToLPCoefficient_index (F32.of_Z (-1))) with (-512)
      by (vm_compute; reflexivity).
    reflexivity.
  - intros E rate. unfold RateToFrequency_index, CONSTRAIN_int.
    destruct (Z.ltb_spec (F32.to_int32 (rate * F32.of_Z 2048)%f32) 0);
      [lia|].
    destruct (Z.gtb_spec (F32.to_int32 (rate * F32.of_Z 2048)%f32)
                (LUT_ENV_FREQUENCY_SIZE E)); lia.
Qed.

Import F32Facts.

Lemma In_indices i : forall n lo,
  In i (indices lo n) <-> lo <= i < lo + Z.of_nat n.
Proof.
  induction n as [|n IH]; intros lo; cbn [indices In].
  - lia.
  - rewrite IH. lia.
Qed.

Lemma In_upto i lo hi : In i (upto lo hi) <-> lo <= i <= hi.
Proof. unfold upto. rewrite In_indices. lia. Qed.

Lemma fold_left_invariant {A B : Type} (f : A -> B -> A) (P : A -> Prop)
    (l : list B) :
  (forall a b, In b l -> P a -> P (f a b)) ->
  forall a, P a -> P (fold_left f l a).
Proof.
  induction l as [|b l IH]; intros Hf a Ha; cbn [fold_left]; [exact Ha|].
  apply IH.
  - intros a' b' Hin. apply Hf. right. exact Hin.
  - apply Hf; [left; reflexivity|exact Ha].
Qed.

(** * Configure wires every transition inside the graph *)

Section Wiring.

Context {E : Env}.
Variable config : list segment.Configuration.
Variable n : Z.

Lemma first_pass_window : loop_window_in_range n (first_pass config n).
Proof.
  unfold first_pass.
  apply fold_left_invariant.
  - intros a i Hi Ha. apply In_upto in Hi.
    unfold loop_window_in_range, first_pass_body in *.
    destruct (segment.loop (config_at config i)); cbn; [|exact Ha].
    right. destruct (Z.eqb_spec (loop_start a) (-1)); lia.
  - left. split; reflexivity.
Qed.

Lemma find_next_step_nonneg a fuel : forall follow_loop next_step,
  1 <= n ->
  0 <= next_step ->
  (follow_loop = true -> 0 <= loop_start a) ->
  0 <= find_next_step config n a fuel follow_loop next_step.
Proof.
  induction fuel as [|fuel IH]; intros fl ns Hn Hns Hfl;
    cbn [find_next_step]; [exact Hns|].
  destruct (is_step _); [exact Hns|].
  destruct (fl && (ns + 1 =? loop_end a + 1)) eqn:Hjump.
  - apply andb_prop in Hjump. destruct Hjump as [Hf _].
    destruct (loop_start a >=? n); [lia|].
    apply IH; [exact Hn|auto|discriminate].
  - destruct (ns + 1 >=? n); [lia|]. apply IH; [exact Hn|lia|exact Hfl].
Qed.

Lemma if_rising_of_range a i :
  1 <= n -> 0 <= i -> loop_window_in_range n a ->
  0 <= if_rising_of config n a i <= n.
Proof.
  intros Hn Hi Ha. unfold if_rising_of.
  destruct (has_step_segments a); [|lia].
  destruct (_ && _).
  - assert (0 <= Z.rem (loop_end a + 1) n < n); [|lia].
    apply Z.rem_bound_pos; unfold loop_window_in_range in Ha; lia.
  - set (ns := find_next_step _ _ _ _ _ _).
    assert (Hns : 0 <= ns).
    { apply find_next_step_nonneg; [exact Hn|exact Hi|].
      intros Hf. apply negb_true_iff, Z.eqb_neq in Hf.
      unfold loop_window_in_range in Ha. lia. }
    destruct (Z.eqb_spec ns (loop_end a)).
    + unfold loop_window_in_range in Ha. lia.
    + assert (0 <= Z.rem (ns + 1) n < n); [|lia].
      apply Z.rem_bound_pos; lia.
Qed.

Lemma configure_segment_transitions a i s :
  1 <= n -> 0 <= i <= n - 1 -> loop_window_in_range n a ->
  transitions_in_range n (configure_segment config n a i s).
Proof.
  intros Hn Hi Ha.
  pose proof (if_rising_of_range a i Hn ltac:(lia) Ha) as Hr.
  unfold transitions_in_range, configure_segment. cbn.
  split; [lia|]. unfold loop_window_in_range in Ha.
  split.
  - destruct (_ || _); lia.
  - destruct (i =? loop_end a); lia.
Qed.

Lemma configure_sentinel_transitions a segments :
  1 <= n -> transitions_in_range n (configure_sentinel n a segments).
Proof.
  intros Hn. unfold transitions_in_range, configure_sentinel. cbn.
  destruct (loop_end a =? n - 1); lia.
Qed.

(** The second loop: every index visited holds a configured segment
    and the others are as they were. *)
Lemma configure_loop (f : Z -> Segment.t -> Segment.t)
    (P : Z -> Segment.t -> Prop) :
  (forall i s, P i (f i s)) ->
  forall idxs segments,
    (forall i, In i idxs -> 0 <= i < Z.of_nat (length segments)) ->
    let r :=
      fold_left
        (fun segments i =>
           put segments i (f i (at_ Segment_default segments i)))
        idxs segments in
    length r = length segments /\
    (forall i, In i idxs -> P i (at_ Segment_default r i)) /\
    (forall j, ~ In j idxs ->
               at_ Segment_default r j = at_ Segment_default segments j).
Proof.
  intros Hf. induction idxs as [|i0 rest IH]; intros segments Hin.
  - cbn. repeat split; tauto.
  - cbn [fold_left].
    set (segments1 := put segments i0 _).
    assert (Hlen : length segments1 = length segments)
      by apply put_length.
    destruct (IH segments1) as (H1 & H2 & H3).
    { intros i Hi. rewrite Hlen. apply Hin. right. exact Hi. }
    cbv zeta in *. split; [congruence|]. split.
    + intros i [<-|Hi]; [|apply H2, Hi].
      destruct (in_dec Z.eq_dec i0 rest) as [Hr|Hr]; [apply H2, Hr|].
      rewrite (H3 i0 Hr). subst segments1.
      rewrite at_put_eq by (apply Hin; left; reflexivity). apply Hf.
    + intros j Hj. rewrite H3 by (intros Hr; apply Hj; right; exact Hr).
      subst segments1. apply at_put_ne. intros ->. apply Hj. left.
      reflexivity.
Qed.

End Wiring.

(** * The multi-segment engine keeps phase and segment in range *)

Section MultiSegmentBounds.

Context {E : Env}.
Implicit Types x : @SegmentGenerator E.

Variable n : Z.

Lemma phase_in_range_zero : phase_in_range F32.zero.
Proof. split; reflexivity. Qed.

Lemma phase_in_range_one : phase_in_range F32.one.
Proof. split; reflexivity. Qed.

Lemma Configure_establishes config has_trigger x :
  2 <= n <= kMaxNumSegments ->
  length (segments_ x) = Z.to_nat (kMaxNumSegments + 1) ->
  phase_in_range (phase_ x) ->
  multi_segment_invariant n (Configure config n has_trigger x) /\
  active_segment_ (Configure config n has_trigger x) = n.
Proof.
  intros Hn Hlen Hphase. unfold Configure.
  destruct (Z.eqb_spec n 1) as [Hn1|_]; [lia|].
  pose proof (first_pass_window config n) as Ha.
  set (a := first_pass config n) in *.
  destruct (configure_loop (configure_segment config n a)
              (fun i s => 0 <= i <= n - 1 -> transitions_in_range n s)
              ltac:(intros i s Hi; apply configure_segment_transitions;
                    [lia|exact Hi|exact Ha])
              (upto 0 (n - 1)) (segments_ x)) as (H1 & H2 & H3).
  { intros i Hi. apply In_upto in Hi. rewrite Hlen.
    unfold kMaxNumSegments in *. lia. }
  cbv zeta in H1, H2, H3.
  set (segments := fold_left _ _ _) in *.
  split; [|reflexivity].
  split; [reflexivity|]. split; [cbn; lia|]. split; [|exact Hphase].
  intros i Hi. unfold segment_at. cbn [segments_ set_active_segment_
    set_segments_ set_process_fn_ set_num_segments_].
  destruct (Z.eq_dec i n) as [->|Hne].
  - rewrite at_put_eq
      by (rewrite H1, Hlen; unfold kMaxNumSegments in *; lia).
    apply configure_sentinel_transitions. lia.
  - rewrite at_put_ne by lia.
    apply H2; [apply In_upto|]; lia.
Qed.

Lemma set_segment_parameters_keeps i (p s : float) x :
  multi_segment_invariant n x ->
  multi_segment_invariant n (set_segment_parameters i p s x).
Proof. intros H. exact H. Qed.

Lemma RateToFrequency_nonneg rate :
  env_frequencies_nonneg E -> F32.nonneg (@RateToFrequency E rate).
Proof.
  intros H. apply H. unfold RateToFrequency_index, CONSTRAIN_int.
  destruct (Z.ltb_spec (F32.to_int32 (rate * F32.of_Z 2048)%f32) 0); [lia|].
  destruct (Z.gtb_spec (F32.to_int32 (rate * F32.of_Z 2048)%f32)
              (LUT_ENV_FREQUENCY_SIZE E)); lia.
Qed.

Lemma advanced_phase_nonneg x phase :
  env_frequencies_nonneg E -> phase_in_range phase ->
  F32.nonneg (advanced_phase x phase).
Proof.
  intros HE [H0 _]. apply zero_le_iff in H0. unfold advanced_phase.
  destruct (is_null _); [exact H0|].
  apply add_nonneg; [exact H0|apply RateToFrequency_nonneg, HE].
Qed.

Lemma clamped_phase_in_range p :
  F32.nonneg p ->
  phase_in_range (if (p >=? F32.one)%f32 then F32.one else p).
Proof.
  intros Hp. destruct (p >=? F32.one)%f32 eqn:Hc.
  - apply phase_in_range_one.
  - split; [apply zero_le_iff, Hp|apply not_ge_one; assumption].
Qed.

Lemma go_to_segment_range gate_flags seg complete :
  0 <= n -> transitions_in_range n seg ->
  -1 <= go_to_segment_of gate_flags seg complete <= n.
Proof.
  intros Hn (H1 & H2 & H3). unfold go_to_segment_of.
  destruct (_ && _); [exact H1|].
  destruct (flag_set _ _); [exact H2|].
  destruct complete; [exact H3|lia].
Qed.

Lemma same_setup_transitions x y :
  same_setup x y ->
  (forall i, 0 <= i <= n -> transitions_in_range n (segment_at x i)) ->
  forall i, 0 <= i <= n -> transitions_in_range n (segment_at y i).
Proof.
  intros [Hg _] Hx i Hi. specialize (Hx i Hi).
  assert (Hw : wiring_of (segment_at y i) = wiring_of (segment_at x i)).
  { unfold segment_at, at_. destruct (i <? 0); [reflexivity|].
    rewrite <- !(map_nth wiring_of). unfold graph in Hg. rewrite Hg.
    reflexivity. }
  unfold transitions_in_range in *.
  change (Segment.if_rising (segment_at y i))
    with (w_if_rising (wiring_of (segment_at y i))).
  change (Segment.if_falling (segment_at y i))
    with (w_if_falling (wiring_of (segment_at y i))).
  change (Segment.if_complete (segment_at y i))
    with (w_if_complete (wiring_of (segment_at y i))).
  rewrite Hw. exact Hx.
Qed.

Lemma ProcessMultiSegment_sample_keeps (s : @MultiLoop E) g :
  0 <= n ->
  env_frequencies_nonneg E ->
  multi_loop_invariant n s ->
  multi_loop_invariant n (fst (ProcessMultiSegment_sample s g)) /\
  output_in_range n (snd (ProcessMultiSegment_sample s g)).
Proof.
  intros Hn HE (Hfn & Hact & Htr & Hph).
  pose proof (ProcessMultiSegment_sample_setup s g) as Hsetup.
  pose proof (advanced_phase_nonneg (ml_obj s) (ml_phase s) HE Hph) as Hadv.
  pose proof (clamped_phase_in_range _ Hadv) as Hclamp.
  pose proof (go_to_segment_range g
                (segment_at (ml_obj s) (active_segment_ (ml_obj s)))
                (advanced_phase (ml_obj s) (ml_phase s) >=? F32.one)%f32
                Hn (Htr _ Hact)) as Hgo.
  assert (Htr' := same_setup_transitions _ _ Hsetup Htr).
  destruct Hsetup as [_ Hfn'].
  revert Htr' Hfn'. unfold ProcessMultiSegment_sample.
  destruct (Z.eqb_spec (go_to_segment_of g
              (segment_at (ml_obj s) (active_segment_ (ml_obj s)))
              (advanced_phase (ml_obj s) (ml_phase s) >=? F32.one)%f32) (-1))
    as [Heq|Hne]; cbn [fst snd]; intros Htr' Hfn'.
  - split; [|split; [exact Hclamp|exact Hact]].
    split; [exact Hfn|]. split; [exact Hact|]. split; [exact Htr|].
    exact Hclamp.
  - assert (Hactive : forall s0 : @MultiLoop E,
              active_segment_ (ml_obj (enter_segment
                (go_to_segment_of g
                   (segment_at (ml_obj s) (active_segment_ (ml_obj s)))
                   (advanced_phase (ml_obj s) (ml_phase s) >=? F32.one)%f32)
                s0))
              = go_to_segment_of g
                  (segment_at (ml_obj s) (active_segment_ (ml_obj s)))
                  (advanced_phase (ml_obj s) (ml_phase s) >=? F32.one)%f32)
      by reflexivity.
    assert (Hzero : forall go (s0 : @MultiLoop E),
              ml_phase (enter_segment go s0) = F32.zero) by reflexivity.
    split.
    + split; [congruence|]. split; [rewrite Hactive; lia|].
      split; [exact Htr'|]. rewrite Hzero. apply phase_in_range_zero.
    + split; cbn [out_phase out_segment].
      * rewrite Hzero. apply phase_in_range_zero.
      * rewrite Hactive. lia.
Qed.

Lemma ProcessMultiSegment_keeps gate_flags x :
  0 <= n ->
  env_frequencies_nonneg E ->
  multi_segment_invariant n x ->
  multi_segment_invariant n (fst (ProcessMultiSegment gate_flags x)) /\
  Forall (output_in_range n) (snd (ProcessMultiSegment gate_flags x)).
Proof.
  intros Hn HE (Hfn & Hact & Htr & Hph). unfold ProcessMultiSegment.
  destruct (for_each_sample_invariant ProcessMultiSegment_sample
              (multi_loop_invariant n) (output_in_range n)
              ltac:(intros s a Hs; apply ProcessMultiSegment_sample_keeps;
                    assumption)
              gate_flags
              (Build_MultiLoop x (phase_ x) (start_ x) (lp_ x) (value_ x)))
    as [H1 H2].
  { split; [exact Hfn|split; [exact Hact|split; [exact Htr|exact Hph]]]. }
  destruct (for_each_sample _ _ _) as [s out]. cbn [fst snd] in *.
  split; [|exact H2]. exact H1.
Qed.

Lemma run_keeps actions : forall x,
  0 <= n ->
  env_frequencies_nonneg E ->
  multi_segment_invariant n x ->
  exists r, run actions x = Some r /\ Forall (output_in_range n) (snd r).
Proof.
  induction actions as [|a rest IH]; intros x Hn HE Hx;
    [eexists; split; [reflexivity|constructor]|].
  destruct a as [io|i p s]; cbn [run].
  - assert (Hp : Process io x = Some (ProcessMultiSegment (map fst io) x)).
    { unfold Process. destruct Hx as [-> _]. reflexivity. }
    rewrite Hp.
    destruct (ProcessMultiSegment_keeps (map fst io) x Hn HE Hx) as [H1 H2].
    destruct (ProcessMultiSegment (map fst io) x) as [x1 out].
    cbn [fst snd] in *.
    destruct (IH x1 Hn HE H1) as [[x2 more] [Hr Hmore]].
    rewrite Hr. cbn [snd] in Hmore.
    eexists; split; [reflexivity|]. cbn [snd].
    apply Forall_app. split; assumption.
  - apply IH; [exact Hn|exact HE|apply set_segment_parameters_keeps, Hx].
Qed.

End MultiSegmentBounds.

(** C1, amended: in the multi-segment engine, that is after a
    [Configure] with 2 to 6 segments of an initialized generator whose
    phase is in [0, 1], every later render call has a result and every
    sample of it has its phase in [0, 1] and its segment index in
    [0, n], whatever the parameters set in between; [Configure] leaves
    the generator on the sentinel, index [n].  The entries of the
    frequency table that [RateToFrequency] reads are taken to be
    non-negative numbers. *)
Theorem C1_multi_segment_outputs_in_range {E : Env}
    (config : list segment.Configuration) (n : Z) (has_trigger : bool)
    (x : @SegmentGenerator E) (actions : list Action) :
  2 <= n <= kMaxNumSegments ->
  length (segments_ x) = Z.to_nat (kMaxNumSegments + 1) ->
  phase_in_range (phase_ x) ->
  env_frequencies_nonneg E ->
  active_segment_ (Configure config n has_trigger x) = n /\
  exists r,
    run actions (Configure config n has_trigger x) = Some r /\
    Forall (output_in_range n) (snd r).
Proof.
  intros Hn Hlen Hphase HE.
  destruct (Configure_establishes n config has_trigger x Hn Hlen Hphase)
    as [Hinv Hact].
  split; [exact Hact|]. apply run_keeps; [lia|assumption|assumption].
Qed.

(** With a single segment [Configure] enters no sentinel, and the tap
    LFO emits phases above 1: its fifth sample, after two rising edges
    four samples apart, has phase 3.03125. *)
Lemma C1_tap_lfo_phase_above_one :
  process_fn_ Runs.tap_lfo = ProcessTapLFO_fn /\
  active_segment_ (Configure Runs.tap_lfo_configuration 1 true Bench.fresh)
  <> 1 /\
  exists r,
    Process Runs.two_edges Runs.tap_lfo = Some r /\
    map out_phase (skipn 4 (firstn 5 (snd r)))
    = [S754_finite false 12713984 (-22)] /\
    ~ Forall (output_in_range 1) (snd r).
Proof.
  split; [reflexivity|]. split; [vm_compute; discriminate|].
  assert (H : option_map
                (fun r => map out_phase (skipn 4 (firstn 5 (snd r))))
                (Process Runs.two_edges Runs.tap_lfo)
              = Some [S754_finite false 12713984 (-22)])
    by (vm_compute; reflexivity).
  assert (Hex : option_map
                  (fun r =>
                     existsb (fun o => negb (out_phase o <=? F32.one)%f32)
                       (snd r))
                  (Process Runs.two_edges Runs.tap_lfo) = Some true)
    by (vm_compute; reflexivity).
  destruct (Process Runs.two_edges Runs.tap_lfo) as [r|]; [|discriminate].
  cbn [option_map] in H, Hex.
  exists r. split; [reflexivity|].
  split; [congruence|].
  intros HF.
  assert (Hex' : existsb (fun o => negb (out_phase o <=? F32.one)%f32)
                   (snd r) = true) by congruence.
  apply existsb_exists in Hex'. destruct Hex' as [o [Hin Hbad]].
  rewrite Forall_forall in HF. destruct (HF o Hin) as [[_ Hle] _].
  rewrite Hle in Hbad. discriminate.
Qed.

(** * A silent input only counts samples *)

Section Silence.

Import RampProcess.



Lemma extractor_at_rest :
  audio_rate_ Runs.extractor = false /\
  frequency_ Runs.extractor = F32.zero /\
  f_ratio_ Runs.extractor = F32.one /\
  train_phase_ Runs.extractor = F32.zero /\
  max_train_phase_ Runs.extractor = F32.zero /\
  current_pulse_ Runs.extractor = 0 /\
  length (history_ Runs.extractor) = 8%nat.
Proof.
  split; [vm_compute; reflexivity|].
  split; [vm_compute; reflexivity|].
  split; [vm_compute; reflexivity|].
  split; [vm_compute; reflexivity|].
  split; [vm_compute; reflexivity|].
  split; vm_compute; reflexivity.
Qed.




End Silence.

Import F32Facts.

Section NextStep.

Variable config : list segment.Configuration.
Variable n : Z.

(** The search for the next step segment is over within
    [2 * num_segments + 2] turns: more fuel does not change its result. *)
Lemma find_next_step_fuel a fuel1 : forall fuel2 follow_loop next_step,
  0 <= next_step < n ->
  (follow_loop = true -> 0 <= loop_start a) ->
  let turns := (n - next_step) + (if follow_loop then n else 0) in
  turns < Z.of_nat fuel1 -> turns < Z.of_nat fuel2 ->
  find_next_step config n a fuel1 follow_loop next_step
  = find_next_step config n a fuel2 follow_loop next_step.
Proof.
  induction fuel1 as [|fuel1 IH]; intros fuel2 fl ns Hns Hfl turns H1 H2.
  - subst turns. destruct fl; lia.
  - destruct fuel2 as [|fuel2]; [subst turns; destruct fl; lia|].
    cbn [find_next_step].
    destruct (is_step _); [reflexivity|].
    destruct (fl && (ns + 1 =? loop_end a + 1)) eqn:Hjump.
    + apply andb_prop in Hjump. destruct Hjump as [Hf _]. subst fl.
      destruct (Z.geb_spec (loop_start a) n); [reflexivity|].
      specialize (Hfl eq_refl).
      apply IH; subst turns; try lia; try discriminate.
    + destruct (Z.geb_spec (ns + 1) n); [reflexivity|].
      apply IH; subst turns; try lia; try exact Hfl;
        destruct fl; lia.
Qed.

Lemma next_step_fuel_suffices a i fuel :
  0 <= i < n -> loop_window_in_range n a ->
  (next_step_fuel n <= fuel)%nat ->
  find_next_step config n a fuel (negb (loop_end a =? -1)) i
  = find_next_step config n a (next_step_fuel n)
      (negb (loop_end a =? -1)) i.
Proof.
  intros Hi Ha Hfuel. unfold next_step_fuel in *.
  apply find_next_step_fuel; try exact Hi.
  - intros Hf. apply negb_true_iff, Z.eqb_neq in Hf.
    unfold loop_window_in_range in Ha. lia.
  - destruct (negb _); lia.
  - destruct (negb _); lia.
Qed.

End NextStep.

(** [Init] leaves the generator as the bounds need it: seven segments
    and the phase at 0. *)
Lemma Init_is_ready {E : Env} (settings : MultiMode) (s : Segment.t)
    (x : @SegmentGenerator E) :
  length (segments_ (Init settings s x)) = Z.to_nat (kMaxNumSegments + 1) /\
  phase_in_range (phase_ (Init settings s x)).
Proof.
  unfold Init.
  destruct (Random_GetSample E _) as [sample rng].
  destruct (Random_GetFloat E rng) as [f rng'].
  split; [apply repeat_length|split; reflexivity].
Qed.

Lemma Bench_env_frequencies : env_frequencies_nonneg Bench.env.
Proof. intros i _. reflexivity. Qed.

Lemma C1_multi_segment_outputs_in_range_witness :
  (2 <= 2 <= kMaxNumSegments /\
   length (segments_ Bench.fresh) = Z.to_nat (kMaxNumSegments + 1) /\
   phase_in_range (phase_ Bench.fresh) /\
   env_frequencies_nonneg Bench.env) /\
  active_segment_ (Configure Runs.ramp_hold 2 true Bench.fresh) = 2 /\
  exists r,
    run Runs.session (Configure Runs.ramp_hold 2 true Bench.fresh) = Some r /\
    Forall (output_in_range 2) (snd r).
Proof.
  assert (H1 : 2 <= 2 <= kMaxNumSegments) by (unfold kMaxNumSegments; lia).
  assert (H2 : length (segments_ Bench.fresh)
               = Z.to_nat (kMaxNumSegments + 1)) by reflexivity.
  assert (H3 : phase_in_range (phase_ Bench.fresh))
    by (split; reflexivity).
  split; [repeat split; try assumption; try apply H1; try apply H3;
          exact Bench_env_frequencies|].
  exact (C1_multi_segment_outputs_in_range Runs.ramp_hold 2 true Bench.fresh
           Runs.session H1 H2 H3 Bench_env_frequencies).
Defined.





(** * The ramp extractor: state and predictor *)

Section Extractor.

Import RampExtractor_ RampProcess.

Ltac extractor_fields :=
  cbn [audio_rate_ train_phase_ max_train_phase_ target_frequency_ frequency_
       lp_coefficient_ max_ramp_value_ f_ratio_ reset_counter_ reset_interval_
       history_ current_pulse_ average_pulse_width_ apw_match_count_
       prediction_error_ predicted_period_ max_frequency_ audio_rate_period_
       audio_rate_period_hysteresis_ sample_rate_ min_period_
       min_period_hysteresis_ rl_obj rl_train_phase rl_max_train_phase
       fst snd] in *.

(** One turn of the predictor writes entry [i] of the two tables and
    nothing else, and the best pattern stays an index of the loop. *)
Lemma PredictNextPeriod_body_writes last x y b i :
  0 <= i <= kMaxPatternPeriod ->
  (exists errors periods,
     length errors = length (prediction_error_ x) /\
     length periods = length (predicted_period_ x) /\
     y = set_predicted_period_ periods (set_prediction_error_ errors x)) ->
  0 <= b <= kMaxPatternPeriod ->
  (exists errors periods,
     length errors = length (prediction_error_ x) /\
     length periods = length (predicted_period_ x) /\
     fst (PredictNextPeriod_body last (y, b) i)
     = set_predicted_period_ periods (set_prediction_error_ errors x)) /\
  0 <= snd (PredictNextPeriod_body last (y, b) i) <= kMaxPatternPeriod.
Proof.
  intros Hi (errors & periods & He & Hp & ->) Hb.
  unfold PredictNextPeriod_body.
  destruct x. extractor_fields.
  destruct (i =? 0).
  - split.
    + eexists (put errors i _), (put periods 0 _).
      rewrite !put_length. split; [exact He|]. split; [exact Hp|].
      reflexivity.
    + cbn. match goal with |- context [if ?c then _ else _] => destruct c end;
        cbn; lia.
  - split.
    + eexists (put errors i _), (put periods i _).
      rewrite !put_length. split; [exact He|]. split; [exact Hp|].
      reflexivity.
    + cbn. match goal with |- context [if ?c then _ else _] => destruct c end;
        cbn; lia.
Qed.

Lemma PredictNextPeriod_loop last x idx : forall y b,
  (forall i, In i idx -> 0 <= i <= kMaxPatternPeriod) ->
  (exists errors periods,
     length errors = length (prediction_error_ x) /\
     length periods = length (predicted_period_ x) /\
     y = set_predicted_period_ periods (set_prediction_error_ errors x)) ->
  0 <= b <= kMaxPatternPeriod ->
  (exists errors periods,
     length errors = length (prediction_error_ x) /\
     length periods = length (predicted_period_ x) /\
     fst (fold_left (PredictNextPeriod_body last) idx (y, b))
     = set_predicted_period_ periods (set_prediction_error_ errors x)) /\
  0 <= snd (fold_left (PredictNextPeriod_body last) idx (y, b))
    <= kMaxPatternPeriod.
Proof.
  induction idx as [|i idx IH]; intros y b Hidx Hy Hb; cbn [fold_left].
  - cbn [fst snd]. split; assumption.
  - destruct (PredictNextPeriod_body_writes last x y b i
                (Hidx i (or_introl eq_refl)) Hy Hb) as [Hy1 Hb1].
    destruct (PredictNextPeriod_body last (y, b) i) as [y1 b1].
    cbn [fst snd] in *.
    apply IH; [intros j Hj; apply Hidx; right; exact Hj|assumption|assumption].
Qed.

(** [PredictNextPeriod] only writes the two prediction tables, which
    keep their sizes, and returns an entry of the period table. *)
Lemma PredictNextPeriod_writes x :
  exists errors periods best,
    length errors = length (prediction_error_ x) /\
    length periods = length (predicted_period_ x) /\
    0 <= best <= kMaxPatternPeriod /\
    PredictNextPeriod x
    = (at_ F32.zero periods best,
       set_predicted_period_ periods (set_prediction_error_ errors x)).
Proof.
  unfold PredictNextPeriod.
  set (last := F32.of_Z _).
  destruct (PredictNextPeriod_loop last x (upto 0 kMaxPatternPeriod) x 0)
    as [(errors & periods & He & Hp & Hy) Hb].
  - intros i Hi. apply In_upto in Hi. exact Hi.
  - exists (prediction_error_ x), (predicted_period_ x).
    split; [reflexivity|]. split; [reflexivity|]. destruct x; reflexivity.
  - unfold kMaxPatternPeriod. lia.
  - destruct (fold_left _ _ _) as [y b]. cbn [fst snd] in *. subst y.
    exists errors, periods, b.
    split; [exact He|]. split; [exact Hp|]. split; [exact Hb|].
    destruct x; reflexivity.
Qed.

(** X4: [PredictNextPeriod] returns one of the nine entries of the
    period table as it leaves it, writes nothing but the two prediction
    tables, and keeps their sizes. *)
Theorem PredictNextPeriod_returns_a_table_entry x :
  let r := PredictNextPeriod x in
  (exists best,
     0 <= best <= kMaxPatternPeriod /\
     fst r = at_ F32.zero (predicted_period_ (snd r)) best) /\
  length (predicted_period_ (snd r)) = length (predicted_period_ x) /\
  length (prediction_error_ (snd r)) = length (prediction_error_ x) /\
  set_predicted_period_ (predicted_period_ x)
    (set_prediction_error_ (prediction_error_ x) (snd r)) = x.
Proof.
  destruct (PredictNextPeriod_writes x)
    as (errors & periods & best & He & Hp & Hb & ->).
  cbv zeta. cbn [fst snd].
  split; [exists best; split; [exact Hb|destruct x; reflexivity]|].
  destruct x; extractor_fields. unfold set_predicted_period_, set_prediction_error_.
  extractor_fields. auto.
Qed.

(** What one turn of the predictor leaves in the period table. *)
Lemma PredictNextPeriod_body_entry last y b j :
  0 <= j < Z.of_nat (length (predicted_period_ y)) ->
  let y' := fst (PredictNextPeriod_body last (y, b) j) in
  history_ y' = history_ y /\
  current_pulse_ y' = current_pulse_ y /\
  length (predicted_period_ y') = length (predicted_period_ y) /\
  at_ F32.zero (predicted_period_ y') j
  = (if j =? 0 then
       ONE_POLE (at_ F32.zero (predicted_period_ y) 0) last F32.half
     else F32.of_Z (total_duration (pulse_back y j))) /\
  forall k, k <> j ->
    at_ F32.zero (predicted_period_ y') k
    = at_ F32.zero (predicted_period_ y) k.
Proof.
  intros Hj. unfold PredictNextPeriod_body, pulse_back.
  destruct y. extractor_fields.
  destruct (Z.eqb_spec j 0) as [->|Hne]; cbn [fst]; extractor_fields;
    unfold set_predicted_period_, set_prediction_error_; extractor_fields;
    rewrite put_length.
  - split; [reflexivity|]. split; [reflexivity|]. split; [reflexivity|].
    split; [apply at_put_eq; exact Hj|].
    intros k Hk. apply at_put_ne. auto.
  - split; [reflexivity|]. split; [reflexivity|]. split; [reflexivity|].
    split; [apply at_put_eq; exact Hj|].
    intros k Hk. apply at_put_ne. auto.
Qed.

Lemma PredictNextPeriod_loop_entries last i : forall n lo y b,
  0 <= lo ->
  lo + Z.of_nat n <= Z.of_nat (length (predicted_period_ y)) ->
  let y' := fst (fold_left (PredictNextPeriod_body last) (indices lo n) (y, b)) in
  history_ y' = history_ y /\
  current_pulse_ y' = current_pulse_ y /\
  length (predicted_period_ y') = length (predicted_period_ y) /\
  at_ F32.zero (predicted_period_ y') i
  = (if (lo <=? i) && (i <? lo + Z.of_nat n) then
       if i =? 0 then
         ONE_POLE (at_ F32.zero (predicted_period_ y) 0) last F32.half
       else F32.of_Z (total_duration (pulse_back y i))
     else at_ F32.zero (predicted_period_ y) i).
Proof.
  induction n as [|n IH]; intros lo y b Hlo Hlen; cbn [indices fold_left].
  - cbn [fst]. repeat split; try reflexivity.
    replace ((lo <=? i) && (i <? lo + Z.of_nat 0)) with false; [reflexivity|].
    symmetry. apply andb_false_iff.
    destruct (Z.leb_spec lo i); [right; apply Z.ltb_ge; lia|left; reflexivity].
  - destruct (PredictNextPeriod_body_entry last y b lo ltac:(lia))
      as (Hh & Hc & Hl & Hat & Hother).
    destruct (PredictNextPeriod_body last (y, b) lo) as [y1 b1].
    cbn [fst] in *.
    destruct (IH (lo + 1) y1 b1 ltac:(lia) ltac:(rewrite Hl; lia))
      as (Hh2 & Hc2 & Hl2 & Hat2).
    cbv zeta. rewrite Hh2, Hc2, Hl2, Hat2, Hh, Hc, Hl.
    split; [reflexivity|]. split; [reflexivity|]. split; [reflexivity|].
    assert (Hpb : pulse_back y1 i = pulse_back y i)
      by (unfold pulse_back; rewrite Hh, Hc; reflexivity).
    rewrite Hpb.
    destruct (Z.eqb_spec i lo) as [->|Hne].
    + replace ((lo + 1 <=? lo) && (lo <? lo + 1 + Z.of_nat n)) with false
        by (symmetry; apply andb_false_iff; left; apply Z.leb_gt; lia).
      replace ((lo <=? lo) && (lo <? lo + Z.of_nat (S n))) with true
        by (symmetry; apply andb_true_iff; split;
            [apply Z.leb_le|apply Z.ltb_lt]; lia).
      exact Hat.
    + rewrite (Hother i Hne).
      replace ((lo <=? i) && (i <? lo + Z.of_nat (S n)))
        with ((lo + 1 <=? i) && (i <? lo + 1 + Z.of_nat n)).
      * destruct ((lo + 1 <=? i) && (i <? lo + 1 + Z.of_nat n)) eqn:Hin;
          [|reflexivity].
        apply andb_true_iff in Hin. destruct Hin as [Hin _].
        apply Z.leb_le in Hin.
        destruct (Z.eqb_spec i 0); [lia|reflexivity].
      * destruct (Z.leb_spec (lo + 1) i), (Z.leb_spec lo i),
          (Z.ltb_spec i (lo + 1 + Z.of_nat n)),
          (Z.ltb_spec i (lo + Z.of_nat (S n))); cbn [andb]; try reflexivity; lia.
Qed.

(** X5: the pattern predictors.  After [PredictNextPeriod], entry [i]
    of the period table, for [i] from 1 to 8, is the duration of the
    pulse recorded [i] slots back in the circular history (the pulse
    that just ended for [i = 1]), and entry 0 is the previous entry 0
    moved half way to the last period. *)
Theorem PredictNextPeriod_pattern_entries x i :
  extractor_wf x ->
  0 <= i <= kMaxPatternPeriod ->
  let r := PredictNextPeriod x in
  at_ F32.zero (predicted_period_ (snd r)) i
  = if i =? 0 then
      ONE_POLE (at_ F32.zero (predicted_period_ x) 0)
        (F32.of_Z (total_duration (current_pulse x))) F32.half
    else F32.of_Z (total_duration (pulse_back x i)).
Proof.
  intros (_ & _ & Hp & _) Hi. unfold PredictNextPeriod, current_pulse.
  set (last := F32.of_Z _).
  pose proof (PredictNextPeriod_loop_entries last i
                (Z.to_nat (kMaxPatternPeriod - 0 + 1)) 0 x 0) as H.
  fold (upto 0 kMaxPatternPeriod) in H.
  destruct H as (_ & _ & _ & H).
  - lia.
  - rewrite Hp. unfold kMaxPatternPeriod. lia.
  - destruct (fold_left _ _ _) as [y b]. cbn [fst snd] in *.
    rewrite H.
    replace ((0 <=? i) && (i <? 0 + Z.of_nat (Z.to_nat (kMaxPatternPeriod - 0 + 1))))
      with true; [reflexivity|].
    symmetry. apply andb_true_iff.
    split; [apply Z.leb_le|apply Z.ltb_lt]; unfold kMaxPatternPeriod in *; lia.
Qed.

(** X3: [UpdateAveragePulseWidth] keeps the match count between 1 and
    [kHistorySize]: it restarts at 1 or moves one up, capped at the size
    of the history; nothing but the count and the average is written. *)
Theorem UpdateAveragePulseWidth_counts tolerance x :
  0 <= apw_match_count_ x ->
  let x' := UpdateAveragePulseWidth tolerance x in
  1 <= apw_match_count_ x' <= kHistorySize /\
  (apw_match_count_ x' = 1 \/
   apw_match_count_ x' = Z.min kHistorySize (apw_match_count_ x + 1)) /\
  set_average_pulse_width_ (average_pulse_width_ x)
    (set_apw_match_count_ (apw_match_count_ x) x') = x.
Proof.
  intros H0. unfold UpdateAveragePulseWidth.
  destruct (IsWithinTolerance _ _ _); destruct x; extractor_fields;
    unfold set_average_pulse_width_, set_apw_match_count_; extractor_fields;
    unfold kHistorySize; (split; [lia|split; [auto|reflexivity]]).
Qed.

Ltac extractor_cbv :=
  cbv beta iota zeta delta
    [Reset Init set_audio_rate_ set_train_phase_ set_max_train_phase_
     set_target_frequency_ set_frequency_ set_lp_coefficient_
     set_max_ramp_value_ set_f_ratio_ set_reset_counter_ set_reset_interval_
     set_history_ set_current_pulse_ set_average_pulse_width_
     set_apw_match_count_ set_prediction_error_ set_predicted_period_
     set_max_frequency_ set_audio_rate_period_
     set_audio_rate_period_hysteresis_ set_sample_rate_ set_min_period_
     set_min_period_hysteresis_
     audio_rate_ train_phase_ max_train_phase_ target_frequency_ frequency_
     lp_coefficient_ max_ramp_value_ f_ratio_ reset_counter_ reset_interval_
     history_ current_pulse_ average_pulse_width_ apw_match_count_
     prediction_error_ predicted_period_ max_frequency_ audio_rate_period_
     audio_rate_period_hysteresis_ sample_rate_ min_period_
     min_period_hysteresis_
     set_on_duration set_total_duration set_pulse_width
     on_duration total_duration pulse_width
     at_ put put_nat nth repeat Z.ltb Z.compare Z.to_nat Pulse_zero].

(** [Reset] written out. *)
Lemma Reset_fields x :
  let p := Build_Pulse
             (F32.to_uint32 (sample_rate_ x * F32.lit 25 100)%f32)
             (F32.to_uint32 (sample_rate_ x * F32.half)%f32)
             F32.half in
  Reset x
  = Build_RampExtractor false F32.zero (max_train_phase_ x) F32.zero F32.zero
      F32.half F32.one F32.one 1
      (F32.to_uint32 (F32.of_Z 5 * sample_rate_ x)%f32)
      (Build_Pulse 0 0 F32.half :: repeat p 7) 0 F32.zero 0
      (F32.zero :: repeat (F32.of_Z 50) 8)
      (repeat (sample_rate_ x * F32.half)%f32 9)
      (max_frequency_ x) (audio_rate_period_ x)
      (audio_rate_period_hysteresis_ x) (sample_rate_ x) (min_period_ x)
      (min_period_hysteresis_ x).
Proof.
  destruct x. unfold Reset.
  change (Z.to_nat kHistorySize) with 8%nat.
  change (Z.to_nat (kMaxPatternPeriod + 1)) with 9%nat.
  extractor_cbv. reflexivity.
Qed.

Lemma Reset_wf x : extractor_wf (Reset x).
Proof.
  rewrite (Reset_fields x). cbv zeta.
  unfold extractor_wf. extractor_fields.
  unfold kHistorySize, kMaxPatternPeriod.
  repeat split; try reflexivity; lia.
Qed.

Lemma Reset_current_pulse x : current_pulse (Reset x) = Build_Pulse 0 0 F32.half.
Proof. rewrite (Reset_fields x). reflexivity. Qed.

(** X1: [Reset] leaves the arrays with their declared sizes, the write
    position at 0 on a cleared pulse, and is idempotent: it reads
    nothing but the sample rate, which it keeps. *)
Theorem Reset_is_idempotent x :
  extractor_wf (Reset x) /\
  current_pulse (Reset x) = Build_Pulse 0 0 F32.half /\
  apw_match_count_ (Reset x) = 0 /\
  audio_rate_ (Reset x) = false /\
  Reset (Reset x) = Reset x.
Proof.
  split; [apply Reset_wf|]. split; [apply Reset_current_pulse|].
  rewrite (Reset_fields (Reset x)). rewrite (Reset_fields x). cbv zeta.
  extractor_fields. repeat split; reflexivity.
Qed.

(** * The ramp extractor: the sample loop *)

Lemma count_sample_eq flags x :
  count_sample flags x
  = set_history_
      (put (history_ x) (current_pulse_ x)
         (let p := set_total_duration
                     ((total_duration (current_pulse x) + 1) mod 2 ^ 32)
                     (current_pulse x) in
          if flag_set flags GATE_FLAG_FALLING then
            set_on_duration ((total_duration p - 1) mod 2 ^ 32) p
          else p)) x.
Proof. reflexivity. Qed.

(** Without a rising edge, a sample counts and moves the frequencies;
    it writes nothing else in the object. *)
Lemma sample_without_edge ratio_ ar s flags :
  no_rising flags ->
  exists f tf,
    rl_obj (fst (sample ratio_ ar s flags))
    = set_frequency_ f (set_target_frequency_ tf (count_sample flags (rl_obj s))).
Proof.
  intros Hnr. unfold sample. rewrite Hnr.
  destruct (audio_rate_ (rl_obj s)).
  - unfold audio_rate_sample.
    generalize (count_sample flags (rl_obj s)) as c. intros c.
    destruct c. extractor_fields. cbv zeta.
    unfold set_frequency_, set_target_frequency_. extractor_fields.
    repeat match goal with
           | |- context [if ?c then _ else _] => destruct c
           end; extractor_fields; eexists _, _; reflexivity.
  - unfold low_rate_sample.
    generalize (count_sample flags (rl_obj s)) as c. intros c.
    destruct c. extractor_fields. cbv zeta.
    unfold set_frequency_, set_target_frequency_. extractor_fields.
    repeat match goal with
           | |- context [if ?c then _ else _] => destruct c
           end; extractor_fields; eexists _, _; reflexivity.
Qed.

Ltac setters_cbv :=
  lazy beta iota zeta delta
    [set_audio_rate_ set_train_phase_ set_max_train_phase_
     set_target_frequency_ set_frequency_ set_lp_coefficient_
     set_max_ramp_value_ set_f_ratio_ set_reset_counter_ set_reset_interval_
     set_history_ set_current_pulse_ set_average_pulse_width_
     set_apw_match_count_ set_prediction_error_ set_predicted_period_
     set_max_frequency_ set_audio_rate_period_
     set_audio_rate_period_hysteresis_ set_sample_rate_ set_min_period_
     set_min_period_hysteresis_
     audio_rate_ train_phase_ max_train_phase_ target_frequency_ frequency_
     lp_coefficient_ max_ramp_value_ f_ratio_ reset_counter_ reset_interval_
     history_ current_pulse_ average_pulse_width_ apw_match_count_
     prediction_error_ predicted_period_ max_frequency_ audio_rate_period_
     audio_rate_period_hysteresis_ sample_rate_ min_period_
     min_period_hysteresis_ rl_obj rl_train_phase rl_max_train_phase
     fst snd] in *.

Ltac predict_writes :=
  match goal with
  | |- context [PredictNextPeriod ?a] =>
      let errors := fresh "errors" in
      let periods := fresh "periods" in
      let best := fresh "best" in
      let He := fresh "He" in
      let Hp := fresh "Hp" in
      let Hb := fresh "Hb" in
      let Heq := fresh "Heq" in
      destruct (PredictNextPeriod_writes a)
        as (errors & periods & best & He & Hp & Hb & Heq);
      rewrite Heq; clear Heq
  end.

Lemma put_nat_same {A : Type} (d : A) (l : list A) : forall n,
  put_nat l n (nth n l d) = l.
Proof.
  induction l as [|h t IH]; intros [|n]; cbn; auto. now rewrite IH.
Qed.

(** Storing what a cell holds changes nothing. *)
Lemma put_same {A : Type} (d : A) (l : list A) i :
  put l i (at_ d l i) = l.
Proof.
  unfold put, at_. destruct (i <? 0); [reflexivity|apply put_nat_same].
Qed.

Lemma set_pulse_width_same p : set_pulse_width (pulse_width p) p = p.
Proof. destruct p; reflexivity. Qed.

(** The branch of a long pulse writes no pulse and moves no index. *)
Lemma reset_branch_shape ratio_ s :
  let x := rl_obj s in
  let x' := rl_obj (reset_branch ratio_ s) in
  history_ x' = history_ x /\
  current_pulse_ x' = current_pulse_ x /\
  length (prediction_error_ x') = length (prediction_error_ x) /\
  length (predicted_period_ x') = length (predicted_period_ x) /\
  audio_rate_ x' = audio_rate_ x.
Proof.
  unfold reset_branch. cbv zeta. predict_writes.
  destruct (rl_obj s). setters_cbv. auto.
Qed.

Lemma audio_rate_branch_shape ratio_ period x :
  let x' := audio_rate_branch ratio_ period x in
  history_ x' = history_ x /\
  current_pulse_ x' = current_pulse_ x /\
  length (prediction_error_ x') = length (prediction_error_ x) /\
  length (predicted_period_ x') = length (predicted_period_ x) /\
  audio_rate_ x' = true.
Proof.
  unfold audio_rate_branch. destruct x. setters_cbv. auto.
Qed.

(** The branch of a recorded low-rate pulse writes at most the width of
    the pulse that ended. *)
Lemma low_rate_branch_shape ratio_ period s :
  let x := rl_obj s in
  let x' := rl_obj (low_rate_branch ratio_ period s) in
  (exists w,
     history_ x'
     = put (history_ x) (current_pulse_ x)
         (set_pulse_width w (current_pulse x))) /\
  current_pulse_ x' = current_pulse_ x /\
  length (prediction_error_ x') = length (prediction_error_ x) /\
  length (predicted_period_ x') = length (predicted_period_ x) /\
  audio_rate_ x' = false.
Proof.
  unfold low_rate_branch, current_pulse, UpdateAveragePulseWidth.
  repeat first
    [ progress setters_cbv
    | match goal with |- context [if ?c then _ else _] => destruct c end
    | predict_writes ];
  (split; [first [ eexists; reflexivity
                 | eexists (pulse_width _);
                   rewrite set_pulse_width_same, put_same; reflexivity ]
          |auto]).
Qed.

Lemma mod_history_range c : 0 <= (c + 1) mod kHistorySize < kHistorySize.
Proof. apply Z.mod_pos_bound. unfold kHistorySize. lia. Qed.

Lemma clear_pulse_shape x :
  history_ (clear_pulse x)
  = put (history_ x) (current_pulse_ x)
      (Build_Pulse 0 0 (pulse_width (current_pulse x))) /\
  current_pulse_ (clear_pulse x) = current_pulse_ x /\
  prediction_error_ (clear_pulse x) = prediction_error_ x /\
  predicted_period_ (clear_pulse x) = predicted_period_ x /\
  audio_rate_ (clear_pulse x) = audio_rate_ x.
Proof.
  split; [apply clear_pulse_clears|]. destruct x. repeat split; reflexivity.
Qed.

(** The edge block keeps the arrays at their sizes and the write
    position inside the history. *)
Lemma rising_wf ratio_ ar s :
  extractor_wf (rl_obj s) -> extractor_wf (rl_obj (rising ratio_ ar s)).
Proof.
  intros (Hh & He & Hp & Hc). unfold rising.
  set (x := rl_obj s) in *.
  set (p := at_ Pulse_zero (history_ x) (current_pulse_ x)).
  destruct (negb (total_duration p <? reset_interval_ x)).
  - destruct (reset_branch_shape ratio_ s) as (H1 & H2 & H3 & H4 & _).
    fold x in H1, H2, H3, H4.
    cbn [rl_obj].
    destruct (clear_pulse_shape (rl_obj (reset_branch ratio_ s)))
      as (G1 & G2 & G3 & G4 & _).
    unfold extractor_wf.
    rewrite G1, G2, G3, G4, put_length, H1, H2, H3, H4. auto.
  - cbv zeta. cbn [rl_obj rl_train_phase rl_max_train_phase].
    match goal with
    | |- extractor_wf (clear_pulse (set_current_pulse_ ?c ?y0)) =>
        set (y := y0)
    end.
    assert (Hy : length (history_ y) = length (history_ x) /\
                 current_pulse_ y = current_pulse_ x /\
                 length (prediction_error_ y) = length (prediction_error_ x) /\
                 length (predicted_period_ y) = length (predicted_period_ x));
      [subst y|clearbody y; destruct Hy as (Y1 & Y2 & Y3 & Y4)].
    + destruct ((F32.of_Z (total_duration p) <=? ar)%f32
                && (F32.of_Z (total_duration p) >? F32.zero)%f32).
      * cbn [rl_obj].
        destruct (audio_rate_branch_shape ratio_ (F32.of_Z (total_duration p)) x)
          as (H1 & H2 & H3 & H4 & _).
        rewrite H1, H2, H3, H4. auto.
      * destruct (low_rate_branch_shape ratio_ (F32.of_Z (total_duration p)) s)
          as ((w & H1) & H2 & H3 & H4 & _).
        fold x in H1, H2, H3, H4.
        rewrite H1, H2, H3, H4, put_length. auto.
    + destruct (clear_pulse_shape (set_current_pulse_
                                     ((current_pulse_ y + 1) mod kHistorySize) y))
        as (G1 & G2 & G3 & G4 & _).
      unfold extractor_wf. rewrite G1, G2, G3, G4, put_length.
      destruct y. extractor_fields. unfold set_current_pulse_.
      extractor_fields.
      rewrite Y1, Y3, Y4.
      split; [exact Hh|]. split; [exact He|]. split; [exact Hp|].
      apply mod_history_range.
Qed.

Lemma count_sample_wf flags x :
  extractor_wf x -> extractor_wf (count_sample flags x).
Proof.
  intros (Hh & He & Hp & Hc). rewrite count_sample_eq.
  destruct x. unfold extractor_wf, set_history_ in *. extractor_fields.
  rewrite put_length. auto.
Qed.

Lemma sample_wf ratio_ ar s flags :
  extractor_wf (rl_obj s) ->
  extractor_wf (rl_obj (fst (sample ratio_ ar s flags))).
Proof.
  intros Hwf.
  unfold sample.
  set (s1 := if flag_set flags GATE_FLAG_RISING then rising ratio_ ar s else s).
  assert (H1 : extractor_wf (rl_obj s1))
    by (subst s1; destruct (flag_set flags GATE_FLAG_RISING);
        [apply rising_wf|]; exact Hwf).
  apply (count_sample_wf flags) in H1.
  destruct H1 as (Hh & He & Hp & Hc).
  destruct (audio_rate_ (rl_obj s1)).
  - unfold audio_rate_sample.
    generalize dependent (count_sample flags (rl_obj s1)). intros c Hh He Hp Hc.
    destruct c. extractor_fields. cbv zeta.
    unfold set_frequency_, set_target_frequency_. extractor_fields.
    repeat match goal with
           | |- context [if ?c then _ else _] => destruct c
           end; extractor_fields; unfold extractor_wf; extractor_fields; auto.
  - unfold low_rate_sample.
    generalize dependent (count_sample flags (rl_obj s1)). intros c Hh He Hp Hc.
    destruct c. extractor_fields. cbv zeta.
    unfold set_frequency_, set_target_frequency_. extractor_fields.
    repeat match goal with
           | |- context [if ?c then _ else _] => destruct c
           end; extractor_fields; unfold extractor_wf; extractor_fields; auto.
Qed.

Lemma for_each_sample_length {S A B : Type} (step : S -> A -> S * B) :
  forall input s, length (snd (for_each_sample step s input)) = length input.
Proof.
  induction input as [|a rest IH]; intros s; cbn [for_each_sample].
  - reflexivity.
  - destruct (step s a) as [s1 b]. specialize (IH s1).
    destruct (for_each_sample step s1 rest) as [s2 out].
    cbn [snd length] in *. now rewrite IH.
Qed.

(** X2: [Process] keeps the extractor well formed, whatever the gate
    stream and the ratio: the history keeps its 8 pulses, the two
    prediction tables their 9 entries, and the write position stays an
    index of the history.  It writes one ramp value per sample. *)
Theorem Process_keeps_the_arrays ratio_ gate_flags x :
  extractor_wf x ->
  extractor_wf (fst (Process ratio_ gate_flags x)) /\
  length (snd (Process ratio_ gate_flags x)) = length gate_flags.
Proof.
  intros Hwf. unfold Process.
  set (ar := (audio_rate_period_hysteresis_ x * _)%f32).
  pose proof (for_each_sample_keeps (sample ratio_ ar)
                (fun s => extractor_wf (rl_obj s))
                (fun s a H => sample_wf ratio_ ar s a H) gate_flags
                (Build_RampLoop x (train_phase_ x) (max_train_phase_ x)) Hwf)
    as H.
  pose proof (for_each_sample_length (sample ratio_ ar) gate_flags
                (Build_RampLoop x (train_phase_ x) (max_train_phase_ x)))
    as Hl.
  destruct (for_each_sample _ _ _) as [s ramp]. cbn [fst snd] in *.
  split; [|exact Hl].
  destruct H as (Hh & He & Hp & Hc).
  destruct (rl_obj s). unfold extractor_wf in *. extractor_fields. auto.
Qed.

(** X8: a pulse shorter than the reset interval is recorded.  At the
    rising edge that ends it the write position moves to the next slot
    of the circular history, which is cleared; the pulse that ended
    keeps its two durations in its slot; no other slot is written; and
    the extractor runs at audio rate from then on exactly when the
    period is positive and not above the threshold. *)
Theorem recorded_pulse_moves_on ratio_ ar s :
  let x := rl_obj s in
  let p := current_pulse x in
  let period := F32.of_Z (total_duration p) in
  extractor_wf x ->
  total_duration p < reset_interval_ x ->
  let x' := rl_obj (rising ratio_ ar s) in
  current_pulse_ x' = (current_pulse_ x + 1) mod kHistorySize /\
  on_duration (current_pulse x') = 0 /\
  total_duration (current_pulse x') = 0 /\
  on_duration (at_ Pulse_zero (history_ x') (current_pulse_ x))
  = on_duration p /\
  total_duration (at_ Pulse_zero (history_ x') (current_pulse_ x))
  = total_duration p /\
  (forall i, i <> current_pulse_ x -> i <> current_pulse_ x' ->
     at_ Pulse_zero (history_ x') i = at_ Pulse_zero (history_ x) i) /\
  audio_rate_ x' = ((period <=? ar) && (period >? F32.zero))%f32.
Proof.
  intros x p period (Hh & He & Hp & Hc) Hshort. unfold rising.
  fold x. change (at_ Pulse_zero (history_ x) (current_pulse_ x)) with p.
  replace (total_duration p <? reset_interval_ x) with true
    by (symmetry; apply Z.ltb_lt; exact Hshort).
  cbn [negb]. cbv zeta. fold period.
  cbn [rl_obj rl_train_phase rl_max_train_phase].
  match goal with
  | |- context [clear_pulse (set_current_pulse_ ?c ?y0)] => set (y := y0)
  end.
  assert (Hy : (exists w, history_ y
                          = put (history_ x) (current_pulse_ x)
                              (set_pulse_width w p)) /\
               current_pulse_ y = current_pulse_ x /\
               audio_rate_ y
               = ((period <=? ar) && (period >? F32.zero))%f32).
  { subst y.
    destruct ((period <=? ar)%f32 && (period >? F32.zero)%f32).
    - cbn [rl_obj].
      destruct (audio_rate_branch_shape ratio_ period x)
        as (H1 & H2 & _ & _ & H5).
      rewrite H1, H2, H5. split; [|auto].
      exists (pulse_width p). rewrite set_pulse_width_same.
      unfold p, current_pulse. rewrite put_same. reflexivity.
    - destruct (low_rate_branch_shape ratio_ period s)
        as (H1 & H2 & _ & _ & H5).
      fold x in H1, H2. split; [exact H1|]. split; [exact H2|exact H5]. }
  clearbody y. destruct Hy as ((w & Y1) & Y2 & Y3).
  set (c' := (current_pulse_ y + 1) mod kHistorySize).
  destruct (clear_pulse_shape (set_current_pulse_ c' y))
    as (G1 & G2 & _ & _ & G5).
  assert (Hcy : current_pulse_ (set_current_pulse_ c' y) = c')
    by (destruct y; reflexivity).
  assert (Hhy : history_ (set_current_pulse_ c' y) = history_ y)
    by (destruct y; reflexivity).
  assert (Hay : audio_rate_ (set_current_pulse_ c' y) = audio_rate_ y)
    by (destruct y; reflexivity).
  unfold current_pulse at 1 2.
  rewrite G1, G2, G5, Hcy, Hhy, Hay, Y1, Y3.
  assert (Hc' : 0 <= c' < kHistorySize) by apply mod_history_range.
  assert (Hne : c' <> current_pulse_ x).
  { subst c'. rewrite Y2. unfold kHistorySize in *.
    destruct (Z.eq_dec (current_pulse_ x) 7) as [->|];
      [discriminate|rewrite Z.mod_small; lia]. }
  assert (Hlen : Z.of_nat (length (history_ x)) = kHistorySize)
    by (rewrite Hh; unfold kHistorySize; reflexivity).
  split; [rewrite <- Y2; reflexivity|].
  rewrite !at_put_eq by (rewrite !put_length; lia).
  split; [reflexivity|]. split; [reflexivity|].
  rewrite (at_put_ne _ _ c' (current_pulse_ x)) by exact Hne.
  rewrite at_put_eq by lia.
  split; [destruct p; reflexivity|]. split; [destruct p; reflexivity|].
  split; [|reflexivity].
  intros i Hi1 Hi2. rewrite !at_put_ne by auto. reflexivity.
Qed.

(** What a sample without a rising edge does to the object. *)
Lemma quiet_sample ratio_ ar s flags :
  let x := rl_obj s in
  let p := current_pulse x in
  extractor_wf x ->
  no_rising flags ->
  let x' := rl_obj (fst (sample ratio_ ar s flags)) in
  current_pulse_ x' = current_pulse_ x /\
  audio_rate_ x' = audio_rate_ x /\
  reset_interval_ x' = reset_interval_ x /\
  reset_counter_ x' = reset_counter_ x /\
  f_ratio_ x' = f_ratio_ x /\
  total_duration (current_pulse x') = (total_duration p + 1) mod 2 ^ 32 /\
  on_duration (current_pulse x')
  = (if flag_set flags GATE_FLAG_FALLING
     then ((total_duration p + 1) mod 2 ^ 32 - 1) mod 2 ^ 32
     else on_duration p) /\
  pulse_width (current_pulse x') = pulse_width p /\
  forall i, i <> current_pulse_ x ->
    at_ Pulse_zero (history_ x') i = at_ Pulse_zero (history_ x) i.
Proof.
  intros x p (Hh & He & Hp & Hc) Hnr.
  destruct (sample_without_edge ratio_ ar s flags Hnr) as (f & tf & Heq).
  cbv zeta. rewrite Heq. rewrite count_sample_eq. fold x. fold p.
  assert (Hlen : Z.of_nat (length (history_ x)) = kHistorySize)
    by (rewrite Hh; unfold kHistorySize; reflexivity).
  unfold current_pulse at 1 2 3.
  destruct x. unfold set_frequency_, set_target_frequency_, set_history_.
  extractor_fields.
  rewrite !at_put_eq by lia.
  repeat split; try reflexivity.
  - destruct (flag_set flags GATE_FLAG_FALLING); destruct p; reflexivity.
  - destruct (flag_set flags GATE_FLAG_FALLING); destruct p; reflexivity.
  - destruct (flag_set flags GATE_FLAG_FALLING); destruct p; reflexivity.
  - intros i Hi. apply at_put_ne. auto.
Qed.

(** X7: the on-duration of a pulse is taken at its falling edge.  A
    sample without a rising edge counts one more sample of the current
    pulse; if it carries a falling edge the on-duration becomes the
    number of samples counted before it, otherwise the on-duration is
    kept.  The width of the pulse is only written at the next rising
    edge. *)
Theorem falling_edge_sets_on_duration ratio_ ar s flags :
  let x := rl_obj s in
  let p := current_pulse x in
  extractor_wf x ->
  0 <= total_duration p < 2 ^ 32 - 1 ->
  no_rising flags ->
  let p' := current_pulse (rl_obj (fst (sample ratio_ ar s flags))) in
  total_duration p' = total_duration p + 1 /\
  on_duration p'
  = (if flag_set flags GATE_FLAG_FALLING then total_duration p
     else on_duration p) /\
  pulse_width p' = pulse_width p.
Proof.
  intros x p Hwf Ht Hnr.
  destruct (quiet_sample ratio_ ar s flags Hwf Hnr)
    as (_ & _ & _ & _ & _ & H1 & H2 & H3 & _).
  fold x in H1, H2, H3. fold p in H1, H2, H3.
  cbv zeta. rewrite H1, H2, H3.
  rewrite (Z.mod_small (total_duration p + 1)) by lia.
  split; [reflexivity|]. split; [|reflexivity].
  destruct (flag_set flags GATE_FLAG_FALLING); [|reflexivity].
  rewrite Z.mod_small by lia. lia.
Qed.

Lemma quiet_loop ratio_ ar flags : forall s,
  let x := rl_obj s in
  extractor_wf x ->
  0 <= total_duration (current_pulse x) < 2 ^ 32 ->
  Forall no_rising flags ->
  let x' := rl_obj (fst (for_each_sample (sample ratio_ ar) s flags)) in
  extractor_wf x' /\
  current_pulse_ x' = current_pulse_ x /\
  audio_rate_ x' = audio_rate_ x /\
  reset_interval_ x' = reset_interval_ x /\
  reset_counter_ x' = reset_counter_ x /\
  f_ratio_ x' = f_ratio_ x /\
  total_duration (current_pulse x')
  = (total_duration (current_pulse x) + Z.of_nat (length flags)) mod 2 ^ 32 /\
  forall i, i <> current_pulse_ x ->
    at_ Pulse_zero (history_ x') i = at_ Pulse_zero (history_ x) i.
Proof.
  induction flags as [|g rest IH]; intros s x Hwf Ht Hall.
  - cbn [for_each_sample fst length]. fold x.
    rewrite Z.add_0_r, Z.mod_small by exact Ht.
    split; [exact Hwf|]. repeat split; reflexivity.
  - inversion Hall as [|g' rest' Hg Hrest]; subst.
    cbn [for_each_sample].
    destruct (quiet_sample ratio_ ar s g Hwf Hg)
      as (H1 & H2 & H3 & H4 & H5 & H6 & _ & _ & H9).
    pose proof (sample_wf ratio_ ar s g Hwf) as Hwf1.
    destruct (sample ratio_ ar s g) as [s1 b]. cbn [fst] in *.
    fold x in H1, H2, H3, H4, H5, H6, H9.
    assert (Ht1 : 0 <= total_duration (current_pulse (rl_obj s1)) < 2 ^ 32)
      by (rewrite H6; apply Z.mod_pos_bound; lia).
    specialize (IH s1 Hwf1 Ht1 Hrest).
    destruct (for_each_sample (sample ratio_ ar) s1 rest) as [s2 out].
    cbn [fst] in *.
    destruct IH as (G0 & G1 & G2 & G3 & G4 & G5 & G6 & G9).
    rewrite G1, G2, G3, G4, G5, G6, H1, H2, H3, H4, H5, H6.
    split; [exact G0|].
    repeat split; try reflexivity.
    + rewrite Zplus_mod_idemp_l. f_equal. cbn [length]. lia.
    + intros i Hi. rewrite G9 by (rewrite H1; exact Hi). apply H9, Hi.
Qed.

(** X6: a block without a rising edge only counts.  The duration of
    the current pulse grows by the number of samples of the block (as
    an unsigned 32-bit counter); the write position, the rate (audio or
    low), the reset interval, the reset counter and the ratio are the
    same after the block as before; no other slot of the history is
    written. *)
Theorem quiet_block_only_counts ratio_ gate_flags x :
  extractor_wf x ->
  0 <= total_duration (current_pulse x) < 2 ^ 32 ->
  Forall no_rising gate_flags ->
  let x' := fst (Process ratio_ gate_flags x) in
  total_duration (current_pulse x')
  = (total_duration (current_pulse x) + Z.of_nat (length gate_flags))
    mod 2 ^ 32 /\
  current_pulse_ x' = current_pulse_ x /\
  audio_rate_ x' = audio_rate_ x /\
  reset_interval_ x' = reset_interval_ x /\
  reset_counter_ x' = reset_counter_ x /\
  f_ratio_ x' = f_ratio_ x /\
  forall i, i <> current_pulse_ x ->
    at_ Pulse_zero (history_ x') i = at_ Pulse_zero (history_ x) i.
Proof.
  intros Hwf Ht Hall. unfold Process.
  set (ar := (audio_rate_period_hysteresis_ x * _)%f32).
  pose proof (quiet_loop ratio_ ar gate_flags
                (Build_RampLoop x (train_phase_ x) (max_train_phase_ x))
                Hwf Ht Hall) as H.
  destruct (for_each_sample _ _ _) as [s ramp]. cbn [fst rl_obj] in *.
  destruct H as (_ & H1 & H2 & H3 & H4 & H5 & H6 & H9).
  unfold current_pulse in *.
  destruct (rl_obj s). unfold set_train_phase_, set_max_train_phase_.
  extractor_fields. auto 10.
Qed.

Lemma sample_at_rest_any ratio_ ar s flags :
  audio_rate_ (rl_obj s) = false ->
  frequency_ (rl_obj s) = F32.zero ->
  f_ratio_ (rl_obj s) = F32.one ->
  rl_train_phase s = F32.zero ->
  rl_max_train_phase s = F32.zero ->
  flag_set flags GATE_FLAG_RISING = false ->
  flag_set flags GATE_FLAG_FALLING = false ->
  sample ratio_ ar s flags
  = (Build_RampLoop (count_sample flags (rl_obj s)) F32.zero F32.zero,
     F32.zero).
Proof.
  intros Ha Hf Hr Ht Hm Hr0 Hf0. unfold sample.
  rewrite Hr0, Ha. unfold low_rate_sample.
  rewrite Hf0. cbn [andb]. rewrite Ht, Hm.
  change (frequency_ (count_sample flags (rl_obj s)))
    with (frequency_ (rl_obj s)).
  change (f_ratio_ (count_sample flags (rl_obj s)))
    with (f_ratio_ (rl_obj s)).
  rewrite Hf, Hr.
  replace (F32.zero + F32.zero)%f32 with F32.zero by reflexivity.
  replace (F32.zero >=? F32.zero)%f32 with true by reflexivity.
  replace (F32.zero * F32.one - F32.of_Z (F32.to_int32 (F32.zero * F32.one)))%f32
    with F32.zero by (vm_compute; reflexivity).
  reflexivity.
Qed.

Lemma rest_loop ratio_ ar flags : forall s,
  audio_rate_ (rl_obj s) = false ->
  frequency_ (rl_obj s) = F32.zero ->
  f_ratio_ (rl_obj s) = F32.one ->
  rl_train_phase s = F32.zero ->
  rl_max_train_phase s = F32.zero ->
  Forall (fun g => flag_set g GATE_FLAG_RISING = false /\
                   flag_set g GATE_FLAG_FALLING = false) flags ->
  let r := for_each_sample (sample ratio_ ar) s flags in
  snd r = repeat F32.zero (length flags) /\
  frequency_ (rl_obj (fst r)) = F32.zero /\
  rl_train_phase (fst r) = F32.zero /\
  rl_max_train_phase (fst r) = F32.zero.
Proof.
  induction flags as [|g rest IH]; intros s Ha Hf Hr Ht Hm Hall.
  - cbn. auto.
  - inversion Hall as [|g' rest' [Hg1 Hg2] Hrest]; subst.
    cbn [for_each_sample].
    rewrite (sample_at_rest_any ratio_ ar s g Ha Hf Hr Ht Hm Hg1 Hg2).
    specialize (IH (Build_RampLoop (count_sample g (rl_obj s)) F32.zero F32.zero)).
    cbn [rl_obj rl_train_phase rl_max_train_phase] in IH.
    specialize (IH Ha Hf Hr eq_refl eq_refl Hrest).
    destruct (for_each_sample _ _ rest) as [s2 out]. cbn [fst snd] in *.
    destruct IH as (-> & I2 & I3 & I4).
    cbn [length repeat]. auto.
Qed.

(** X9: no edge, no ramp.  An extractor at rest (low rate, frequency
    0, ratio 1, train phase and its ceiling at 0, as after [Init] of
    zeroed storage) that is fed a block without a rising or a falling
    edge writes a ramp that is 0 at every sample, and is at rest after
    the block, the gate being low or held high. *)
Theorem no_edge_no_ramp ratio_ gate_flags x :
  audio_rate_ x = false ->
  frequency_ x = F32.zero ->
  f_ratio_ x = F32.one ->
  train_phase_ x = F32.zero ->
  max_train_phase_ x = F32.zero ->
  Forall (fun g => flag_set g GATE_FLAG_RISING = false /\
                   flag_set g GATE_FLAG_FALLING = false) gate_flags ->
  let r := Process ratio_ gate_flags x in
  snd r = repeat F32.zero (length gate_flags) /\
  frequency_ (fst r) = F32.zero /\
  train_phase_ (fst r) = F32.zero /\
  max_train_phase_ (fst r) = F32.zero.
Proof.
  intros Ha Hf Hr Ht Hm Hall. unfold Process.
  set (ar := (audio_rate_period_hysteresis_ x * _)%f32).
  pose proof (rest_loop ratio_ ar gate_flags
                (Build_RampLoop x (train_phase_ x) (max_train_phase_ x))
                Ha Hf Hr Ht Hm Hall) as H.
  destruct (for_each_sample _ _ _) as [s ramp]. cbn [fst snd] in *.
  destruct H as (H1 & H2 & H3 & H4).
  destruct (rl_obj s). unfold set_train_phase_, set_max_train_phase_.
  extractor_fields. auto.
Qed.

(** The extractor of the concrete runs. *)
Lemma extractor_fresh :
  extractor_wf Runs.extractor /\
  current_pulse Runs.extractor = Build_Pulse 0 0 F32.half /\
  apw_match_count_ Runs.extractor = 0 /\
  reset_interval_ Runs.extractor = 156250.
Proof.
  unfold Runs.extractor, Init.
  split; [apply Reset_wf|]. split; [apply Reset_current_pulse|].
  split; [rewrite Reset_fields; reflexivity|].
  rewrite Reset_fields. cbv zeta. extractor_fields.
  lazy beta iota zeta delta
    [set_min_period_hysteresis_ set_min_period_ set_sample_rate_
     set_audio_rate_period_hysteresis_ set_audio_rate_period_
     set_max_frequency_ sample_rate_].
  vm_compute. reflexivity.
Qed.

Lemma Process_keeps_the_arrays_witness :
  extractor_wf Runs.extractor /\
  extractor_wf
    (fst (Process Runs.unit_ratio
            [Runs.edge; GATE_FLAG_HIGH; GATE_FLAG_FALLING] Runs.extractor)) /\
  length
    (snd (Process Runs.unit_ratio
            [Runs.edge; GATE_FLAG_HIGH; GATE_FLAG_FALLING] Runs.extractor))
  = length [Runs.edge; GATE_FLAG_HIGH; GATE_FLAG_FALLING].
Proof.
  split; [apply extractor_fresh|].
  exact (Process_keeps_the_arrays Runs.unit_ratio
           [Runs.edge; GATE_FLAG_HIGH; GATE_FLAG_FALLING] Runs.extractor
           (proj1 extractor_fresh)).
Defined.

Lemma UpdateAveragePulseWidth_counts_witness :
  0 <= apw_match_count_ Runs.extractor /\
  let x' := UpdateAveragePulseWidth kPulseWidthTolerance Runs.extractor in
  1 <= apw_match_count_ x' <= kHistorySize /\
  (apw_match_count_ x' = 1 \/
   apw_match_count_ x'
   = Z.min kHistorySize (apw_match_count_ Runs.extractor + 1)) /\
  set_average_pulse_width_ (average_pulse_width_ Runs.extractor)
    (set_apw_match_count_ (apw_match_count_ Runs.extractor) x')
  = Runs.extractor.
Proof.
  assert (H : 0 <= apw_match_count_ Runs.extractor).
  { destruct extractor_fresh as (_ & _ & -> & _). lia. }
  split; [exact H|].
  exact (UpdateAveragePulseWidth_counts kPulseWidthTolerance Runs.extractor H).
Defined.

Lemma PredictNextPeriod_pattern_entries_witness :
  (extractor_wf Runs.extractor /\ 0 <= 3 <= kMaxPatternPeriod) /\
  let r := PredictNextPeriod Runs.extractor in
  at_ F32.zero (predicted_period_ (snd r)) 3
  = if 3 =? 0 then
      ONE_POLE (at_ F32.zero (predicted_period_ Runs.extractor) 0)
        (F32.of_Z (total_duration (current_pulse Runs.extractor))) F32.half
    else F32.of_Z (total_duration (pulse_back Runs.extractor 3)).
Proof.
  assert (H : 0 <= 3 <= kMaxPatternPeriod) by (unfold kMaxPatternPeriod; lia).
  split; [split; [apply extractor_fresh|exact H]|].
  exact (PredictNextPeriod_pattern_entries Runs.extractor 3
           (proj1 extractor_fresh) H).
Defined.

Lemma fresh_pulse_is_short :
  0 <= total_duration (current_pulse Runs.extractor) < 2 ^ 32 - 1 /\
  total_duration (current_pulse Runs.extractor)
  < reset_interval_ Runs.extractor.
Proof.
  destruct extractor_fresh as (_ & -> & _ & ->). cbn [total_duration]. lia.
Qed.

Lemma recorded_pulse_moves_on_witness :
  let ar := Runs.threshold in
  let s := Build_RampLoop Runs.extractor F32.zero F32.zero in
  let x := rl_obj s in
  let p := current_pulse x in
  let period := F32.of_Z (total_duration p) in
  (extractor_wf x /\ total_duration p < reset_interval_ x) /\
  let x' := rl_obj (rising Runs.unit_ratio ar s) in
  current_pulse_ x' = (current_pulse_ x + 1) mod kHistorySize /\
  on_duration (current_pulse x') = 0 /\
  total_duration (current_pulse x') = 0 /\
  on_duration (at_ Pulse_zero (history_ x') (current_pulse_ x))
  = on_duration p /\
  total_duration (at_ Pulse_zero (history_ x') (current_pulse_ x))
  = total_duration p /\
  (forall i, i <> current_pulse_ x -> i <> current_pulse_ x' ->
     at_ Pulse_zero (history_ x') i = at_ Pulse_zero (history_ x) i) /\
  audio_rate_ x' = ((period <=? ar) && (period >? F32.zero))%f32.
Proof.
  split; [split; [apply extractor_fresh|apply fresh_pulse_is_short]|].
  exact (recorded_pulse_moves_on Runs.unit_ratio Runs.threshold
           (Build_RampLoop Runs.extractor F32.zero F32.zero)
           (proj1 extractor_fresh) (proj2 fresh_pulse_is_short)).
Defined.

Lemma falling_edge_sets_on_duration_witness :
  let s := Build_RampLoop Runs.extractor F32.zero F32.zero in
  let x := rl_obj s in
  let p := current_pulse x in
  (extractor_wf x /\ 0 <= total_duration p < 2 ^ 32 - 1 /\
   no_rising GATE_FLAG_FALLING) /\
  let p' :=
    current_pulse
      (rl_obj (fst (sample Runs.unit_ratio Runs.threshold s GATE_FLAG_FALLING)))
  in
  total_duration p' = total_duration p + 1 /\
  on_duration p'
  = (if flag_set GATE_FLAG_FALLING GATE_FLAG_FALLING then total_duration p
     else on_duration p) /\
  pulse_width p' = pulse_width p.
Proof.
  assert (H : no_rising GATE_FLAG_FALLING) by reflexivity.
  split; [split; [apply extractor_fresh|split;
                  [apply fresh_pulse_is_short|exact H]]|].
  exact (falling_edge_sets_on_duration Runs.unit_ratio Runs.threshold
           (Build_RampLoop Runs.extractor F32.zero F32.zero) GATE_FLAG_FALLING
           (proj1 extractor_fresh) (proj1 fresh_pulse_is_short) H).
Defined.

Lemma quiet_flags :
  Forall no_rising [GATE_FLAG_HIGH; GATE_FLAG_FALLING; GATE_FLAG_LOW].
Proof. repeat constructor. Qed.

Lemma fresh_pulse_in_range :
  0 <= total_duration (current_pulse Runs.extractor) < 2 ^ 32.
Proof. pose proof (proj1 fresh_pulse_is_short). lia. Qed.

Lemma quiet_block_only_counts_witness :
  let gate_flags := [GATE_FLAG_HIGH; GATE_FLAG_FALLING; GATE_FLAG_LOW] in
  let x := Runs.extractor in
  (extractor_wf x /\
   0 <= total_duration (current_pulse x) < 2 ^ 32 /\
   Forall no_rising gate_flags) /\
  let x' := fst (Process Runs.unit_ratio gate_flags x) in
  total_duration (current_pulse x')
  = (total_duration (current_pulse x) + Z.of_nat (length gate_flags))
    mod 2 ^ 32 /\
  current_pulse_ x' = current_pulse_ x /\
  audio_rate_ x' = audio_rate_ x /\
  reset_interval_ x' = reset_interval_ x /\
  reset_counter_ x' = reset_counter_ x /\
  f_ratio_ x' = f_ratio_ x /\
  forall i, i <> current_pulse_ x ->
    at_ Pulse_zero (history_ x') i = at_ Pulse_zero (history_ x) i.
Proof.
  split; [split; [apply extractor_fresh|split;
                  [exact fresh_pulse_in_range|exact quiet_flags]]|].
  exact (quiet_block_only_counts Runs.unit_ratio
           [GATE_FLAG_HIGH; GATE_FLAG_FALLING; GATE_FLAG_LOW] Runs.extractor
           (proj1 extractor_fresh) fresh_pulse_in_range quiet_flags).
Defined.

Lemma held_gate :
  Forall (fun g => flag_set g GATE_FLAG_RISING = false /\
                   flag_set g GATE_FLAG_FALLING = false)
    [GATE_FLAG_LOW; GATE_FLAG_HIGH; GATE_FLAG_HIGH].
Proof. repeat constructor. Qed.

Lemma no_edge_no_ramp_witness :
  let gate_flags := [GATE_FLAG_LOW; GATE_FLAG_HIGH; GATE_FLAG_HIGH] in
  let x := Runs.extractor in
  (audio_rate_ x = false /\
   frequency_ x = F32.zero /\
   f_ratio_ x = F32.one /\
   train_phase_ x = F32.zero /\
   max_train_phase_ x = F32.zero /\
   Forall (fun g => flag_set g GATE_FLAG_RISING = false /\
                    flag_set g GATE_FLAG_FALLING = false) gate_flags) /\
  let r := Process Runs.unit_ratio gate_flags x in
  snd r = repeat F32.zero (length gate_flags) /\
  frequency_ (fst r) = F32.zero /\
  train_phase_ (fst r) = F32.zero /\
  max_train_phase_ (fst r) = F32.zero.
Proof.
  destruct extractor_at_rest as (Ha & Hf & Hr & Ht & Hm & _ & _).
  split; [repeat (split; [assumption|]); exact held_gate|].
  exact (no_edge_no_ramp Runs.unit_ratio
           [GATE_FLAG_LOW; GATE_FLAG_HIGH; GATE_FLAG_HIGH] Runs.extractor
           Ha Hf Hr Ht Hm held_gate).
Defined.

End Extractor.

(** * The single-segment kernels *)

Lemma for_each_sample_pointwise {S A B : Type} (step : S -> A -> S * B)
    (P : S -> Prop) (R : A -> B -> Prop) :
  (forall s a, P s -> P (fst (step s a)) /\ R a (snd (step s a))) ->
  forall input s, P s ->
    P (fst (for_each_sample step s input)) /\
    Forall2 R input (snd (for_each_sample step s input)).
Proof.
  intros Hstep. induction input as [|a rest IH]; intros s Hs.
  - split; [exact Hs|constructor].
  - cbn [for_each_sample].
    destruct (Hstep s a Hs) as [H1 H2].
    destruct (step s a) as [s1 b]. cbn [fst snd] in *.
    destruct (IH s1 H1) as [H3 H4].
    destruct (for_each_sample step s1 rest) as [s2 out]. cbn [fst snd] in *.
    split; [exact H3|constructor; assumption].
Qed.

Lemma Forall2_map_eq {A B C : Type} (f : B -> C) (g : A -> C) l l' :
  Forall2 (fun a b => f b = g a) l l' -> map f l' = map g l.
Proof.
  induction 1 as [|a b l l' H _ IH]; cbn; [reflexivity|]. now rewrite H, IH.
Qed.

(** The image of the outputs of a loop under [f], when a turn decides
    it from the input alone. *)
Lemma for_each_sample_map {S A B C : Type} (step : S -> A -> S * B)
    (f : B -> C) (g : A -> C) :
  (forall s a, f (snd (step s a)) = g a) ->
  forall input s, map f (snd (for_each_sample step s input)) = map g input.
Proof.
  intros H input s. apply Forall2_map_eq.
  apply (for_each_sample_pointwise step (fun _ => True)
           (fun a b => f b = g a)); [|exact I].
  intros s1 a _. split; [exact I|apply H].
Qed.

Section Kernels.

Context {E : Env}.
Implicit Types x : @SegmentGenerator E.

Ltac if_cases :=
  repeat match goal with
         | |- context [if ?b then _ else _] => destruct b
         end.

Ltac run_loop :=
  match goal with
  | |- context [for_each_sample ?step ?s ?l] =>
      let H := fresh "Hlen" in
      pose proof (for_each_sample_length step l s) as H;
      destruct (for_each_sample step s l) as [? ?]
  end.

Lemma ShapeLFO_length shape out bipolar :
  length (@ShapeLFO E shape out bipolar) = length out.
Proof. unfold ShapeLFO. apply length_map. Qed.

Lemma RampProcess_length r gate_flags ex :
  length (snd (RampProcess.Process r gate_flags ex)) = length gate_flags.
Proof.
  unfold RampProcess.Process. run_loop. cbn [snd] in *. assumption.
Qed.

Lemma ramp_output_phase ramp : map out_phase (map ramp_output ramp) = ramp.
Proof.
  induction ramp as [|p ramp IH]; [reflexivity|].
  cbn [map ramp_output out_phase]. now rewrite IH.
Qed.

Lemma take_last_segment_frame out x :
  set_active_segment_ (active_segment_ x) (take_last_segment out x) = x.
Proof.
  unfold take_last_segment. destruct (rev out); destruct x; reflexivity.
Qed.

(** X10: the tap LFO and its scratch buffer.  The kernel has no result
    for a block of more than twelve samples, the room in [ramp], and has
    one for a block of one to twelve samples.  Then the phases it emits
    are the ramp that the ramp extractor wrote for the block, one per
    sample, from a ratio the kernel picked; the ramp extractor is left
    as its [Process] left it; and besides the ramp extractor, the
    division quantizer and the active segment the kernel writes nothing
    of the generator: [value_], [lp_], [phase_] and the segments are as
    they were. *)
Theorem ProcessTapLFO_fits_its_buffer gate_flags x :
  (ramp_capacity < size_of gate_flags -> ProcessTapLFO gate_flags x = None) /\
  (1 <= size_of gate_flags <= ramp_capacity ->
   exists r, ProcessTapLFO gate_flags x = Some r) /\
  forall x' out, ProcessTapLFO gate_flags x = Some (x', out) ->
    (exists r : Ratio,
       ramp_extractor_ x'
       = fst (RampProcess.Process r gate_flags (ramp_extractor_ x)) /\
       map out_phase out
       = snd (RampProcess.Process r gate_flags (ramp_extractor_ x))) /\
    length out = length gate_flags /\
    set_active_segment_ (active_segment_ x)
      (set_ramp_extractor_ (ramp_extractor_ x)
         (set_ramp_division_quantizer_ (ramp_division_quantizer_ x) x'))
    = x.
Proof.
  unfold ProcessTapLFO.
  set (ratio_ :=
         match Segment.range (segment_at x 0) with
         | segment.RANGE_DEFAULT => _
         | segment.RANGE_SLOW => _
         | segment.RANGE_FAST => _
         end).
  destruct ratio_ as [r qz].
  destruct (Z.ltb_spec ramp_capacity (size_of gate_flags)) as [Hlt|Hge].
  - split; [reflexivity|]. split; [lia|].
    intros x' out Hc. discriminate Hc.
  - replace (ramp_extractor_ (set_ramp_division_quantizer_ qz x))
      with (ramp_extractor_ x) by (destruct x; reflexivity).
    pose proof (RampProcess_length r gate_flags (ramp_extractor_ x)) as Hlen.
    destruct (RampProcess.Process r gate_flags (ramp_extractor_ x))
      as [ex ramp] eqn:HP.
    cbn [fst snd] in *. cbv beta iota zeta.
    split; [lia|]. split; [intros _; eexists; reflexivity|].
    intros x' out [= <- <-].
    split; [exists r; rewrite HP; cbn [fst snd]; split|split].
    + unfold take_last_segment. destruct (rev _); destruct x; reflexivity.
    + rewrite ShapeLFO_keeps_phase. apply ramp_output_phase.
    + rewrite ShapeLFO_length, length_map. exact Hlen.
    + set (shaped := ShapeLFO _ _ _). clearbody shaped.
      set (y := set_ramp_extractor_ ex (set_ramp_division_quantizer_ qz x)).
      assert (Hy : set_ramp_extractor_ (ramp_extractor_ x)
                     (set_ramp_division_quantizer_
                        (ramp_division_quantizer_ x) y) = x)
        by (subst y; destruct x; reflexivity).
      assert (Ha : active_segment_ y = active_segment_ x)
        by (subst y; destruct x; reflexivity).
      clearbody y.
      rewrite <- Hy at 4. rewrite <- Ha.
      rewrite <- (take_last_segment_frame shaped y) at 2.
      unfold take_last_segment. destruct (rev shaped); destruct y; reflexivity.
Qed.

Ltac generator_fields :=
  cbn [process_fn_ multimode rng_state_ phase_ aux_ zero_ half_ one_ start_
       value_ lp_ primary_ monitored_segment_ active_segment_ retrig_delay_
       segments_ parameters_ ramp_extractor_ ramp_division_quantizer_
       delay_line_ gate_delay_ num_segments_
       set_process_fn_ set_multimode set_rng_state_ set_phase_ set_aux_
       set_zero_ set_half_ set_one_ set_start_ set_value_ set_lp_ set_primary_
       set_monitored_segment_ set_active_segment_ set_retrig_delay_
       set_segments_ set_parameters_ set_ramp_extractor_
       set_ramp_division_quantizer_ set_delay_line_ set_gate_delay_
       set_num_segments_
       ml_obj ml_phase ml_start ml_lp ml_value
       out_value out_phase out_segment emit follow_gate
       fst snd] in *.

Lemma at_repeat {A : Type} (d a : A) k i :
  at_ d (repeat a k) i = a \/ at_ d (repeat a k) i = d.
Proof.
  unfold at_. destruct (i <? 0); [right; reflexivity|].
  generalize (Z.to_nat i). induction k as [|k IH]; intros [|n]; cbn; auto.
Qed.

(** After [Init] every segment, and the default one, sends every
    transition to segment 0. *)
Lemma Init_transitions settings s x i :
  let seg := segment_at (Init settings s x) i in
  Segment.if_rising seg = 0 /\
  Segment.if_falling seg = 0 /\
  Segment.if_complete seg = 0.
Proof.
  unfold Init, segment_at.
  destruct (Random_GetSample E _) as [sample rng].
  destruct (Random_GetFloat E rng) as [f rng'].
  generator_fields.
  match goal with
  | |- context [at_ ?d (repeat ?a ?k) i] =>
      destruct (at_repeat d a k i) as [-> | ->]
  end; cbn; auto.
Qed.

Lemma same_setup_wiring x y i :
  same_setup x y ->
  wiring_of (segment_at y i) = wiring_of (segment_at x i).
Proof.
  intros [Hg _]. unfold segment_at, at_. destruct (i <? 0); [reflexivity|].
  rewrite <- !(map_nth wiring_of). unfold graph in Hg. rewrite Hg.
  reflexivity.
Qed.

Lemma home_sample (s : @MultiLoop E) g :
  let seg := segment_at (ml_obj s) 0 in
  active_segment_ (ml_obj s) = 0 ->
  Segment.if_rising seg = 0 ->
  Segment.if_falling seg = 0 ->
  Segment.if_complete seg = 0 ->
  let r := ProcessMultiSegment_sample s g in
  active_segment_ (ml_obj (fst r)) = 0 /\ out_segment (snd r) = 0.
Proof.
  intros seg Ha H1 H2 H3. cbv zeta.
  unfold ProcessMultiSegment_sample. rewrite Ha. fold seg.
  set (complete := (_ >=? F32.one)%f32).
  assert (Hgo : go_to_segment_of g seg complete = 0 \/
                go_to_segment_of g seg complete = -1).
  { unfold go_to_segment_of. rewrite H1, H2, H3.
    destruct (_ && _); [auto|]. destruct (flag_set _ _); [auto|].
    destruct complete; auto. }
  destruct Hgo as [-> | ->].
  - change (0 =? -1) with false. cbv iota.
    unfold enter_segment. generator_fields. auto.
  - change (-1 =? -1) with true. cbv iota. generator_fields. auto.
Qed.

(** X11: a generator that was initialized and not configured stays on
    segment 0.  [Init] points the three transitions of every segment at
    segment 0, so the multi-segment engine emits the segment index 0 at
    every sample of every block, whatever the gate does, and is on
    segment 0 after the block. *)
Theorem initialized_generator_stays_on_segment_0 settings s x gate_flags :
  let r := ProcessMultiSegment gate_flags (Init settings s x) in
  process_fn_ (Init settings s x) = ProcessMultiSegment_fn /\
  Forall (fun o => out_segment o = 0) (snd r) /\
  active_segment_ (fst r) = 0.
Proof.
  cbv zeta. split.
  { unfold Init. destruct (Random_GetSample E _) as [sample rng].
    destruct (Random_GetFloat E rng) as [f rng']. reflexivity. }
  set (x0 := Init settings s x).
  assert (Ha0 : active_segment_ x0 = 0).
  { unfold x0, Init. destruct (Random_GetSample E _) as [sample rng].
    destruct (Random_GetFloat E rng) as [f rng']. reflexivity. }
  destruct (Init_transitions settings s x 0) as (T1 & T2 & T3).
  fold x0 in T1, T2, T3.
  unfold ProcessMultiSegment.
  pose proof (for_each_sample_invariant ProcessMultiSegment_sample
                (fun l => active_segment_ (ml_obj l) = 0 /\
                          same_setup x0 (ml_obj l))
                (fun o => out_segment o = 0)) as H.
  specialize (H ltac:(
    intros l g [Ha Hs];
    pose proof (same_setup_wiring _ _ 0 Hs) as Hw;
    assert (W1 : Segment.if_rising (segment_at (ml_obj l) 0) = 0)
      by (change (w_if_rising (wiring_of (segment_at (ml_obj l) 0)) = 0);
          rewrite Hw; exact T1);
    assert (W2 : Segment.if_falling (segment_at (ml_obj l) 0) = 0)
      by (change (w_if_falling (wiring_of (segment_at (ml_obj l) 0)) = 0);
          rewrite Hw; exact T2);
    assert (W3 : Segment.if_complete (segment_at (ml_obj l) 0) = 0)
      by (change (w_if_complete (wiring_of (segment_at (ml_obj l) 0)) = 0);
          rewrite Hw; exact T3);
    destruct (home_sample l g Ha W1 W2 W3) as [R1 R2];
    split; [split; [exact R1|]|exact R2];
    eapply same_setup_trans;
      [exact Hs|apply ProcessMultiSegment_sample_setup])).
  specialize (H gate_flags
                (Build_MultiLoop x0 (phase_ x0) (start_ x0) (lp_ x0) (value_ x0))
                (conj Ha0 (same_setup_refl x0))).
  destruct (for_each_sample _ _ _) as [l out]. cbn [fst snd] in *.
  destruct H as [[Ha _] Hout]. split; [exact Hout|].
  generator_fields. exact Ha.
Qed.

(** One sample of the decay envelope keeps the phase in the unit
    interval and the segment in {0, 1}. *)
Lemma ProcessDecayEnvelope_sample_range frequency x g :
  F32.nonneg frequency ->
  phase_in_range (phase_ x) /\ binary_segment (active_segment_ x) ->
  let r := ProcessDecayEnvelope_sample frequency x g in
  (phase_in_range (phase_ (fst r)) /\ binary_segment (active_segment_ (fst r))) /\
  (phase_in_range (out_phase (snd r)) /\ binary_segment (out_segment (snd r))).
Proof.
  intros Hf [Hp Hs]. cbv zeta. unfold ProcessDecayEnvelope_sample.
  set (x1 := if _ && _ then _ else x).
  assert (H1 : F32.nonneg (phase_ x1) /\ binary_segment (active_segment_ x1)).
  { subst x1. destruct (_ && _); generator_fields.
    - split; [exact I|left; reflexivity].
    - split; [apply F32Facts.zero_le_iff, Hp|exact Hs]. }
  clearbody x1. destruct H1 as [N1 S1].
  generator_fields.
  pose proof (F32Facts.add_nonneg _ _ N1 Hf) as N2.
  pose proof (clamped_phase_in_range _ N2) as C.
  destruct (phase_ x1 + frequency >=? F32.one)%f32; generator_fields.
  - repeat split; try apply C; right; reflexivity.
  - repeat split; try apply C; exact S1.
Qed.

(** X12: the decay envelope keeps its phase in the unit interval.  When
    the frequency table holds non-negative numbers and the generator
    starts with its phase in [0, 1] and on segment 0 or 1, every sample
    of [ProcessDecayEnvelope] has its phase in [0, 1] and its segment in
    {0, 1}, and so has the generator after the block. *)
Theorem ProcessDecayEnvelope_in_range gate_flags x :
  env_frequencies_nonneg E ->
  phase_in_range (phase_ x) ->
  binary_segment (active_segment_ x) ->
  let r := ProcessDecayEnvelope gate_flags x in
  Forall (fun o => phase_in_range (out_phase o) /\
                   binary_segment (out_segment o)) (snd r) /\
  phase_in_range (phase_ (fst r)) /\
  binary_segment (active_segment_ (fst r)).
Proof.
  intros HE Hp Hs. cbv zeta. unfold ProcessDecayEnvelope.
  set (f := RateToFrequency _).
  assert (Hf : F32.nonneg f) by apply RateToFrequency_nonneg, HE.
  destruct (for_each_sample_invariant (ProcessDecayEnvelope_sample f)
              (fun y => phase_in_range (phase_ y) /\
                        binary_segment (active_segment_ y))
              (fun o => phase_in_range (out_phase o) /\
                        binary_segment (out_segment o))
              (fun y g H => ProcessDecayEnvelope_sample_range f y g Hf H)
              gate_flags x (conj Hp Hs)) as [[H1 H2] H3].
  auto.
Qed.

(** * The timed pulse *)

Lemma ProcessTimedPulseGenerator_sample_quiet frequency x primary g :
  let r := ProcessTimedPulseGenerator_sample frequency (x, primary) g in
  out_segment (snd r) = 0 \/ out_value (snd r) = F32.zero.
Proof.
  cbv zeta. unfold ProcessTimedPulseGenerator_sample.
  set (x1 := TimedPulse_rising g x).
  set (x2 := if negb (retrig_delay_ x1 =? 0) then _ else x1).
  set (x3 := set_phase_ _ x2).
  set (x4 := if (phase_ x3 >=? F32.one)%f32 then _ else x3).
  unfold Next. generator_fields.
  destruct (Z.eqb_spec (active_segment_ x4) 0) as [H0|H0].
  - left. exact H0.
  - right. reflexivity.
Qed.

(** X13: the timed pulse is silent outside the pulse.  Every sample of
    [ProcessTimedPulseGenerator] that is not on segment 0 has the value
    0: the primary value only reaches the output while the pulse
    runs. *)
Theorem timed_pulse_is_silent_outside_the_pulse gate_flags x :
  Forall (fun o => out_segment o = 0 \/ out_value o = F32.zero)
    (snd (ProcessTimedPulseGenerator gate_flags x)).
Proof.
  unfold ProcessTimedPulseGenerator.
  set (f := RateToFrequency _). set (p := ParameterInterpolator_make _ _ _).
  destruct (for_each_sample_invariant (ProcessTimedPulseGenerator_sample f)
              (fun _ => True)
              (fun o => out_segment o = 0 \/ out_value o = F32.zero)
              ltac:(intros [y q] g _; split;
                    [exact I|apply ProcessTimedPulseGenerator_sample_quiet])
              gate_flags (x, p) I) as [_ H].
  destruct (for_each_sample _ _ _) as [[y q] out]. exact H.
Qed.

Lemma ProcessTimedPulseGenerator_sample_range frequency x primary g :
  F32.nonneg frequency ->
  phase_in_range (phase_ x) /\ 0 <= retrig_delay_ x <= kRetrigDelaySamples ->
  let r := ProcessTimedPulseGenerator_sample frequency (x, primary) g in
  (phase_in_range (phase_ (fst (fst r))) /\
   0 <= retrig_delay_ (fst (fst r)) <= kRetrigDelaySamples) /\
  phase_in_range (out_phase (snd r)).
Proof.
  intros Hf [Hp Hd]. cbv zeta. unfold ProcessTimedPulseGenerator_sample.
  set (x1 := TimedPulse_rising g x).
  assert (H1 : F32.nonneg (phase_ x1) /\
               0 <= retrig_delay_ x1 <= kRetrigDelaySamples).
  { subst x1. unfold TimedPulse_rising.
    destruct (_ && _); generator_fields.
    - split; [exact I|]. unfold kRetrigDelaySamples.
      destruct (active_segment_ x =? 0); lia.
    - split; [apply F32Facts.zero_le_iff, Hp|exact Hd]. }
  clearbody x1. destruct H1 as [N1 D1].
  set (x2 := if negb (retrig_delay_ x1 =? 0) then _ else x1).
  assert (H2 : phase_ x2 = phase_ x1 /\
               0 <= retrig_delay_ x2 <= kRetrigDelaySamples).
  { subst x2. destruct (Z.eqb_spec (retrig_delay_ x1) 0); cbn [negb];
      generator_fields; split; try reflexivity; lia. }
  clearbody x2. destruct H2 as [P2 D2].
  unfold Next. generator_fields. rewrite P2.
  pose proof (F32Facts.add_nonneg _ _ N1 Hf) as N2.
  pose proof (clamped_phase_in_range _ N2) as C.
  destruct (phase_ x1 + frequency >=? F32.one)%f32; generator_fields;
    repeat split; try apply C; lia.
Qed.

(** X14: the timed pulse keeps its counters in range.  With a
    non-negative frequency table, a generator whose phase is in [0, 1]
    and whose disarm counter is between 0 and [kRetrigDelaySamples]
    keeps both there across [ProcessTimedPulseGenerator], and every
    sample has its phase in [0, 1]. *)
Theorem ProcessTimedPulseGenerator_in_range gate_flags x :
  env_frequencies_nonneg E ->
  phase_in_range (phase_ x) ->
  0 <= retrig_delay_ x <= kRetrigDelaySamples ->
  let r := ProcessTimedPulseGenerator gate_flags x in
  Forall (fun o => phase_in_range (out_phase o)) (snd r) /\
  phase_in_range (phase_ (fst r)) /\
  0 <= retrig_delay_ (fst r) <= kRetrigDelaySamples.
Proof.
  intros HE Hp Hd. cbv zeta. unfold ProcessTimedPulseGenerator.
  set (f := RateToFrequency _). set (p := ParameterInterpolator_make _ _ _).
  assert (Hf : F32.nonneg f) by apply RateToFrequency_nonneg, HE.
  destruct (for_each_sample_invariant (ProcessTimedPulseGenerator_sample f)
              (fun st => phase_in_range (phase_ (fst st)) /\
                         0 <= retrig_delay_ (fst st) <= kRetrigDelaySamples)
              (fun o => phase_in_range (out_phase o))
              ltac:(intros [y q] g H;
                    exact (ProcessTimedPulseGenerator_sample_range f y q g Hf H))
              gate_flags (x, p) (conj Hp Hd)) as [[H1 H2] H3].
  destruct (for_each_sample _ _ _) as [[y q] out].
  generator_fields. auto.
Qed.

(** * Kernels that follow the gate *)

Lemma interpolated_map {A C : Type}
    (step : @SegmentGenerator E * ParameterInterpolator -> A ->
            @SegmentGenerator E * ParameterInterpolator * Output)
    (f : Output -> C) (g : A -> C) input x primary :
  (forall st a, f (snd (step st a)) = g a) ->
  map f (snd (let '(y, p, out) := for_each_sample step (x, primary) input in
              (set_primary_ (pi_value p) y, out)))
  = map g input.
Proof.
  intros H.
  pose proof (for_each_sample_map step f g H input (x, primary)) as Hm.
  destruct (for_each_sample step (x, primary) input) as [[y p] out].
  exact Hm.
Qed.

(** X16: five kernels report the gate as their segment.  At every
    sample of the gate generator, of sample-and-hold, of
    track-and-hold, of the Turing kernel and of the logistic kernel the
    segment index is 0 when the gate is high and 1 otherwise, and the
    phase is 0.5. *)
Theorem gate_following_kernels gate_flags x :
  let follows out :=
    map out_segment out = map gate_segment gate_flags /\
    map out_phase out = map (fun _ => F32.half) gate_flags in
  follows (snd (ProcessGateGenerator gate_flags x)) /\
  follows (snd (ProcessSampleAndHold gate_flags x)) /\
  follows (snd (ProcessTrackAndHold gate_flags x)) /\
  follows (snd (ProcessTuring gate_flags x)) /\
  follows (snd (ProcessLogistic gate_flags x)).
Proof.
  cbv zeta.
  split; [|split; [|split; [|split]]].
  - unfold ProcessGateGenerator.
    split; apply interpolated_map; intros [y q] g;
      unfold ProcessGateGenerator_sample, Next; reflexivity.
  - unfold ProcessSampleAndHold, hold_kernel.
    split; apply interpolated_map; intros [y q] g;
      unfold hold_sample, Next; generator_fields;
      unfold gate_segment; if_cases; reflexivity.
  - unfold ProcessTrackAndHold, hold_kernel.
    split; apply interpolated_map; intros [y q] g;
      unfold hold_sample, Next; generator_fields;
      unfold gate_segment; if_cases; reflexivity.
  - unfold ProcessTuring.
    split; apply interpolated_map; intros [y q] g;
      unfold ProcessTuring_sample, Next, gate_segment; generator_fields;
      if_cases; reflexivity.
  - unfold ProcessLogistic.
    split; apply for_each_sample_map; intros y g;
      unfold ProcessLogistic_sample, gate_segment; generator_fields;
      if_cases; reflexivity.
Qed.

(** X17: the gate generator is silent while the gate is low: at every
    sample whose gate is not high the value is 0, whatever the primary
    parameter and the state of the generator. *)
Theorem gate_generator_is_silent_when_low gate_flags x :
  Forall2 (fun g o => flag_set g GATE_FLAG_HIGH = true \/
                      out_value o = F32.zero)
    gate_flags (snd (ProcessGateGenerator gate_flags x)).
Proof.
  unfold ProcessGateGenerator.
  set (p := ParameterInterpolator_make _ _ _).
  destruct (for_each_sample_pointwise ProcessGateGenerator_sample
              (fun _ => True)
              (fun g o => flag_set g GATE_FLAG_HIGH = true \/
                          out_value o = F32.zero)
              ltac:(intros [y q] g _; split; [exact I|];
                    unfold ProcessGateGenerator_sample, Next;
                    generator_fields;
                    destruct (flag_set g GATE_FLAG_HIGH); cbn; auto)
              gate_flags (x, p) I) as [_ H].
  destruct (for_each_sample _ _ _) as [[y q] out]. exact H.
Qed.

(** * Kernels that run a clock *)

(** X18: the clocked sample-and-hold and the delay report the half of
    their cycle: at every sample the segment index is 0 when the phase
    written to the output is below 0.5, and 1 otherwise. *)
Theorem clocked_kernels_report_the_half_cycle gate_flags x :
  let halves out :=
    Forall (fun o => out_segment o = half_cycle (out_phase o)) out in
  halves (snd (ProcessClockedSampleAndHold gate_flags x)) /\
  halves (snd (ProcessDelay gate_flags x)).
Proof.
  cbv zeta. split.
  - unfold ProcessClockedSampleAndHold.
    set (f := RateToFrequency _). set (p := ParameterInterpolator_make _ _ _).
    destruct (for_each_sample_invariant (ProcessClockedSampleAndHold_sample f)
                (fun _ => True)
                (fun o => out_segment o = half_cycle (out_phase o))
                ltac:(intros [y q] g _; split; [exact I|];
                      unfold ProcessClockedSampleAndHold_sample, Next;
                      generator_fields; reflexivity)
                gate_flags (x, p) I) as [_ H].
    destruct (for_each_sample _ _ _) as [[y q] out]. exact H.
  - unfold ProcessDelay.
    set (p := ParameterInterpolator_make _ _ _).
    match goal with
    | |- context [if ?c then _ else _] => destruct c
    end;
    match goal with
    | |- context [for_each_sample ?step ?s0 gate_flags] =>
        destruct (for_each_sample_invariant step
                    (fun _ => True)
                    (fun o => out_segment o = half_cycle (out_phase o))
                    ltac:(intros [y q] g _; split; [exact I|];
                          unfold ProcessDelay_sample, Next;
                          generator_fields; reflexivity)
                    gate_flags s0 I) as [_ H];
        destruct (for_each_sample step s0 gate_flags) as [[y q] out];
        exact H
    end.
Qed.

(** * The LFO shaper *)



(** * The random kernels *)





Lemma ProcessTuring_sample_quiet steps x primary g :
  no_rising g ->
  let r := ProcessTuring_sample steps (x, primary) g in
  segments_ (fst (fst r)) = segments_ x /\
  rng_state_ (fst (fst r)) = rng_state_ x /\
  value_ (fst (fst r)) = value_ x /\
  out_value (snd r) = Segment.register_value (segment_at x 0).
Proof.
  intros Hg. cbv zeta. unfold ProcessTuring_sample, Next.
  rewrite Hg. generator_fields. auto.
Qed.

(** X21: the Turing kernel only steps on a rising edge.  Across a
    block without a rising edge [ProcessTuring] leaves every segment,
    the shift register and its value among them, the random generator
    and [value_] as they were, and every sample carries the register
    value the block started with. *)
Theorem ProcessTuring_needs_an_edge gate_flags x :
  Forall no_rising gate_flags ->
  let r := ProcessTuring gate_flags x in
  segments_ (fst r) = segments_ x /\
  rng_state_ (fst r) = rng_state_ x /\
  value_ (fst r) = value_ x /\
  Forall (fun o => out_value o = Segment.register_value (segment_at x 0))
    (snd r).
Proof.
  intros Hall. cbv zeta. unfold ProcessTuring.
  set (steps := tm_steps _). set (p := ParameterInterpolator_make _ _ _).
  generalize p. clear p.
  set (v := Segment.register_value (segment_at x 0)).
  assert (Hv : forall y : @SegmentGenerator E, segments_ y = segments_ x ->
                         Segment.register_value (segment_at y 0) = v)
    by (intros y Hy; unfold v, segment_at; rewrite Hy; reflexivity).
  clearbody v.
  assert (H : forall st,
             segments_ (fst st) = segments_ x /\
             rng_state_ (fst st) = rng_state_ x /\
             value_ (fst st) = value_ x ->
             let r := for_each_sample (ProcessTuring_sample steps) st gate_flags in
             (segments_ (fst (fst r)) = segments_ x /\
              rng_state_ (fst (fst r)) = rng_state_ x /\
              value_ (fst (fst r)) = value_ x) /\
             Forall (fun o => out_value o = v) (snd r)).
  { induction Hall as [|g rest Hg _ IH]; intros st Hst.
    - cbn. split; [exact Hst|constructor].
    - cbn [for_each_sample]. destruct st as [y q].
      destruct (ProcessTuring_sample_quiet steps y q g Hg)
        as (H1 & H2 & H3 & H4).
      destruct (ProcessTuring_sample steps (y, q) g) as [[y1 q1] o].
      cbn [fst snd] in *. destruct Hst as (S1 & S2 & S3).
      specialize (IH (y1, q1)). cbn [fst] in IH.
      specialize (IH ltac:(repeat split; congruence)).
      destruct (for_each_sample _ (y1, q1) rest) as [[y2 q2] out].
      cbn [fst snd] in *. destruct IH as [IH1 IH2].
      split; [exact IH1|]. constructor; [|exact IH2].
      rewrite H4. apply Hv, S1. }
  intros p. specialize (H (x, p) ltac:(auto)).
  destruct (for_each_sample _ (x, p) gate_flags) as [[y q] out].
  cbn [fst snd] in *. destruct H as [(H1 & H2 & H3) H4].
  generator_fields. auto.
Qed.

Lemma ProcessLogistic_sample_frame coefficient r x g :
  let res := ProcessLogistic_sample coefficient r x g in
  segments_ (fst res) = segments_ x /\
  rng_state_ (fst res) = rng_state_ x /\
  (no_rising g -> value_ (fst res) = value_ x).
Proof.
  cbv zeta. unfold ProcessLogistic_sample, no_rising.
  destruct (flag_set g GATE_FLAG_RISING); generator_fields;
    repeat split; try reflexivity; intros; discriminate.
Qed.

(** X22: the logistic kernel draws from the random generator at most
    once per block, to seed [value_] when it is not positive, and never
    inside the loop; it writes no segment; and across a block without a
    rising edge [value_] is the seed or what it was. *)
Theorem ProcessLogistic_seeds_once gate_flags x :
  let seeded := (value_ x <=? F32.zero)%f32 in
  let draw := Random_GetFloat E (rng_state_ x) in
  let r := ProcessLogistic gate_flags x in
  rng_state_ (fst r) = (if seeded then snd draw else rng_state_ x) /\
  segments_ (fst r) = segments_ x /\
  (Forall no_rising gate_flags ->
   value_ (fst r) = if seeded then fst draw else value_ x).
Proof.
  cbv zeta. unfold ProcessLogistic.
  set (c := PortamentoRateToLPCoefficient _). set (r := (_ + _)%f32).
  assert (H : forall y : @SegmentGenerator E,
             let res := for_each_sample (ProcessLogistic_sample c r) y gate_flags in
             rng_state_ (fst res) = rng_state_ y /\
             segments_ (fst res) = segments_ y /\
             (Forall no_rising gate_flags -> value_ (fst res) = value_ y)).
  { induction gate_flags as [|g rest IH]; intros y.
    - cbn. auto.
    - cbn [for_each_sample].
      destruct (ProcessLogistic_sample_frame c r y g) as (H1 & H2 & H3).
      destruct (ProcessLogistic_sample c r y g) as [y1 o].
      cbn [fst snd] in *. specialize (IH y1).
      destruct (for_each_sample _ y1 rest) as [y2 out]. cbn [fst snd] in *.
      destruct IH as (I1 & I2 & I3).
      split; [congruence|]. split; [congruence|].
      intros Hall. inversion Hall; subst.
      rewrite I3 by assumption. auto. }
  destruct (value_ x <=? F32.zero)%f32.
  - destruct (Random_GetFloat E (rng_state_ x)) as [u rng].
    specialize (H (set_value_ u (set_rng_state_ rng x))).
    cbv zeta in H. generator_fields. exact H.
  - exact (H x).
Qed.

(** * The follower *)

Lemma ProcessSlave_loop (out : list Output) : forall x,
  let r := for_each_sample ProcessSlave_sample x out in
  snd r = map (slave_output (monitored_segment_ x)) out /\
  monitored_segment_ (fst r) = monitored_segment_ x.
Proof.
  induction out as [|o rest IH]; intros x; [cbn; auto|].
  cbn [for_each_sample].
  set (x1 := set_active_segment_
               (if out_segment o =? monitored_segment_ x then 0 else 1) x).
  assert (Hstep : ProcessSlave_sample x o
                  = (x1, slave_output (monitored_segment_ x) o)).
  { unfold ProcessSlave_sample, slave_output. subst x1. generator_fields.
    destruct (out_segment o =? monitored_segment_ x); reflexivity. }
  rewrite Hstep. specialize (IH x1).
  destruct (for_each_sample ProcessSlave_sample x1 rest) as [x2 out2].
  cbn [fst snd] in *. destruct IH as [I1 I2]. subst x1. generator_fields.
  split; [|exact I2]. rewrite I1. reflexivity.
Qed.

(** X23: the follower rewrites the value of each sample from the sample
    alone.  [ProcessSlave] keeps the phase and the segment index of
    every sample of the buffer it is given, and sets the value to
    [1 - phase] on the samples of the monitored segment and to 0 on the
    others; the monitored segment is not written. *)
Theorem ProcessSlave_rewrites_the_value (out : list Output) x :
  let r := ProcessSlave out x in
  snd r = map (slave_output (monitored_segment_ x)) out /\
  map out_phase (snd r) = map out_phase out /\
  map out_segment (snd r) = map out_segment out /\
  monitored_segment_ (fst r) = monitored_segment_ x.
Proof.
  cbv zeta. unfold ProcessSlave.
  destruct (ProcessSlave_loop out x) as [H1 H2]. rewrite H1, H2.
  rewrite !map_map. repeat split; reflexivity.
Qed.

End Kernels.

(** The generator of the concrete runs. *)
Lemma fresh_is_home :
  phase_in_range (phase_ Bench.fresh) /\
  binary_segment (active_segment_ Bench.fresh) /\
  0 <= retrig_delay_ Bench.fresh <= kRetrigDelaySamples.
Proof.
  split; [split; reflexivity|]. split; [left; reflexivity|].
  replace (retrig_delay_ Bench.fresh) with 0 by reflexivity.
  unfold kRetrigDelaySamples. lia.
Qed.

Lemma ProcessDecayEnvelope_in_range_witness :
  let gate_flags := [Runs.edge; GATE_FLAG_HIGH; GATE_FLAG_FALLING] in
  (env_frequencies_nonneg Bench.env /\
   phase_in_range (phase_ Bench.fresh) /\
   binary_segment (active_segment_ Bench.fresh)) /\
  let r := ProcessDecayEnvelope gate_flags Bench.fresh in
  Forall (fun o => phase_in_range (out_phase o) /\
                   binary_segment (out_segment o)) (snd r) /\
  phase_in_range (phase_ (fst r)) /\
  binary_segment (active_segment_ (fst r)).
Proof.
  split; [split; [exact Bench_env_frequencies|split; apply fresh_is_home]|].
  exact (ProcessDecayEnvelope_in_range
           [Runs.edge; GATE_FLAG_HIGH; GATE_FLAG_FALLING] Bench.fresh
           Bench_env_frequencies (proj1 fresh_is_home)
           (proj1 (proj2 fresh_is_home))).
Defined.

Lemma ProcessTimedPulseGenerator_in_range_witness :
  let gate_flags := [Runs.edge; GATE_FLAG_HIGH; Runs.edge] in
  (env_frequencies_nonneg Bench.env /\
   phase_in_range (phase_ Bench.fresh) /\
   0 <= retrig_delay_ Bench.fresh <= kRetrigDelaySamples) /\
  let r := ProcessTimedPulseGenerator gate_flags Bench.fresh in
  Forall (fun o => phase_in_range (out_phase o)) (snd r) /\
  phase_in_range (phase_ (fst r)) /\
  0 <= retrig_delay_ (fst r) <= kRetrigDelaySamples.
Proof.
  split; [split; [exact Bench_env_frequencies|split; apply fresh_is_home]|].
  exact (ProcessTimedPulseGenerator_in_range
           [Runs.edge; GATE_FLAG_HIGH; Runs.edge] Bench.fresh
           Bench_env_frequencies (proj1 fresh_is_home)
           (proj2 (proj2 fresh_is_home))).
Defined.

Lemma held_then_released :
  Forall no_rising [GATE_FLAG_HIGH; GATE_FLAG_FALLING; GATE_FLAG_LOW].
Proof. repeat constructor. Qed.

Lemma ProcessTuring_needs_an_edge_witness :
  let gate_flags := [GATE_FLAG_HIGH; GATE_FLAG_FALLING; GATE_FLAG_LOW] in
  Forall no_rising gate_flags /\
  let r := ProcessTuring gate_flags Bench.fresh in
  segments_ (fst r) = segments_ Bench.fresh /\
  rng_state_ (fst r) = rng_state_ Bench.fresh /\
  value_ (fst r) = value_ Bench.fresh /\
  Forall (fun o => out_value o
                   = Segment.register_value (segment_at Bench.fresh 0))
    (snd r).
Proof.
  split; [exact held_then_released|].
  exact (ProcessTuring_needs_an_edge
           [GATE_FLAG_HIGH; GATE_FLAG_FALLING; GATE_FLAG_LOW] Bench.fresh
           held_then_released).
Defined.

(** * Configure: the first pass *)

Lemma indices_snoc k : forall lo,
  indices lo (S k) = indices lo k ++ [lo + Z.of_nat k].
Proof.
  induction k as [|k IH]; intros lo.
  - cbn. now rewrite Z.add_0_r.
  - change (indices lo (S (S k))) with (lo :: indices (lo + 1) (S k)).
    rewrite IH. cbn [indices app]. do 3 f_equal. lia.
Qed.

Lemma NoDup_indices k : forall lo, NoDup (indices lo k).
Proof.
  induction k as [|k IH]; intros lo; cbn [indices]; constructor.
  - rewrite In_indices. lia.
  - apply IH.
Qed.

Section FirstPass.

Variable config : list segment.Configuration.

Lemma first_pass_start m :
  m <= 0 ->
  first_pass_summary config m (Build_FirstPass (-1) (-1) false (-1)).
Proof.
  intros H.
  unfold first_pass_summary. cbv beta zeta.
  cbn [loop_start loop_end first_ramp_segment has_step_segments].
  split; [left; split; [reflexivity|split; [reflexivity|intros; lia]]|].
  split; [left; split; [reflexivity|intros; lia]|].
  split; [discriminate|intros (i & Hi & _); lia].
Qed.

(** The first pass after [k] turns. *)
Lemma first_pass_prefix k :
  first_pass_summary config (Z.of_nat k)
    (fold_left (first_pass_body config) (indices 0 k)
       (Build_FirstPass (-1) (-1) false (-1))).
Proof.
  induction k as [|k IH].
  - apply first_pass_start. reflexivity.
  - rewrite indices_snoc, fold_left_app. cbn [fold_left].
    set (a := fold_left _ _ _) in *. clearbody a.
    rewrite Z.add_0_l.
    set (m := Z.of_nat k) in *.
    assert (Hm : 0 <= m) by (subst m; lia).
    replace (Z.of_nat (S k)) with (m + 1) by (subst m; lia).
    clearbody m.
    unfold first_pass_summary in IH. cbv beta zeta in IH.
    destruct IH as (Hloop & Hramp & Hstep).
    unfold first_pass_summary, first_pass_body. cbv beta zeta.
    split; [|split].
    + destruct (segment.loop (config_at config m)) eqn:Hl;
        cbn [loop_start loop_end].
      * right. destruct Hloop as [(H1 & H2 & H3)|(H1 & H2 & H3 & H4 & H5)].
        -- rewrite H1. change (-1 =? -1) with true. cbv iota.
           split; [lia|]. split; [lia|]. split; [exact Hl|].
           split; [exact Hl|].
           intros i Hi Hli. destruct (Z.eq_dec i m) as [->|Hne]; [lia|].
           rewrite H3 in Hli by lia. discriminate.
        -- destruct (Z.eqb_spec (loop_start a) (-1)) as [He|He]; [lia|].
           split; [lia|]. split; [lia|]. split; [exact H3|].
           split; [exact Hl|].
           intros i Hi Hli. destruct (Z.eq_dec i m) as [->|Hne]; [lia|].
           specialize (H5 i ltac:(lia) Hli). lia.
      * destruct Hloop as [(H1 & H2 & H3)|(H1 & H2 & H3 & H4 & H5)].
        -- left. split; [exact H1|]. split; [exact H2|].
           intros i Hi. destruct (Z.eq_dec i m) as [->|Hne];
             [exact Hl|apply H3; lia].
        -- right. split; [lia|]. split; [lia|]. split; [exact H3|].
           split; [exact H4|].
           intros i Hi Hli. destruct (Z.eq_dec i m) as [->|Hne];
             [congruence|].
           specialize (H5 i ltac:(lia) Hli). lia.
    + assert (Hfr : first_ramp_segment
                      (let '(ls, le) :=
                         if segment.loop (config_at config m)
                         then (if loop_start a =? -1 then m else loop_start a, m)
                         else (loop_start a, loop_end a) in
                       Build_FirstPass ls le
                         (has_step_segments a || is_step (config_at config m))
                         (if type_is config m segment.TYPE_RAMP
                             && (first_ramp_segment a =? -1)
                          then m else first_ramp_segment a))
                    = (if type_is config m segment.TYPE_RAMP
                          && (first_ramp_segment a =? -1)
                       then m else first_ramp_segment a))
        by (destruct (segment.loop (config_at config m)); reflexivity).
      rewrite Hfr. clear Hfr.
      destruct (type_is config m segment.TYPE_RAMP) eqn:Hr; cbn [andb].
      * right. destruct Hramp as [(H1 & H2)|(H1 & H2 & H3)].
        -- rewrite H1. change (-1 =? -1) with true. cbv iota.
           split; [lia|]. split; [exact Hr|].
           intros i Hi. apply H2. lia.
        -- destruct (Z.eqb_spec (first_ramp_segment a) (-1)); [lia|].
           split; [lia|]. split; [exact H2|exact H3].
      * destruct Hramp as [(H1 & H2)|(H1 & H2 & H3)].
        -- left. split; [exact H1|].
           intros i Hi. destruct (Z.eq_dec i m) as [->|Hne];
             [exact Hr|apply H2; lia].
        -- right. split; [lia|]. split; [exact H2|exact H3].
    + assert (Hhs : has_step_segments
                      (let '(ls, le) :=
                         if segment.loop (config_at config m)
                         then (if loop_start a =? -1 then m else loop_start a, m)
                         else (loop_start a, loop_end a) in
                       Build_FirstPass ls le
                         (has_step_segments a || is_step (config_at config m))
                         (if type_is config m segment.TYPE_RAMP
                             && (first_ramp_segment a =? -1)
                          then m else first_ramp_segment a))
                    = has_step_segments a || is_step (config_at config m))
        by (destruct (segment.loop (config_at config m)); reflexivity).
      rewrite Hhs. clear Hhs.
      rewrite orb_true_iff, Hstep. split.
      * intros [(i & Hi & H)|H];
          [exists i; split; [lia|exact H]|exists m; split; [lia|exact H]].
      * intros (i & Hi & H).
        destruct (Z.eq_dec i m) as [->|Hne];
          [right; exact H|left; exists i; split; [lia|exact H]].
Qed.

(** X25: what the first pass of [Configure] finds.  Either no segment
    loops and the loop window is (-1, -1), or the window starts on the
    first looping segment and ends on the last, inside the
    configuration; [first_ramp_segment] is the index of the first ramp,
    or -1 when there is none; and [has_step_segments] is set exactly
    when some segment is a step. *)
Theorem first_pass_finds_the_loop n :
  first_pass_summary config n (first_pass config n).
Proof.
  unfold first_pass, upto.
  destruct (Z.le_gt_cases n 0) as [H|H].
  - replace (Z.to_nat (n - 1 - 0 + 1)) with 0%nat by lia.
    apply first_pass_start, H.
  - pose proof (first_pass_prefix (Z.to_nat (n - 1 - 0 + 1))) as Hp.
    replace (Z.of_nat (Z.to_nat (n - 1 - 0 + 1))) with n in Hp by lia.
    exact Hp.
Qed.

End FirstPass.

(** * Configure: the search for the next step *)

Section NextStepResult.

Variable config : list segment.Configuration.
Variable n : Z.

(** With fuel for every turn the search ends on a step segment or on
    the last segment, inside the configuration. *)
Lemma find_next_step_result a fuel : forall follow_loop next_step,
  0 <= next_step < n ->
  (follow_loop = true -> 0 <= loop_start a) ->
  (n - next_step) + (if follow_loop then n else 0) < Z.of_nat fuel ->
  let r := find_next_step config n a fuel follow_loop next_step in
  0 <= r < n /\ (is_step (config_at config r) = true \/ r = n - 1).
Proof.
  induction fuel as [|fuel IH]; intros fl ns Hns Hfl Hfuel.
  - destruct fl; lia.
  - cbn [find_next_step].
    destruct (is_step (config_at config ns)) eqn:Hstep.
    + cbv zeta. rewrite Hstep. split; [exact Hns|left; reflexivity].
    + destruct (fl && (ns + 1 =? loop_end a + 1)) eqn:Hjump.
      * apply andb_prop in Hjump. destruct Hjump as [Hf _]. subst fl.
        specialize (Hfl eq_refl).
        destruct (Z.geb_spec (loop_start a) n).
        -- cbv zeta. split; [lia|right; reflexivity].
        -- apply IH; [lia|discriminate|lia].
      * destruct (Z.geb_spec (ns + 1) n).
        -- cbv zeta. split; [lia|right; reflexivity].
        -- apply IH; [lia|exact Hfl|destruct fl; lia].
Qed.

(** X26: the search for the next step segment halts.  For every
    configuration and every segment [i] of it, the [while] loop of
    [Configure] is over within [2 * num_segments + 2] turns (more fuel
    gives the same result), and it ends on a segment of the
    configuration that is a step segment or the last one. *)
Theorem find_next_step_halts i fuel :
  0 <= i < n ->
  (next_step_fuel n <= fuel)%nat ->
  let a := first_pass config n in
  let follow_loop := negb (loop_end a =? -1) in
  let r := find_next_step config n a (next_step_fuel n) follow_loop i in
  find_next_step config n a fuel follow_loop i = r /\
  0 <= r < n /\
  (is_step (config_at config r) = true \/ r = n - 1).
Proof.
  intros Hi Hfuel a follow_loop r.
  pose proof (first_pass_window config n) as Hw. fold a in Hw.
  split.
  - apply next_step_fuel_suffices; assumption.
  - apply find_next_step_result.
    + exact Hi.
    + subst follow_loop. intros Hf. apply negb_true_iff, Z.eqb_neq in Hf.
      unfold loop_window_in_range in Hw. lia.
    + unfold next_step_fuel. destruct follow_loop; lia.
Qed.

End NextStepResult.

Lemma find_next_step_halts_witness :
  (0 <= 0 < 2 /\ (next_step_fuel 2 <= 10)%nat) /\
  let a := first_pass Runs.ramp_hold 2 in
  let follow_loop := negb (loop_end a =? -1) in
  let r := find_next_step Runs.ramp_hold 2 a (next_step_fuel 2) follow_loop 0 in
  find_next_step Runs.ramp_hold 2 a 10 follow_loop 0 = r /\
  0 <= r < 2 /\
  (is_step (config_at Runs.ramp_hold r) = true \/ r = 2 - 1).
Proof.
  assert (H1 : 0 <= 0 < 2) by lia.
  assert (H2 : (next_step_fuel 2 <= 10)%nat)
    by (unfold next_step_fuel; cbn; lia).
  split; [split; assumption|].
  exact (find_next_step_halts Runs.ramp_hold 2 0 10 H1 H2).
Defined.

(** * Configure: the second loop and the sentinel *)

(** The second loop, exactly: every index visited holds its segment
    rewired once, the others are as they were. *)
Lemma configure_loop_exact (f : Z -> Segment.t -> Segment.t) :
  forall idxs segments,
    NoDup idxs ->
    (forall i, In i idxs -> 0 <= i < Z.of_nat (length segments)) ->
    let r :=
      fold_left
        (fun segments i =>
           put segments i (f i (at_ Segment_default segments i)))
        idxs segments in
    length r = length segments /\
    (forall i, In i idxs ->
       at_ Segment_default r i = f i (at_ Segment_default segments i)) /\
    (forall j, ~ In j idxs ->
       at_ Segment_default r j = at_ Segment_default segments j).
Proof.
  induction idxs as [|i0 rest IH]; intros segments Hnd Hin.
  - cbn. repeat split; tauto.
  - cbn [fold_left]. inversion Hnd as [|? ? Hnot Hnd']; subst.
    set (segments1 := put segments i0 _).
    assert (Hlen : length segments1 = length segments) by apply put_length.
    destruct (IH segments1 Hnd') as (H1 & H2 & H3).
    { intros i Hi. rewrite Hlen. apply Hin. right. exact Hi. }
    cbv zeta in *. split; [congruence|]. split.
    + intros i [<-|Hi].
      * rewrite (H3 i0 Hnot). subst segments1.
        apply at_put_eq. apply Hin. left. reflexivity.
      * rewrite (H2 i Hi). subst segments1.
        rewrite at_put_ne; [reflexivity|]. intros ->. contradiction.
    + intros j Hj. rewrite H3 by (intros Hr; apply Hj; right; exact Hr).
      subst segments1. apply at_put_ne. intros ->. apply Hj. left.
      reflexivity.
Qed.

(** A loop of stores that keep the image of each cell under [g] keeps
    the image of the array. *)
Lemma configure_loop_keeps {B : Type} (g : Segment.t -> B)
    (f : Z -> Segment.t -> Segment.t) :
  (forall i s, g (f i s) = g s) ->
  forall idxs segments,
    map g (fold_left
             (fun segments i =>
                put segments i (f i (at_ Segment_default segments i)))
             idxs segments)
    = map g segments.
Proof.
  intros Hf. induction idxs as [|i0 rest IH]; intros segments; [reflexivity|].
  cbn [fold_left]. rewrite IH. apply (map_put g Segment_default), Hf.
Qed.

Section Rewiring.

Context {E : Env}.
Implicit Types x : @SegmentGenerator E.

Variable config : list segment.Configuration.
Variable n : Z.

Ltac if_cases :=
  repeat match goal with
         | |- context [if ?b then _ else _] => destruct b
         end.

Lemma configure_segment_keeps a i s :
  Segment.shift_register (configure_segment config n a i s)
  = Segment.shift_register s /\
  Segment.register_value (configure_segment config n a i s)
  = Segment.register_value s /\
  Segment.range (configure_segment config n a i s) = Segment.range s.
Proof.
  unfold configure_segment. cbv zeta. if_cases; repeat split; reflexivity.
Qed.

Lemma configure_sentinel_keeps a segments :
  let s := at_ Segment_default segments n in
  let s' := configure_sentinel n a segments in
  Segment.shift_register s' = Segment.shift_register s /\
  Segment.register_value s' = Segment.register_value s /\
  Segment.range s' = Segment.range s /\
  Segment.phase s' = Segment.phase s /\
  Segment.bipolar s' = Segment.bipolar s /\
  Segment.retrig s' = Segment.retrig s /\
  Segment.advance_tm s' = Segment.advance_tm s.
Proof.
  unfold configure_sentinel. cbv zeta. repeat split; reflexivity.
Qed.

(** X28: with 2 to 6 segments and the seven slots of the array,
    [Configure] only rewires.  It leaves the shift register, the
    register value and the range of every segment as they were, as well
    as the parameters, the random generator, the ramp extractor and the
    running values [phase_], [start_], [value_], [lp_] and [primary_];
    the array of segments keeps its length. *)
Theorem Configure_only_rewires has_trigger x :
  2 <= n <= kMaxNumSegments ->
  length (segments_ x) = Z.to_nat (kMaxNumSegments + 1) ->
  let x' := Configure config n has_trigger x in
  map Segment.shift_register (segments_ x')
  = map Segment.shift_register (segments_ x) /\
  map Segment.register_value (segments_ x')
  = map Segment.register_value (segments_ x) /\
  map Segment.range (segments_ x') = map Segment.range (segments_ x) /\
  length (segments_ x') = length (segments_ x) /\
  parameters_ x' = parameters_ x /\
  rng_state_ x' = rng_state_ x /\
  ramp_extractor_ x' = ramp_extractor_ x /\
  (phase_ x', start_ x', value_ x', lp_ x', primary_ x')
  = (phase_ x, start_ x, value_ x, lp_ x, primary_ x).
Proof.
  intros Hn _. cbv zeta. unfold Configure.
  destruct (Z.eqb_spec n 1) as [He|_]; [lia|].
  cbn [segments_ parameters_ rng_state_ ramp_extractor_ phase_ start_ value_
       lp_ primary_ set_active_segment_ set_segments_ set_process_fn_
       set_num_segments_].
  set (a := first_pass config n).
  set (segments := fold_left _ _ _).
  destruct (configure_sentinel_keeps a segments) as (S1 & S2 & S3 & _).
  split; [|split; [|split; [|split]]].
  - rewrite (map_put Segment.shift_register Segment_default) by exact S1.
    apply configure_loop_keeps. intros i s. apply configure_segment_keeps.
  - rewrite (map_put Segment.register_value Segment_default) by exact S2.
    apply configure_loop_keeps. intros i s. apply configure_segment_keeps.
  - rewrite (map_put Segment.range Segment_default) by exact S3.
    apply configure_loop_keeps. intros i s. apply configure_segment_keeps.
  - rewrite put_length.
    rewrite <- (length_map Segment.range segments).
    rewrite <- (length_map Segment.range (segments_ x)).
    f_equal. apply configure_loop_keeps. intros i s.
    apply configure_segment_keeps.
  - repeat split; reflexivity.
Qed.

(** What [Configure] makes of the array of segments. *)
Lemma Configure_segments has_trigger x :
  2 <= n <= kMaxNumSegments ->
  length (segments_ x) = Z.to_nat (kMaxNumSegments + 1) ->
  let a := first_pass config n in
  let x' := Configure config n has_trigger x in
  (forall i, 0 <= i < n ->
     segment_at x' i = configure_segment config n a i (segment_at x i)) /\
  (exists segments,
     segment_at x' n = configure_sentinel n a segments /\
     at_ Segment_default segments n = segment_at x n /\
     at_ Segment_default segments (n - 1)
     = configure_segment config n a (n - 1) (segment_at x (n - 1))) /\
  (forall j, n < j -> segment_at x' j = segment_at x j).
Proof.
  intros Hn Hlen a x'. subst x'. unfold Configure.
  destruct (Z.eqb_spec n 1) as [Hn1|_]; [lia|].
  fold a. unfold segment_at.
  cbn [segments_ set_active_segment_ set_segments_ set_process_fn_
       set_num_segments_].
  destruct (configure_loop_exact (configure_segment config n a)
              (upto 0 (n - 1)) (segments_ x)) as (H1 & H2 & H3).
  { apply NoDup_indices. }
  { intros i Hi. apply In_upto in Hi. rewrite Hlen.
    unfold kMaxNumSegments in *. lia. }
  cbv zeta in H1, H2, H3.
  set (segments := fold_left _ _ _) in *.
  split; [|split].
  - intros i Hi. rewrite at_put_ne by lia. apply H2, In_upto. lia.
  - exists segments. split; [|split].
    + apply at_put_eq. rewrite H1, Hlen. unfold kMaxNumSegments in *. lia.
    + apply H3. rewrite In_upto. lia.
    + apply H2, In_upto. lia.
  - intros j Hj. rewrite at_put_ne by lia. apply H3. rewrite In_upto. lia.
Qed.

Lemma configure_segment_pointers a i s :
  0 <= i < n ->
  wired_in_range n (configure_segment config n a i s) /\
  pointer_in_range n (Segment.phase (configure_segment config n a i s)).
Proof.
  intros Hi. unfold configure_segment, wired_in_range. cbv zeta.
  destruct (type_is config i segment.TYPE_RAMP).
  - destruct (Z.eqb_spec i (n - 1)).
    + cbn. repeat split; try exact I; try lia. if_cases; exact I.
    + if_cases; cbn; repeat split; try exact I; try lia; if_cases; exact I.
  - if_cases; cbn; repeat split; try exact I; try lia.
Qed.

(** X27: [Configure] leaves no pointer dangling.  With 2 to 6 segments
    on a generator with its seven segment slots, every indirection of
    every configured segment refers to a constant of the generator, to
    a parameter of one of the [n] segments or to the register value of
    one of them (a ramp reads the cell of the segment after it only
    when it is not the last); so do the five indirections [Configure]
    writes in the sentinel.  The phase indirection and the three flags
    of the sentinel are not written: the sentinel keeps what the slot
    held. *)
Theorem Configure_pointers_in_range has_trigger x :
  2 <= n <= kMaxNumSegments ->
  length (segments_ x) = Z.to_nat (kMaxNumSegments + 1) ->
  let x' := Configure config n has_trigger x in
  (forall i, 0 <= i < n ->
     wired_in_range n (segment_at x' i) /\
     pointer_in_range n (Segment.phase (segment_at x' i))) /\
  wired_in_range n (segment_at x' n) /\
  Segment.phase (segment_at x' n) = Segment.phase (segment_at x n) /\
  Segment.bipolar (segment_at x' n) = Segment.bipolar (segment_at x n) /\
  Segment.retrig (segment_at x' n) = Segment.retrig (segment_at x n) /\
  Segment.advance_tm (segment_at x' n) = Segment.advance_tm (segment_at x n).
Proof.
  intros Hn Hlen.
  destruct (Configure_segments has_trigger x Hn Hlen)
    as (H1 & (segments & H2 & H3 & H4) & _).
  cbv zeta in *. split.
  - intros i Hi. rewrite (H1 i Hi). apply configure_segment_pointers, Hi.
  - rewrite H2.
    destruct (configure_sentinel_keeps (first_pass config n) segments)
      as (_ & _ & _ & K1 & K2 & K3 & K4).
    cbv zeta in *. rewrite K1, K2, K3, K4, H3.
    split; [|repeat split; reflexivity].
    unfold configure_sentinel, wired_in_range. cbn. rewrite H4.
    destruct (configure_segment_pointers (first_pass config n) (n - 1)
                (segment_at x (n - 1)) ltac:(lia)) as [(_ & He & _) _].
    repeat split; try exact I; exact He.
Qed.

(** X29: [Configure] rewires every segment once, from the
    configuration alone.  Segment [i] of the result is
    [configure_segment] of what the slot held; in particular a
    configuration with a step segment makes no segment react to the
    falling edge, and one without makes every rising edge restart at
    segment 0; the slots above the sentinel are left as they were. *)
Theorem Configure_rewires_each_segment has_trigger x i :
  2 <= n <= kMaxNumSegments ->
  length (segments_ x) = Z.to_nat (kMaxNumSegments + 1) ->
  0 <= i < n ->
  let a := first_pass config n in
  let x' := Configure config n has_trigger x in
  segment_at x' i = configure_segment config n a i (segment_at x i) /\
  Segment.if_complete (segment_at x' i)
  = (if i =? loop_end a then loop_start a else i + 1) /\
  Segment.if_falling (segment_at x' i)
  = (if has_step_segments a then -1
     else if (loop_end a =? -1) || (loop_end a =? n - 1) then -1
     else loop_end a + 1) /\
  (has_step_segments a = false -> Segment.if_rising (segment_at x' i) = 0) /\
  (forall j, n < j -> segment_at x' j = segment_at x j).
Proof.
  intros Hn Hlen Hi a x'.
  destruct (Configure_segments has_trigger x Hn Hlen) as (H1 & _ & H3).
  cbv zeta in *. fold a in H1. subst x'. split; [apply H1, Hi|].
  rewrite (H1 i Hi). unfold configure_segment. cbn.
  split; [reflexivity|]. split; [|split].
  - destruct (has_step_segments a); [rewrite !orb_true_r; reflexivity|].
    rewrite orb_false_r. reflexivity.
  - intros Hs. unfold if_rising_of. rewrite Hs. reflexivity.
  - exact H3.
Qed.

End Rewiring.

Lemma fresh_has_seven_segments :
  2 <= 2 <= kMaxNumSegments /\
  length (segments_ Bench.fresh) = Z.to_nat (kMaxNumSegments + 1).
Proof. split; [unfold kMaxNumSegments; lia|reflexivity]. Qed.

Lemma Configure_pointers_in_range_witness :
  let x := Bench.fresh in
  let n := 2 in
  (2 <= n <= kMaxNumSegments /\
   length (segments_ x) = Z.to_nat (kMaxNumSegments + 1)) /\
  let x' := Configure Runs.ramp_hold n true x in
  (forall i, 0 <= i < n ->
     wired_in_range n (segment_at x' i) /\
     pointer_in_range n (Segment.phase (segment_at x' i))) /\
  wired_in_range n (segment_at x' n) /\
  Segment.phase (segment_at x' n) = Segment.phase (segment_at x n) /\
  Segment.bipolar (segment_at x' n) = Segment.bipolar (segment_at x n) /\
  Segment.retrig (segment_at x' n) = Segment.retrig (segment_at x n) /\
  Segment.advance_tm (segment_at x' n) = Segment.advance_tm (segment_at x n).
Proof.
  split; [exact fresh_has_seven_segments|].
  exact (Configure_pointers_in_range Runs.ramp_hold 2 true Bench.fresh
           (proj1 fresh_has_seven_segments) (proj2 fresh_has_seven_segments)).
Defined.

Lemma Configure_only_rewires_witness :
  let x := Bench.fresh in
  let n := 2 in
  (2 <= n <= kMaxNumSegments /\
   length (segments_ x) = Z.to_nat (kMaxNumSegments + 1)) /\
  let x' := Configure Runs.ramp_hold n true x in
  map Segment.shift_register (segments_ x')
  = map Segment.shift_register (segments_ x) /\
  map Segment.register_value (segments_ x')
  = map Segment.register_value (segments_ x) /\
  map Segment.range (segments_ x') = map Segment.range (segments_ x) /\
  length (segments_ x') = length (segments_ x) /\
  parameters_ x' = parameters_ x /\
  rng_state_ x' = rng_state_ x /\
  ramp_extractor_ x' = ramp_extractor_ x /\
  (phase_ x', start_ x', value_ x', lp_ x', primary_ x')
  = (phase_ x, start_ x, value_ x, lp_ x, primary_ x).
Proof.
  split; [exact fresh_has_seven_segments|].
  exact (Configure_only_rewires Runs.ramp_hold 2 true Bench.fresh
           (proj1 fresh_has_seven_segments) (proj2 fresh_has_seven_segments)).
Defined.

Lemma Configure_rewires_each_segment_witness :
  let x := Bench.fresh in
  let n := 2 in
  let i := 1 in
  (2 <= n <= kMaxNumSegments /\
   length (segments_ x) = Z.to_nat (kMaxNumSegments + 1) /\
   0 <= i < n) /\
  let a := first_pass Runs.ramp_hold n in
  let x' := Configure Runs.ramp_hold n true x in
  segment_at x' i = configure_segment Runs.ramp_hold n a i (segment_at x i) /\
  Segment.if_complete (segment_at x' i)
  = (if i =? loop_end a then loop_start a else i + 1) /\
  Segment.if_falling (segment_at x' i)
  = (if has_step_segments a then -1
     else if (loop_end a =? -1) || (loop_end a =? n - 1) then -1
     else loop_end a + 1) /\
  (has_step_segments a = false -> Segment.if_rising (segment_at x' i) = 0) /\
  (forall j, n < j -> segment_at x' j = segment_at x j).
Proof.
  assert (Hi : 0 <= 1 < 2) by lia.
  split; [split; [apply fresh_has_seven_segments|split;
                  [apply fresh_has_seven_segments|exact Hi]]|].
  exact (Configure_rewires_each_segment Runs.ramp_hold 2 true Bench.fresh 1
           (proj1 fresh_has_seven_segments) (proj2 fresh_has_seven_segments)
           Hi).
Defined.

(** * Holding and disarming *)

Section Holding.

Context {E : Env}.
Implicit Types x : @SegmentGenerator E.

Ltac generator_fields :=
  cbn [process_fn_ multimode rng_state_ phase_ aux_ zero_ half_ one_ start_
       value_ lp_ primary_ monitored_segment_ active_segment_ retrig_delay_
       segments_ parameters_ ramp_extractor_ ramp_division_quantizer_
       delay_line_ gate_delay_ num_segments_
       set_process_fn_ set_multimode set_rng_state_ set_phase_ set_aux_
       set_zero_ set_half_ set_one_ set_start_ set_value_ set_lp_ set_primary_
       set_monitored_segment_ set_active_segment_ set_retrig_delay_
       set_segments_ set_parameters_ set_ramp_extractor_
       set_ramp_division_quantizer_ set_delay_line_ set_gate_delay_
       set_num_segments_
       ml_obj ml_phase ml_start ml_lp ml_value
       out_value out_phase out_segment emit follow_gate
       fst snd] in *.

(** Without an edge, a segment that has no time indirection and is not
    complete selects no transition. *)
Lemma held_sample (s : @MultiLoop E) g :
  let x := ml_obj s in
  is_null (Segment.time (segment_at x (active_segment_ x))) = true ->
  (ml_phase s >=? F32.one)%f32 = false ->
  flag_set g GATE_FLAG_RISING = false ->
  flag_set g GATE_FLAG_FALLING = false ->
  let r := ProcessMultiSegment_sample s g in
  ml_obj (fst r) = x /\
  ml_phase (fst r) = ml_phase s /\
  out_segment (snd r) = active_segment_ x /\
  out_phase (snd r) = ml_phase s.
Proof.
  intros x Hnull Hphase Hr Hf. cbv zeta.
  unfold ProcessMultiSegment_sample, advanced_phase, go_to_segment_of.
  fold x. rewrite Hnull, Hphase, Hr, Hf. cbn [andb].
  change (-1 =? -1) with true. cbv iota. generator_fields. auto.
Qed.

(** X24: a segment without a time indirection holds until an edge.
    When the active segment has no time pointer (a step or Turing
    segment, or a hold that loops on itself) and its phase is below 1,
    a block with neither a rising nor a falling edge leaves the
    multi-segment engine on it: every sample carries the same segment
    index and the same phase, and after the block the segments and the
    random generator are as they were. *)
Theorem segment_without_time_holds gate_flags x :
  is_null (Segment.time (segment_at x (active_segment_ x))) = true ->
  (phase_ x >=? F32.one)%f32 = false ->
  Forall (fun g => flag_set g GATE_FLAG_RISING = false /\
                   flag_set g GATE_FLAG_FALLING = false) gate_flags ->
  let r := ProcessMultiSegment gate_flags x in
  Forall (fun o => out_segment o = active_segment_ x /\
                   out_phase o = phase_ x) (snd r) /\
  active_segment_ (fst r) = active_segment_ x /\
  phase_ (fst r) = phase_ x /\
  segments_ (fst r) = segments_ x /\
  rng_state_ (fst r) = rng_state_ x.
Proof.
  intros Hnull Hphase Hall. cbv zeta. unfold ProcessMultiSegment.
  assert (H : forall s,
             ml_obj s = x -> ml_phase s = phase_ x ->
             let r := for_each_sample ProcessMultiSegment_sample s gate_flags in
             (ml_obj (fst r) = x /\ ml_phase (fst r) = phase_ x) /\
             Forall (fun o => out_segment o = active_segment_ x /\
                              out_phase o = phase_ x) (snd r)).
  { induction Hall as [|g rest [Hg1 Hg2] _ IH]; intros s Hs Hp.
    - cbn. auto.
    - cbn [for_each_sample].
      destruct (held_sample s g) as (H1 & H2 & H3 & H4);
        try assumption; try (rewrite Hs; exact Hnull);
        try (rewrite Hp; exact Hphase).
      destruct (ProcessMultiSegment_sample s g) as [s1 o].
      cbn [fst snd] in *.
      specialize (IH s1 ltac:(congruence) ltac:(congruence)).
      destruct (for_each_sample _ s1 rest) as [s2 out]. cbn [fst snd] in *.
      destruct IH as [IH1 IH2]. split; [exact IH1|].
      constructor; [|exact IH2]. rewrite H3, H4, Hs, Hp. auto. }
  specialize (H (Build_MultiLoop x (phase_ x) (start_ x) (lp_ x) (value_ x))
                eq_refl eq_refl).
  destruct (for_each_sample _ _ gate_flags) as [s out]. cbn [fst snd] in *.
  destruct H as [[H1 H2] H3]. generator_fields. rewrite H1.
  auto.
Qed.

(** While the disarm counter is above the number of samples left, the
    timed pulse is silent. *)
Lemma disarmed_loop frequency gate_flags : forall x primary,
  Forall no_rising gate_flags ->
  Z.of_nat (length gate_flags) < retrig_delay_ x ->
  Forall (fun o => out_value o = F32.zero)
    (snd (for_each_sample (ProcessTimedPulseGenerator_sample frequency)
            (x, primary) gate_flags)).
Proof.
  induction gate_flags as [|g rest IH]; intros x primary Hall Hd.
  - constructor.
  - inversion Hall as [|? ? Hg Hrest]; subst.
    cbn [for_each_sample length] in *.
    assert (Hs : let r := ProcessTimedPulseGenerator_sample frequency
                            (x, primary) g in
                 retrig_delay_ (fst (fst r)) = retrig_delay_ x - 1 /\
                 out_value (snd r) = F32.zero).
    { cbv zeta. unfold ProcessTimedPulseGenerator_sample, TimedPulse_rising.
      unfold no_rising in Hg. rewrite Hg. cbn [andb].
      destruct (Z.eqb_spec (retrig_delay_ x) 0) as [H0|H0]; [lia|].
      cbn [negb]. unfold Next. generator_fields.
      assert (H1 : (retrig_delay_ x - 1 =? 0) = false)
        by (apply Z.eqb_neq; lia).
      destruct (phase_ x + frequency >=? F32.one)%f32; generator_fields;
        rewrite ?H1, ?andb_false_r; auto. }
    destruct (ProcessTimedPulseGenerator_sample frequency (x, primary) g)
      as [[x1 p1] o].
    cbn [fst snd] in *. destruct Hs as [Hs1 Hs2].
    specialize (IH x1 p1 Hrest ltac:(lia)).
    destruct (for_each_sample _ (x1, p1) rest) as [[x2 p2] out].
    cbn [snd] in *. constructor; assumption.
Qed.

(** X15: a retriggered pulse is silent for 31 samples.  When a rising
    edge retriggers a timed pulse that is running, the sample of the
    edge and the samples after it are silent as long as no other rising
    edge comes and fewer than [kRetrigDelaySamples - 1] samples have
    followed the edge, whatever the primary value and the pulse
    duration. *)
Theorem retriggered_pulse_is_silent g gate_flags x :
  flag_set g GATE_FLAG_RISING = true ->
  active_segment_ x = 0 ->
  Segment.retrig (segment_at x 0) = true ->
  Forall no_rising gate_flags ->
  Z.of_nat (length gate_flags) < kRetrigDelaySamples - 1 ->
  Forall (fun o => out_value o = F32.zero)
    (snd (ProcessTimedPulseGenerator (g :: gate_flags) x)).
Proof.
  intros Hg Ha Hr Hall Hlen. unfold ProcessTimedPulseGenerator.
  set (f := RateToFrequency _). set (p := ParameterInterpolator_make _ _ _).
  cbn [for_each_sample].
  assert (Hs : let r := ProcessTimedPulseGenerator_sample f (x, p) g in
               retrig_delay_ (fst (fst r)) = kRetrigDelaySamples - 1 /\
               out_value (snd r) = F32.zero).
  { cbv zeta. unfold ProcessTimedPulseGenerator_sample, TimedPulse_rising.
    rewrite Hg, Ha, Hr. cbn [andb negb orb Z.eqb]. unfold Next.
    generator_fields.
    change (negb (kRetrigDelaySamples =? 0)) with true. cbv iota.
    generator_fields.
    change (kRetrigDelaySamples - 1 =? 0) with false.
    destruct (F32.zero + f >=? F32.one)%f32; generator_fields;
      rewrite ?andb_false_r; auto. }
  destruct (ProcessTimedPulseGenerator_sample f (x, p) g) as [[x1 p1] o].
  cbn [fst snd] in *. destruct Hs as [Hs1 Hs2].
  pose proof (disarmed_loop f gate_flags x1 p1 Hall ltac:(lia)) as H.
  destruct (for_each_sample _ (x1, p1) gate_flags) as [[x2 p2] out].
  cbn [snd] in *. constructor; assumption.
Qed.

End Holding.

Lemma step_is_held :
  is_null
    (Segment.time
       (segment_at Holds.on_the_step (active_segment_ Holds.on_the_step)))
  = true /\
  (phase_ Holds.on_the_step >=? F32.one)%f32 = false.
Proof. split; reflexivity. Qed.

Lemma segment_without_time_holds_witness :
  let gate_flags := [GATE_FLAG_LOW; GATE_FLAG_HIGH; GATE_FLAG_HIGH] in
  let x := Holds.on_the_step in
  (is_null (Segment.time (segment_at x (active_segment_ x))) = true /\
   (phase_ x >=? F32.one)%f32 = false /\
   Forall (fun g => flag_set g GATE_FLAG_RISING = false /\
                    flag_set g GATE_FLAG_FALLING = false) gate_flags) /\
  let r := ProcessMultiSegment gate_flags x in
  Forall (fun o => out_segment o = active_segment_ x /\
                   out_phase o = phase_ x) (snd r) /\
  active_segment_ (fst r) = active_segment_ x /\
  phase_ (fst r) = phase_ x /\
  segments_ (fst r) = segments_ x /\
  rng_state_ (fst r) = rng_state_ x.
Proof.
  split; [split; [apply step_is_held|split;
                  [apply step_is_held|exact held_gate]]|].
  exact (segment_without_time_holds
           [GATE_FLAG_LOW; GATE_FLAG_HIGH; GATE_FLAG_HIGH] Holds.on_the_step
           (proj1 step_is_held) (proj2 step_is_held) held_gate).
Defined.

Lemma fresh_retriggers :
  flag_set Runs.edge GATE_FLAG_RISING = true /\
  active_segment_ Bench.fresh = 0 /\
  Segment.retrig (segment_at Bench.fresh 0) = true.
Proof. repeat split; reflexivity. Qed.

Lemma retriggered_pulse_is_silent_witness :
  let gate_flags := [GATE_FLAG_HIGH; GATE_FLAG_FALLING; GATE_FLAG_LOW] in
  (flag_set Runs.edge GATE_FLAG_RISING = true /\
   active_segment_ Bench.fresh = 0 /\
   Segment.retrig (segment_at Bench.fresh 0) = true /\
   Forall no_rising gate_flags /\
   Z.of_nat (length gate_flags) < kRetrigDelaySamples - 1) /\
  Forall (fun o => out_value o = F32.zero)
    (snd (ProcessTimedPulseGenerator (Runs.edge :: gate_flags) Bench.fresh)).
Proof.
  assert (Hl : Z.of_nat (length [GATE_FLAG_HIGH; GATE_FLAG_FALLING;
                                 GATE_FLAG_LOW])
               < kRetrigDelaySamples - 1)
    by (unfold kRetrigDelaySamples; cbn; lia).
  destruct fresh_retriggers as (H1 & H2 & H3).
  split; [repeat (split; [assumption|]); split;
          [exact held_then_released|exact Hl]|].
  exact (retriggered_pulse_is_silent Runs.edge
           [GATE_FLAG_HIGH; GATE_FLAG_FALLING; GATE_FLAG_LOW] Bench.fresh
           H1 H2 H3 held_then_released Hl).
Defined.

(** * The note quantizer *)

Section Hysteresis.

Import NoteQuantizer.

Variable store : Z -> Z.

Lemma Process_disabled pitch root x :
  enabled_ x = false -> Process store pitch root x = Some (pitch, x).
Proof. intros H. unfold Process. rewrite H. reflexivity. Qed.

Lemma Process_in_window pitch root x :
  enabled_ x = true ->
  in_window x root pitch ->
  Process store pitch root x = Some (int16 (int16 (codeword_ x) + root), x).
Proof.
  intros He [H1 H2]. unfold Process. rewrite He. cbn [negb]. cbv zeta.
  replace (int16 (pitch - root) >=? previous_boundary_ x) with true
    by (symmetry; apply Z.geb_le; exact H1).
  replace (int16 (pitch - root) <=? next_boundary_ x) with true
    by (symmetry; apply Z.leb_le; exact H2).
  reflexivity.
Qed.

Lemma int16_small z : - 2 ^ 15 <= z < 2 ^ 15 -> int16 z = z.
Proof. intros H. unfold int16. rewrite Z.mod_small; lia. Qed.

Lemma requantize_keeps_the_scale pitch x x' :
  requantize store pitch x = Some x' ->
  notes_ x' = notes_ x /\
  span_ x' = span_ x /\
  num_notes_ x' = num_notes_ x /\
  enabled_ x' = enabled_ x.
Proof.
  unfold requantize. destruct (span_ x =? 0); [discriminate|]. cbv zeta.
  destruct (fold_left _ _ _) as [[best_distance q]|]; [|discriminate].
  destruct (note x 0) as [first|]; [|discriminate].
  match goal with
  | |- match ?m with _ => _ end = _ -> _ =>
      destruct m as [[octave q']|]; [|discriminate]
  end.
  destruct (note x q'); [|discriminate].
  destruct (note x (if q' =? 0 then _ else _)); [|discriminate].
  destruct (note x (if q' =? num_notes_ x - 1 then _ else _));
    [|discriminate].
  intros H. injection H as <-. repeat split; reflexivity.
Qed.

(** X30: the quantizer holds its note.  A disabled quantizer returns
    every pitch as it is and keeps its state.  An enabled one, called
    any number of times with pitches that, relative to the root, lie
    between [previous_boundary_] and [next_boundary_], returns the code
    word transposed by the root at each call and keeps its state: the
    scale is not searched again.  After [Init] the window is the single
    pitch of the root, which is returned as it is, whatever the scale.
    In every case a call that returns gives the code word it leaves in
    the object, transposed by the root, and keeps the scale. *)
Theorem quantizer_holds_its_note root x pitches :
  (enabled_ x = false ->
   Process_all store pitches root x = Some (pitches, x)) /\
  (enabled_ x = true ->
   Forall (in_window x root) pitches ->
   Process_all store pitches root x
   = Some (map (fun _ => int16 (int16 (codeword_ x) + root)) pitches, x)) /\
  (- 2 ^ 15 <= root < 2 ^ 15 ->
   Process store root root (Init x) = Some (root, Init x)) /\
  (forall pitch out x',
     enabled_ x = true ->
     Process store pitch root x = Some (out, x') ->
     out = int16 (int16 (codeword_ x') + root) /\
     notes_ x' = notes_ x /\
     span_ x' = span_ x /\
     num_notes_ x' = num_notes_ x /\
     enabled_ x' = true).
Proof.
  split; [|split; [|split]].
  - intros He. induction pitches as [|p rest IH]; [reflexivity|].
    cbn [Process_all]. rewrite (Process_disabled p root x He), IH.
    reflexivity.
  - intros He Hall. induction Hall as [|p rest Hp _ IH]; [reflexivity|].
    cbn [Process_all map].
    rewrite (Process_in_window p root x He Hp), IH. reflexivity.
  - intros Hroot.
    rewrite (Process_in_window root root (Init x) eq_refl).
    + cbn [Init codeword_]. change (int16 0) with 0. rewrite Z.add_0_l.
      rewrite (int16_small root Hroot). reflexivity.
    + unfold in_window. cbn [Init previous_boundary_ next_boundary_].
      rewrite Z.sub_diag. change (int16 0) with 0. lia.
  - intros pitch out x' He. unfold Process. rewrite He. cbn [negb].
    cbv zeta. destruct (_ && _).
    + intros H. injection H as <- <-. auto.
    + destruct (requantize store (int16 (pitch - root)) x) as [y|] eqn:Hq;
        [|discriminate].
      intros H. injection H as <- <-.
      destruct (requantize_keeps_the_scale _ _ _ Hq) as (H1 & H2 & H3 & H4).
      rewrite H1, H2, H3, H4. auto.
Qed.

End Hysteresis.

